(** * Workfile builder ([ayon_core.pipeline.workfile.build_workfile])

    A shallow embedding of [BuildWorkfile]: profile validation, product to
    profile resolution, collection of the latest representations, the
    ordered load loop and the top-level orchestration.

    Python values are modelled as follows.
    - [str] is [string]; [str.lower] is modelled on ASCII letters.
    - A [dict] is an association list in insertion order with unique keys
      ([PyDict]): iteration order of [items()], [keys()] and [values()] is
      observable in the load loop, so a finite map without order is not
      enough.
    - Entity documents are records; an optional key is an [option] field
      and subscripting an absent key raises [KeyError].
    - Name filters are patterns of Python's [re], modelled for literal
      characters, [.], [^] and a postfix [*] ([Re]); [re.compile] rejects
      an invalid pattern with [re.error], and a pattern outside the
      fragment ends the computation with [UnmodelledPattern].
    - Effects (host scene mutation by loaders, [self.build_presets], logging,
      printing, store queries) are threaded through a state and error monad
      [M] over a [World].  The list stored under "current_context" is
      extended in place by [_load_containers]; the world keeps it.  The two
      lower-cased keys that validation adds to a profile dict are read
      only from the validated profiles, which the model keeps as values.
    - What [load_container] raises derives from [Exception]; signals that
      only derive from [BaseException] are outside the model. *)

From Stdlib Require Import String Ascii List Bool Arith NArith ZArith Lia Sorted.
Import ListNotations.
Open Scope string_scope.
Open Scope list_scope.

Set Implicit Arguments.

(** ** Strings *)

Module Str.

(** [str.lower()] on one ASCII character: 'A'..'Z' are shifted by 32. *)
Definition lower_ascii (c : ascii) : ascii :=
  let n := N_of_ascii c in
  if (N.leb 65 n && N.leb n 90)%bool then ascii_of_N (n + 32) else c.

Fixpoint lower (s : string) : string :=
  match s with
  | EmptyString => EmptyString
  | String c r => String (lower_ascii c) (lower r)
  end.

(** Truthiness of a Python string: only the empty string is falsy. *)
Definition truthy (s : string) : bool :=
  match s with EmptyString => false | _ => true end.

(** [x in xs] for a list of strings. *)
Definition mem (x : string) (xs : list string) : bool :=
  existsb (String.eqb x) xs.

Fixpoint list_eqb (xs ys : list string) : bool :=
  match xs, ys with
  | [], [] => true
  | x :: xs', y :: ys' => String.eqb x y && list_eqb xs' ys'
  | _, _ => false
  end.

End Str.

(** ** Insertion-ordered dictionaries *)

Module PyDict.

Section Dict.
Variable V : Type.

Definition t := list (string * V).

Definition empty : t := [].

(** [d.get(k)] *)
Fixpoint get (k : string) (d : t) : option V :=
  match d with
  | [] => None
  | (k', v) :: r => if String.eqb k k' then Some v else get k r
  end.

(** [k in d] *)
Definition contains (k : string) (d : t) : bool :=
  match get k d with Some _ => true | None => false end.

(** [d[k] = v]: an existing key keeps its position, a new key goes last. *)
Fixpoint set (k : string) (v : V) (d : t) : t :=
  match d with
  | [] => [(k, v)]
  | (k', v') :: r =>
      if String.eqb k k' then (k, v) :: r else (k', v') :: set k v r
  end.

(** [d.pop(k)] seen as the remaining dictionary. *)
Fixpoint remove (k : string) (d : t) : t :=
  match d with
  | [] => []
  | (k', v') :: r =>
      if String.eqb k k' then r else (k', v') :: remove k r
  end.

Definition items (d : t) : list (string * V) := d.
Definition keys (d : t) : list string := map fst d.
Definition values (d : t) : list V := map snd d.

(** A dict comprehension [{key(x): val(x) for x in xs}]. *)
Definition of_seq (X : Type) (key : X -> string) (val : X -> V)
  (xs : list X) : t :=
  fold_left (fun d x => set (key x) (val x) d) xs empty.

(** Truthiness of a dict. *)
Definition truthy (d : t) : bool :=
  match d with [] => false | _ => true end.

(** Keys of a Python dict are unique. *)
Definition wf (d : t) : Prop := NoDup (keys d).

End Dict.

Arguments empty {V}.

End PyDict.

(** ** The fragment of Python's [re] used by name filters

    Patterns are built from literal characters, [.], [^] and a postfix [*].
    Matching is by derivatives; the flag says whether the position is the
    start of the subject string, which is where [^] matches. *)

Module Re.

Inductive regex : Type :=
| Fail
| Eps
| Bol
| Chr (c : ascii)
| Dot
| Cat (r1 r2 : regex)
| Alt (r1 r2 : regex)
| Star (r : regex).

Definition newline : ascii := ascii_of_N 10.

Fixpoint nullable (at_start : bool) (r : regex) : bool :=
  match r with
  | Fail => false
  | Eps => true
  | Bol => at_start
  | Chr _ => false
  | Dot => false
  | Cat r1 r2 => nullable at_start r1 && nullable at_start r2
  | Alt r1 r2 => nullable at_start r1 || nullable at_start r2
  | Star _ => true
  end.

Fixpoint deriv (at_start : bool) (c : ascii) (r : regex) : regex :=
  match r with
  | Fail | Eps | Bol => Fail
  | Chr c' => if Ascii.eqb c c' then Eps else Fail
  | Dot => if Ascii.eqb c newline then Fail else Eps
  | Cat r1 r2 =>
      let d1 := Cat (deriv at_start c r1) r2 in
      if nullable at_start r1 then Alt d1 (deriv at_start c r2) else d1
  | Alt r1 r2 => Alt (deriv at_start c r1) (deriv at_start c r2)
  | Star r1 => Cat (deriv at_start c r1) (Star r1)
  end.

(** The whole subject is matched ([re.fullmatch]). *)
Fixpoint fullmatch_from (at_start : bool) (r : regex) (s : string) : bool :=
  match s with
  | EmptyString => nullable at_start r
  | String c s' => fullmatch_from false (deriv at_start c r) s'
  end.

(** Some prefix of the subject is matched ([re.match]). *)
Fixpoint match_from (at_start : bool) (r : regex) (s : string) : bool :=
  nullable at_start r ||
  match s with
  | EmptyString => false
  | String c s' => match_from false (deriv at_start c r) s'
  end.

Definition fullmatch (r : regex) (s : string) : bool := fullmatch_from true r s.

(** [re.match(pattern, s)] is truthy. *)
Definition match_ (r : regex) (s : string) : bool := match_from true r s.

(** Result of [re.compile] on a pattern string. *)
Inductive compiled : Type :=
| Compiled (r : regex)
| Invalid                (* [re.error] *)
| Unsupported.           (* syntax outside the modelled fragment *)

Definition is_meta (c : ascii) : bool :=
  existsb (Ascii.eqb c)
    (list_ascii_of_string "$+?{}[]()|\").

(** Items of the pattern, last parsed first. *)
Fixpoint parse (s : string) (acc : list regex) : compiled :=
  match s with
  | EmptyString =>
      Compiled (fold_left (fun r item => Cat item r) acc Eps)
  | String c s' =>
      if Ascii.eqb c "*" then
        match acc with
        | [] => Invalid                      (* nothing to repeat *)
        | Bol :: _ => Invalid                (* nothing to repeat *)
        | Star _ :: _ => Invalid             (* multiple repeat *)
        | item :: acc' => parse s' (Star item :: acc')
        end
      else if Ascii.eqb c "." then parse s' (Dot :: acc)
      else if Ascii.eqb c "^" then parse s' (Bol :: acc)
      else if is_meta c then Unsupported
      else parse s' (Chr c :: acc)
  end.

Definition compile (pattern : string) : compiled := parse pattern [].

End Re.


(** ** Python truthiness of optional containers *)

Definition truthy_list (A : Type) (o : option (list A)) : bool :=
  match o with Some (_ :: _) => true | _ => false end.

Definition truthy_str (o : option string) : bool :=
  match o with Some s => Str.truthy s | None => false end.

(** The value used when iterating a container already known to be truthy. *)
Definition list_of (A : Type) (o : option (list A)) : list A :=
  match o with Some l => l | None => [] end.

(** ** Loops with [continue] and [break] *)

Inductive Ctl (S : Type) : Type :=
| Next (s : S)           (* end of the iteration, or [continue] *)
| Break (s : S).         (* [break] *)

Fixpoint loop (X S : Type) (xs : list X) (body : X -> S -> Ctl S) (s : S) : S :=
  match xs with
  | [] => s
  | x :: r =>
      match body x s with
      | Next s' => loop r body s'
      | Break s' => s'
      end
  end.

(** [enumerate(xs)] *)
Fixpoint enumerate_from (A : Type) (i : nat) (xs : list A) : list (nat * A) :=
  match xs with
  | [] => []
  | x :: r => (i, x) :: enumerate_from (S i) r
  end.

Definition enumerate (A : Type) (xs : list A) : list (nat * A) :=
  enumerate_from 0 xs.

(** ** Entity documents and configuration records *)

Record AssetDoc : Type := {
  asset_id : string;                          (* "_id" *)
  asset_name : string;                        (* "name" *)
  asset_tasks : PyDict.t (option string)      (* data.tasks: name -> "type" *)
}.

Record SubsetDoc : Type := {
  subset_id : string;                         (* "_id" *)
  subset_name : string;                       (* "name" *)
  subset_parent : string;                     (* "parent": folder id *)
  subset_family : option string;              (* data.get("family") *)
  subset_families : option (list string)      (* data.get("families") *)
}.

Record VersionDoc : Type := {
  version_id : string;                        (* "_id" *)
  version_parent : string                     (* "parent": product id *)
}.

Record RepreDoc : Type := {
  repre_id : string;                          (* "_id" *)
  repre_name : string;                        (* "name" *)
  repre_parent : string                       (* "parent": version id *)
}.

(** [==] on representation documents and on lists of them. *)
Definition repre_eqb (a b : RepreDoc) : bool :=
  String.eqb (repre_id a) (repre_id b) &&
  String.eqb (repre_name a) (repre_name b) &&
  String.eqb (repre_parent a) (repre_parent b).

Fixpoint repres_eqb (xs ys : list RepreDoc) : bool :=
  match xs, ys with
  | [], [] => true
  | x :: xs', y :: ys' => repre_eqb x y && repres_eqb xs' ys'
  | _, _ => false
  end.

(** A loader plugin class: [__name__] and [enabled]. *)
Record LoaderPlugin : Type := {
  loader_name : string;
  enabled : bool
}.

(** A build profile.  [None] is an absent key. *)
Record Profile : Type := {
  loaders : option (list string);
  product_types : option (list string);
  repre_names : option (list string);
  product_name_filters : option (list string);
  product_types_lowered : option (list string);
  repre_names_lowered : option (list string)
}.

(** The profile selected by [filter_profiles] for the task: two pools. *)
Record BuildPresets : Type := {
  current_context : option (list Profile);
  linked_assets : option (list Profile)
}.

(** Host settings.  An absent or empty settings dict is [None]. *)
Record BuilderSettings : Type := {
  builder_profiles : option (list BuildPresets)     (* "profiles" *)
}.

Record HostSettings : Type := {
  workfile_builder : option BuilderSettings;
  workfile_build : option BuilderSettings
}.

(** Prepared entities of one folder:
    [{"asset_doc": ..., "subsets": {id: {"subset_doc": ...,
      "version": {"version_doc": ..., "repres": [...]}}}}]. *)
Record SubsetData : Type := {
  subset_doc_of : SubsetDoc;          (* "subset_doc" *)
  version_doc_of : VersionDoc;        (* "version" / "version_doc" *)
  repres_of : list RepreDoc           (* "version" / "repres" *)
}.

Record AssetData : Type := {
  asset_doc_of : AssetDoc;            (* "asset_doc" *)
  subsets_of : PyDict.t SubsetData    (* "subsets" *)
}.

(** ** Exceptions *)

Inductive ExcClass : Type :=
| KeyError
| AttributeError
| ValueError
| RuntimeError
| ReError                    (* [re.error] *)
| IncompatibleLoaderError    (* subclass of [ValueError] *)
| UnmodelledPattern.         (* pattern outside the fragment of [Re] *)

Definition class_eqb (a b : ExcClass) : bool :=
  match a, b with
  | KeyError, KeyError | AttributeError, AttributeError
  | ValueError, ValueError | RuntimeError, RuntimeError
  | ReError, ReError | IncompatibleLoaderError, IncompatibleLoaderError
  | UnmodelledPattern, UnmodelledPattern => true
  | _, _ => false
  end.

Definition issubclass (a b : ExcClass) : bool :=
  class_eqb a b ||
  match a, b with
  | IncompatibleLoaderError, ValueError => true
  | _, _ => false
  end.

(** An exception instance: an object with an identity, its class and its
    message.  All of them derive from [Exception]. *)
Record ExcInstance : Type := {
  exc_ident : nat;
  exc_class : ExcClass;
  exc_message : string
}.

(** The two kinds of objects that meet in [exc == IncompatibleLoaderError]. *)
Inductive PyObject : Type :=
| ClassObject (c : ExcClass)
| InstanceObject (e : ExcInstance).

(** [a is b] *)
Definition py_is (a b : PyObject) : bool :=
  match a, b with
  | ClassObject c1, ClassObject c2 => class_eqb c1 c2
  | InstanceObject e1, InstanceObject e2 => Nat.eqb (exc_ident e1) (exc_ident e2)
  | _, _ => false
  end.

(** [a == b]: neither [BaseException] nor [type] overrides [__eq__], so the
    comparison falls back to identity. *)
Definition py_eq (a b : PyObject) : bool := py_is a b.

Definition isinstance (e : ExcInstance) (c : ExcClass) : bool :=
  issubclass (exc_class e) c.

(** Exceptions raised by this module itself carry no identity of interest. *)
Definition exc (c : ExcClass) (msg : string) : ExcInstance :=
  {| exc_ident := 0; exc_class := c; exc_message := msg |}.

(** ** Events: logging, printing, store queries and load calls *)

Inductive LogLevel : Type := Debug | Info | Warning | Error.

Inductive FailNote : Type :=
| TryingNextLoader
| ProductNotSuccessful (product_name : string)
| TryingNextRepresentation.

Inductive Message : Type :=
| FolderNotFound (folder_path : string)
| NoRegisteredLoaders
| NoLoadingPreset (task_name : string)
| EmptyLoadingPreset (task_name : string)
| NoPresetForContext (task_name : string)
| NoPresetForLinked (task_name : string)
| NoLinkedAssets
| ProfileMissingLoaders (profile : Profile)
| ProfileLoadersNotAvailable (profile : Profile)
| ProfileMissingFamilies (profile : Profile)
| ProfileMissingRepreNames (profile : Profile)
| NoValidProfiles
| ValidProfiles (profiles : list Profile)
| NoProductsForFolder (folder_name : string)
| NoValidProducts
| ValidRepresentations (folder_name : string)
    (products : list (string * string * list string))
| ReprePerProduct (d : PyDict.t (list RepreDoc))
| Representations (l : list (list RepreDoc))
| LoaderIncompatible (loader repre : string)
| UnexpectedError (e : ExcInstance)
| LoadingFailed (note : FailNote).

Inductive StoreQuery : Type :=
| QAssetByName (project folder_path : string)
| QLinkedAssets (project folder_id : string)
| QSubsets (project : string) (asset_ids : list string)
| QLastVersions (project : string) (subset_ids : list string)
| QRepresentations (project : string) (version_ids : list string).

Inductive Event : Type :=
| Print (m : Message)
| Log (lvl : LogLevel) (m : Message)
| Query (q : StoreQuery)
| LoadCall (loader repre_id name : string).

(** ** The builder *)

Section Builder.

(** Scene state of the host application and the handles loaders return. *)
Variables Host Container : Type.

(** A call of [load_container] returns a container or raises. *)
Inductive LoadOutcome : Type :=
| Loaded (c : Container)
| Failed (e : ExcInstance).

(** External collaborators: context accessors, settings, the representation
    store and the loader registry. *)
Record Env : Type := {
  get_current_project_name : string;
  get_current_asset_name : string;
  get_current_task_name : string;
  get_current_host_name : string;
  get_project_settings : string -> PyDict.t HostSettings;
  filter_profiles :
    list BuildPresets -> option string -> string -> option BuildPresets;
  get_asset_by_name : string -> string -> option AssetDoc;
  get_linked_assets : string -> AssetDoc -> list AssetDoc;
  get_subsets : string -> list string -> list SubsetDoc;
  get_last_versions : string -> list string -> PyDict.t VersionDoc;
  get_representations : string -> list string -> list RepreDoc;
  discover_loader_plugins : list LoaderPlugin;
  load_container :
    Host -> LoaderPlugin -> string -> string -> Host * LoadOutcome
}.

Record World : Type := {
  host : Host;
  self_build_presets : option BuildPresets;      (* [self.build_presets] *)
  events : list Event                            (* oldest first *)
}.

Inductive Res (A : Type) : Type :=
| Ret (a : A)
| Raise (e : ExcInstance).

Arguments Raise {A} e.

Definition M (A : Type) : Type := World -> World * Res A.

Definition ret {A : Type} (a : A) : M A := fun w => (w, Ret a).

Definition raise {A : Type} (e : ExcInstance) : M A := fun w => (w, Raise e).

Definition bind {A B : Type} (m : M A) (k : A -> M B) : M B :=
  fun w =>
    match m w with
    | (w', Ret a) => k a w'
    | (w', Raise e) => (w', Raise e)
    end.

Notation "x <- m ;; k" := (bind m (fun x => k))
  (at level 61, m at next level, right associativity).
Notation "m ;; k" := (bind m (fun _ => k))
  (at level 61, right associativity).
Notation "' pat <- m ;; k" :=
  (bind m (fun x => match x with pat => k end))
  (at level 61, pat pattern, m at next level, right associativity).

Definition emit (e : Event) : M unit :=
  fun w =>
    ({| host := host w;
        self_build_presets := self_build_presets w;
        events := events w ++ [e] |}, Ret tt).

Definition log (lvl : LogLevel) (m : Message) : M unit := emit (Log lvl m).
Definition print (m : Message) : M unit := emit (Print m).

(** [d[k]] *)
Definition subscript {V : Type} (d : PyDict.t V) (k : string) : M V :=
  match PyDict.get k d with
  | Some v => ret v
  | None => raise (exc KeyError k)
  end.

(** [record["key"]] on an optional key. *)
Definition field {V : Type} (o : option V) (key : string) : M V :=
  match o with
  | Some v => ret v
  | None => raise (exc KeyError key)
  end.

Fixpoint for_ {X S : Type} (xs : list X) (body : X -> S -> M (Ctl S)) (s : S)
  : M S :=
  match xs with
  | [] => ret s
  | x :: r =>
      c <- body x s ;;
      match c with
      | Next s' => for_ r body s'
      | Break s' => ret s'
      end
  end.

Variable env : Env.

(** A store query is answered by the collaborator and recorded. *)
Definition query {A : Type} (q : StoreQuery) (answer : A) : M A :=
  emit (Query q) ;; ret answer.

(** [load_container(loader, repre_id, name=product_name)] *)
Definition call_load_container (loader : LoaderPlugin)
  (repre_id product_name : string) : M LoadOutcome :=
  fun w =>
    let (h, out) := load_container env (host w) loader repre_id product_name in
    ({| host := h;
        self_build_presets := self_build_presets w;
        events := events w ++ [LoadCall (loader_name loader) repre_id product_name] |},
     Ret out).

(** [defaultdict(list)]: [d[k].append(x)] *)
Definition append_to {V : Type} (k : string) (x : V) (d : PyDict.t (list V))
  : PyDict.t (list V) :=
  match PyDict.get k d with
  | Some l => PyDict.set k (l ++ [x]) d
  | None => PyDict.set k [x] d
  end.

(** *** [map_products_by_type] *)

(** Lines 54-59: the product type of a subset document, if it has one. *)
Definition product_type_of (subset_doc : SubsetDoc) : option string :=
  let product_type := subset_family subset_doc in
  if truthy_str product_type then product_type
  else
    let families := subset_families subset_doc in
    match families with
    | Some (first :: _) => Some first
    | _ => None
    end.

Definition map_products_by_type (subset_docs : list SubsetDoc)
  : PyDict.t (list SubsetDoc) :=
  loop subset_docs
    (fun subset_doc products_by_type =>
       match product_type_of subset_doc with
       | None => Next products_by_type
       | Some product_type =>
           Next (append_to product_type subset_doc products_by_type)
       end)
    PyDict.empty.

(** *** [get_build_presets] *)

Definition get_build_presets (task_name : string) (asset_doc : AssetDoc)
  : option BuildPresets :=
  let host_name := get_current_host_name env in
  let project_settings :=
    get_project_settings env (get_current_project_name env) in
  let host_settings := PyDict.get host_name project_settings in
  let wb_settings :=
    match host_settings with
    | None => None
    | Some hs =>
        match workfile_builder hs with
        | Some wb => Some wb
        | None => workfile_build hs
        end
    end in
  let builder_profiles :=
    match wb_settings with
    | Some wb => builder_profiles wb
    | None => None
    end in
  if negb (truthy_list builder_profiles) then None
  else
    let task_type :=
      match PyDict.get task_name (asset_tasks asset_doc) with
      | Some t => t
      | None => None
      end in
    filter_profiles env (list_of builder_profiles) task_type task_name.

(** *** [_filter_build_profiles] *)

(** Lines 302-348: the body of the loop over [build_profiles]. *)
Definition check_profile (loaders_by_name : PyDict.t LoaderPlugin)
  (profile : Profile) (valid_profiles : list Profile)
  : M (Ctl (list Profile)) :=
  let profile_loaders := loaders profile in
  if negb (truthy_list profile_loaders) then
    log Warning (ProfileMissingLoaders profile) ;;
    ret (Next valid_profiles)
  else
  let loaders_match :=
    loop (list_of profile_loaders)
      (fun loader_name _ =>
         if PyDict.contains loader_name loaders_by_name
         then Break true else Next false)
      false in
  if negb loaders_match then
    log Warning (ProfileLoadersNotAvailable profile) ;;
    ret (Next valid_profiles)
  else
  let profile_families := product_types profile in
  if negb (truthy_list profile_families) then
    log Warning (ProfileMissingFamilies profile) ;;
    ret (Next valid_profiles)
  else
  let profile_repre_names := repre_names profile in
  if negb (truthy_list profile_repre_names) then
    log Warning (ProfileMissingRepreNames profile) ;;
    ret (Next valid_profiles)
  else
  let profile' :=
    {| loaders := loaders profile;
       product_types := product_types profile;
       repre_names := repre_names profile;
       product_name_filters := product_name_filters profile;
       product_types_lowered :=
         Some (map Str.lower (list_of profile_families));
       repre_names_lowered :=
         Some (map Str.lower (list_of profile_repre_names)) |} in
  ret (Next (valid_profiles ++ [profile'])).

Definition _filter_build_profiles (build_profiles : list Profile)
  (loaders_by_name : PyDict.t LoaderPlugin) : M (list Profile) :=
  for_ build_profiles (check_profile loaders_by_name) [].

(** *** [_prepare_profile_for_products] *)

(** Lines 384-387: every name filter goes through [re.compile]. *)
Definition compile_filters (patterns : list string) : M (list Re.regex) :=
  for_ patterns
    (fun regex _profile_regexes =>
       match Re.compile regex with
       | Re.Compiled r => ret (Next (_profile_regexes ++ [r]))
       | Re.Invalid => raise (exc ReError regex)
       | Re.Unsupported => raise (exc UnmodelledPattern regex)
       end)
    [].

(** Lines 392-400: the optional name filter on one product name. *)
Definition name_passes (profile_regexes : list Re.regex) (name : string)
  : bool :=
  match profile_regexes with
  | [] => true
  | _ =>
      loop profile_regexes
        (fun pattern _ =>
           if Re.match_ pattern name then Break true else Next false)
        false
  end.

(** Lines 390-402: the profile is recorded for every product of the type
    that passes the name filter. *)
Definition assign_profile (profile : Profile)
  (_profile_regexes : list Re.regex) (subset_docs : list SubsetDoc)
  (profiles_by_product_id : PyDict.t Profile) : PyDict.t Profile :=
  loop subset_docs
    (fun subset_doc profiles_by_product_id =>
       if negb (name_passes _profile_regexes (subset_name subset_doc))
       then Next profiles_by_product_id
       else Next (PyDict.set (subset_id subset_doc) profile
                    profiles_by_product_id))
    profiles_by_product_id.

(** Lines 376-405: the body of the loop over [profiles]. *)
Definition try_profile (product_type_low : string)
  (subset_docs : list SubsetDoc) (profile : Profile)
  (profiles_by_product_id : PyDict.t Profile) : M (Ctl (PyDict.t Profile)) :=
  lowered <- field (product_types_lowered profile) "product_types_lowered" ;;
  if negb (Str.mem product_type_low lowered) then
    ret (Next profiles_by_product_id)
  else
    let profile_regexes := product_name_filters profile in
    _profile_regexes <-
      (if truthy_list profile_regexes
       then compile_filters (list_of profile_regexes)
       else ret []) ;;
    ret (Break (assign_profile profile _profile_regexes subset_docs
                  profiles_by_product_id)).

(** Lines 374-405: the body of the loop over [products_by_type.items()]. *)
Definition resolve_type (profiles : list Profile)
  (item : string * list SubsetDoc) (profiles_by_product_id : PyDict.t Profile)
  : M (Ctl (PyDict.t Profile)) :=
  let '(product_type, subset_docs) := item in
  let product_type_low := Str.lower product_type in
  d <- for_ profiles (try_profile product_type_low subset_docs)
         profiles_by_product_id ;;
  ret (Next d).

Definition _prepare_profile_for_products (subset_docs : list SubsetDoc)
  (profiles : list Profile) : M (PyDict.t Profile) :=
  let products_by_type := map_products_by_type subset_docs in
  for_ (PyDict.items products_by_type) (resolve_type profiles) PyDict.empty.

(** *** [_load_containers] *)

(** Lines 537-538.  [+=] extends the list stored under "current_context" in
    place when that key is present; with the key absent the default list is
    a fresh one. *)
Definition ordering_presets : M (list Profile) :=
  fun w =>
    match self_build_presets w with
    | None => (w, Raise (exc AttributeError "get"))
    | Some presets =>
        let linked := list_of (linked_assets presets) in
        match current_context presets with
        | Some current =>
            ({| host := host w;
                self_build_presets :=
                  Some {| current_context := Some (current ++ linked);
                          linked_assets := linked_assets presets |};
                events := events w |},
             Ret (current ++ linked))
        | None => (w, Ret linked)
        end
    end.

(** Lines 539-548. *)
Definition order_product_ids (build_presets : list Profile)
  (products_by_id : PyDict.t SubsetDoc) : M (list string) :=
  for_ build_presets
    (fun preset product_ids_ordered =>
       preset_types <- field (product_types preset) "product_types" ;;
       ret (Next
         (loop preset_types
            (fun product_type product_ids_ordered =>
               Next (loop (PyDict.items products_by_id)
                 (fun '(product_id, subset_doc) product_ids_ordered =>
                    let families := list_of (subset_families subset_doc) in
                    if negb (Str.mem product_type families)
                    then Next product_ids_ordered
                    else Next (product_ids_ordered ++ [product_id]))
                 product_ids_ordered))
            product_ids_ordered)))
    [].

(** Lines 555-561: the body of the loop over [repres_by_product_id.items()].
    The state is (representations_ordered, representations); [in] on a list
    compares its elements with [==]. *)
Definition enqueue_step (ordered_product_id : string)
  (item : string * list RepreDoc)
  (st : list (string * list RepreDoc) * list (list RepreDoc))
  : Ctl (list (string * list RepreDoc) * list (list RepreDoc)) :=
  let '(product_id, repres) := item in
  let '(representations_ordered, representations) := st in
  if existsb (repres_eqb repres) representations
  then Next (representations_ordered, representations)
  else if String.eqb ordered_product_id product_id
  then Next (representations_ordered ++ [(product_id, repres)],
             representations ++ [repres])
  else Next (representations_ordered, representations).

(** Lines 552-561. *)
Definition order_representations (product_ids_ordered : list string)
  (repres_by_product_id : PyDict.t (list RepreDoc))
  : list (string * list RepreDoc) * list (list RepreDoc) :=
  loop product_ids_ordered
    (fun ordered_product_id st =>
       Next (loop (PyDict.items repres_by_product_id)
               (enqueue_step ordered_product_id) st))
    ([], []).

(** Lines 618-627. *)
Definition fail_note (loader_idx : nat) (loaders_last_idx : Z)
  (repre_name_idx : nat) (repre_names_last_idx : Z) (product_name : string)
  : FailNote :=
  if Z.ltb (Z.of_nat loader_idx) loaders_last_idx then TryingNextLoader
  else if Z.ltb (Z.of_nat repre_name_idx) repre_names_last_idx
  then ProductNotSuccessful product_name
  else TryingNextRepresentation.

(** Lines 589-627: one iteration over the profile's loaders.  The state is
    (loaded_containers, is_loaded). *)
Definition try_loader (loaders_by_name : PyDict.t LoaderPlugin)
  (product_name : string) (repre : RepreDoc)
  (loaders_last_idx : Z) (repre_name_idx : nat) (repre_names_last_idx : Z)
  (item : nat * string) (st : list Container * bool)
  : M (Ctl (list Container * bool)) :=
  let '(loader_idx, loader_name) := item in
  let '(loaded_containers, is_loaded) := st in
  if is_loaded then ret (Break st)
  else
    match PyDict.get loader_name loaders_by_name with
    | None => ret (Next st)
    | Some loader =>
        out <- call_load_container loader (repre_id repre) product_name ;;
        match out with
        | Loaded container =>
            ret (Next (loaded_containers ++ [container], true))
        | Failed e =>
            (if py_eq (InstanceObject e) (ClassObject IncompatibleLoaderError)
             then log Info (LoaderIncompatible loader_name (repre_name repre))
             else log Error (UnexpectedError e)) ;;
            log Info (LoadingFailed
              (fail_note loader_idx loaders_last_idx
                 repre_name_idx repre_names_last_idx product_name)) ;;
            ret (Next st)
        end
    end.

(** Lines 578-627: one iteration over the profile's representation names. *)
Definition try_repre_name (loaders_by_name : PyDict.t LoaderPlugin)
  (product_name : string) (profile : Profile)
  (repre_by_low_name : PyDict.t RepreDoc)
  (loaders_last_idx repre_names_last_idx : Z)
  (item : nat * string) (st : list Container * bool)
  : M (Ctl (list Container * bool)) :=
  let '(repre_name_idx, profile_repre_name) := item in
  if snd st then ret (Break st)
  else
    match PyDict.get profile_repre_name repre_by_low_name with
    | None => ret (Next st)
    | Some repre =>
        profile_loaders <- field (loaders profile) "loaders" ;;
        st' <- for_ (enumerate profile_loaders)
                 (try_loader loaders_by_name product_name repre
                    loaders_last_idx repre_name_idx repre_names_last_idx)
                 st ;;
        ret (Next st')
    end.

(** Lines 566-627: the body of the loop over [representations_ordered]. *)
Definition load_product (products_by_id : PyDict.t SubsetDoc)
  (profiles_by_product_id : PyDict.t Profile)
  (loaders_by_name : PyDict.t LoaderPlugin)
  (item : string * list RepreDoc) (loaded_containers : list Container)
  : M (Ctl (list Container)) :=
  let '(product_id, repres) := item in
  product <- subscript products_by_id product_id ;;
  let product_name := subset_name product in
  profile <- subscript profiles_by_product_id product_id ;;
  profile_loaders <- field (loaders profile) "loaders" ;;
  let loaders_last_idx := (Z.of_nat (length profile_loaders) - 1)%Z in
  names_lowered <- field (repre_names_lowered profile) "repre_names_lowered" ;;
  let repre_names_last_idx := (Z.of_nat (length names_lowered) - 1)%Z in
  let repre_by_low_name :=
    PyDict.of_seq (fun repre => Str.lower (repre_name repre))
      (fun repre => repre) repres in
  st <- for_ (enumerate names_lowered)
          (try_repre_name loaders_by_name product_name profile
             repre_by_low_name loaders_last_idx repre_names_last_idx)
          (loaded_containers, false) ;;
  ret (Next (fst st)).

Definition _load_containers (repres_by_product_id : PyDict.t (list RepreDoc))
  (products_by_id : PyDict.t SubsetDoc)
  (profiles_by_product_id : PyDict.t Profile)
  (loaders_by_name : PyDict.t LoaderPlugin) : M (list Container) :=
  build_presets <- ordering_presets ;;
  product_ids_ordered <- order_product_ids build_presets products_by_id ;;
  print (ReprePerProduct repres_by_product_id) ;;
  let '(representations_ordered, representations) :=
    order_representations product_ids_ordered repres_by_product_id in
  print (Representations representations) ;;
  for_ representations_ordered
    (load_product products_by_id profiles_by_product_id loaders_by_name)
    [].

(** *** [load_containers_by_asset_data] *)

(** The returned [{"asset_doc": ..., "containers": [...]}]. *)
Record LoadedData : Type := {
  loaded_asset_doc : AssetDoc;
  containers : list Container
}.

(** Lines 442-454: (products_by_id, version_by_product_id,
    repres_by_version_id). *)
Definition index_subsets (asset_doc_data : AssetData)
  : PyDict.t SubsetDoc * PyDict.t VersionDoc * PyDict.t (list RepreDoc) :=
  loop (PyDict.items (subsets_of asset_doc_data))
    (fun '(product_id, in_data)
         '(products_by_id, version_by_product_id, repres_by_version_id) =>
       let subset_doc := subset_doc_of in_data in
       let version_doc := version_doc_of in_data in
       Next (PyDict.set (subset_id subset_doc) subset_doc products_by_id,
             PyDict.set product_id version_doc version_by_product_id,
             PyDict.set (version_id version_doc) (repres_of in_data)
               repres_by_version_id))
    (PyDict.empty, PyDict.empty, PyDict.empty).

(** Lines 469-479. *)
Definition collect_valid_repres (profiles_by_product_id : PyDict.t Profile)
  (version_by_product_id : PyDict.t VersionDoc)
  (repres_by_version_id : PyDict.t (list RepreDoc))
  : M (PyDict.t (list RepreDoc)) :=
  for_ (PyDict.items profiles_by_product_id)
    (fun '(product_id, profile) valid_repres_by_product_id =>
       profile_repre_names <-
         field (repre_names_lowered profile) "repre_names_lowered" ;;
       version_doc <- subscript version_by_product_id product_id ;;
       let version_id := version_id version_doc in
       repres <- subscript repres_by_version_id version_id ;;
       ret (Next
         (loop repres
            (fun repre valid_repres_by_product_id =>
               let repre_name_low := Str.lower (repre_name repre) in
               if Str.mem repre_name_low profile_repre_names
               then Next (append_to product_id repre
                            valid_repres_by_product_id)
               else Next valid_repres_by_product_id)
            valid_repres_by_product_id)))
    PyDict.empty.

(** Lines 482-493: the debug message. *)
Definition debug_valid_repres (asset_doc : AssetDoc)
  (products_by_id : PyDict.t SubsetDoc)
  (valid_repres_by_product_id : PyDict.t (list RepreDoc)) : M unit :=
  msg <- for_ (PyDict.items valid_repres_by_product_id)
    (fun '(product_id, repres) msg =>
       subset_doc <- subscript products_by_id product_id ;;
       ret (Next (msg ++ [(subset_name subset_doc, product_id,
                           map repre_name repres)])))
    [] ;;
  log Debug (ValidRepresentations (asset_name asset_doc) msg).

(** [asset_doc_data] is a record here, hence always truthy. *)
Definition load_containers_by_asset_data (asset_doc_data : AssetData)
  (build_profiles : option (list Profile))
  (loaders_by_name : PyDict.t LoaderPlugin) : M (option LoadedData) :=
  if negb (truthy_list build_profiles) || negb (PyDict.truthy loaders_by_name)
  then ret None
  else
    let asset_doc := asset_doc_of asset_doc_data in
    valid_profiles <-
      _filter_build_profiles (list_of build_profiles) loaders_by_name ;;
    match valid_profiles with
    | [] => log Warning NoValidProfiles ;; ret None
    | _ =>
        log Debug (ValidProfiles valid_profiles) ;;
        let '(products_by_id, version_by_product_id, repres_by_version_id) :=
          index_subsets asset_doc_data in
        if negb (PyDict.truthy products_by_id) then
          log Warning (NoProductsForFolder (asset_name asset_doc)) ;;
          ret None
        else
          profiles_by_product_id <-
            _prepare_profile_for_products (PyDict.values products_by_id)
              valid_profiles ;;
          if negb (PyDict.truthy profiles_by_product_id) then
            log Warning NoValidProducts ;; ret None
          else
            valid_repres_by_product_id <-
              collect_valid_repres profiles_by_product_id
                version_by_product_id repres_by_version_id ;;
            debug_valid_repres asset_doc products_by_id
              valid_repres_by_product_id ;;
            containers <-
              _load_containers valid_repres_by_product_id products_by_id
                profiles_by_product_id loaders_by_name ;;
            ret (Some {| loaded_asset_doc := asset_doc;
                         containers := containers |})
    end.

(** *** [_collect_last_version_repres] *)

(** Lines 696-723: one representation document is filed under its folder
    and product. *)
Definition file_repre (asset_docs_by_ids : PyDict.t AssetDoc)
  (subset_docs_by_id : PyDict.t SubsetDoc)
  (last_version_docs_by_id : PyDict.t VersionDoc)
  (repre_doc : RepreDoc) (output : PyDict.t AssetData)
  : M (Ctl (PyDict.t AssetData)) :=
  let version_id := repre_parent repre_doc in
  version_doc <- subscript last_version_docs_by_id version_id ;;
  let product_id := version_parent version_doc in
  subset_doc <- subscript subset_docs_by_id product_id ;;
  let folder_id := subset_parent subset_doc in
  asset_doc <- subscript asset_docs_by_ids folder_id ;;
  let output :=
    if negb (PyDict.contains folder_id output)
    then PyDict.set folder_id
           {| asset_doc_of := asset_doc; subsets_of := PyDict.empty |} output
    else output in
  folder_data <- subscript output folder_id ;;
  let folder_subsets :=
    if negb (PyDict.contains product_id (subsets_of folder_data))
    then PyDict.set product_id
           {| subset_doc_of := subset_doc;
              version_doc_of := version_doc;
              repres_of := [] |} (subsets_of folder_data)
    else subsets_of folder_data in
  entry <- subscript folder_subsets product_id ;;
  let entry :=
    {| subset_doc_of := subset_doc_of entry;
       version_doc_of := version_doc_of entry;
       repres_of := repres_of entry ++ [repre_doc] |} in
  ret (Next
    (PyDict.set folder_id
       {| asset_doc_of := asset_doc_of folder_data;
          subsets_of := PyDict.set product_id entry folder_subsets |}
       output)).

Definition _collect_last_version_repres (asset_docs : list AssetDoc)
  : M (PyDict.t AssetData) :=
  let output := PyDict.empty in
  match asset_docs with
  | [] => ret output
  | _ =>
      let asset_docs_by_ids :=
        PyDict.of_seq asset_id (fun asset_doc => asset_doc) asset_docs in
      let project_name := get_current_project_name env in
      let asset_ids := PyDict.keys asset_docs_by_ids in
      subset_docs <-
        query (QSubsets project_name asset_ids)
          (get_subsets env project_name asset_ids) ;;
      let subset_docs_by_id :=
        PyDict.of_seq subset_id (fun subset_doc => subset_doc) subset_docs in
      let subset_ids := PyDict.keys subset_docs_by_id in
      last_version_by_product_id <-
        query (QLastVersions project_name subset_ids)
          (get_last_versions env project_name subset_ids) ;;
      let last_version_docs_by_id :=
        PyDict.of_seq version_id (fun version => version)
          (PyDict.values last_version_by_product_id) in
      let version_ids := PyDict.keys last_version_docs_by_id in
      repre_docs <-
        query (QRepresentations project_name version_ids)
          (get_representations env project_name version_ids) ;;
      for_ repre_docs
        (file_repre asset_docs_by_ids subset_docs_by_id
           last_version_docs_by_id)
        output
  end.

(** *** [build_workfile] *)

(** Lines 125-134: enabled loaders by name; a second loader of the same
    name is fatal. *)
Definition collect_loaders (discovered : list LoaderPlugin)
  : M (PyDict.t LoaderPlugin) :=
  for_ discovered
    (fun loader loaders_by_name =>
       if negb (enabled loader) then ret (Next loaders_by_name)
       else
         let loader_name := loader_name loader in
         if PyDict.contains loader_name loaders_by_name then
           raise (exc KeyError
                    ("Duplicated loader name " ++ loader_name ++ "!"))
         else ret (Next (PyDict.set loader_name loader loaders_by_name)))
    PyDict.empty.

(** [self.build_presets = value] *)
Definition assign_build_presets (value : option BuildPresets) : M unit :=
  fun w =>
    ({| host := host w;
        self_build_presets := value;
        events := events w |}, Ret tt).

(** The list bound to [current_context_profiles] is the one stored in
    [self.build_presets]; a later use sees what [+=] did to it. *)
Definition current_context_profiles_now : M (option (list Profile)) :=
  fun w =>
    (w, Ret match self_build_presets w with
            | Some presets => current_context presets
            | None => None
            end).

Definition append_loaded (loaded_data : option LoadedData)
  (loaded_containers : list LoadedData) : list LoadedData :=
  match loaded_data with
  | Some d => loaded_containers ++ [d]
  | None => loaded_containers
  end.

(** Lines 205-227: the prepared entities are loaded, the current folder
    first, the linked folders after it. *)
Definition load_prepared (loaders_by_name : PyDict.t LoaderPlugin)
  (link_context_profiles : option (list Profile))
  (current_folder_id : option string) (asset_docs : list AssetDoc)
  (loaded_containers : list LoadedData) : M (list LoadedData) :=
  prepared_entities <- _collect_last_version_repres asset_docs ;;
  '(prepared_entities, loaded_containers) <-
    match current_folder_id with
    | Some folder_id =>
        if Str.truthy folder_id then
          match PyDict.get folder_id prepared_entities with
          | Some current_context_data =>
              profiles <- current_context_profiles_now ;;
              loaded_data <-
                load_containers_by_asset_data current_context_data
                  profiles loaders_by_name ;;
              ret (PyDict.remove folder_id prepared_entities,
                   append_loaded loaded_data loaded_containers)
          | None => ret (prepared_entities, loaded_containers)
          end
        else ret (prepared_entities, loaded_containers)
    | None => ret (prepared_entities, loaded_containers)
    end ;;
  for_ (PyDict.values prepared_entities)
    (fun linked_asset_data loaded_containers =>
       loaded_data <-
         load_containers_by_asset_data linked_asset_data
           link_context_profiles loaders_by_name ;;
       ret (Next (append_loaded loaded_data loaded_containers)))
    loaded_containers.

(** Lines 141-227: the build once the current folder and the loaders are
    known. *)
Definition build_for_task (current_asset_doc : AssetDoc)
  (loaders_by_name : PyDict.t LoaderPlugin)
  (loaded_containers : list LoadedData) : M (list LoadedData) :=
  let project_name := get_current_project_name env in
  let current_task_name := get_current_task_name env in
  assign_build_presets
    (get_build_presets current_task_name current_asset_doc) ;;
  match get_build_presets current_task_name current_asset_doc with
  | None =>
      log Warning (NoLoadingPreset current_task_name) ;;
      ret loaded_containers
  | Some build_presets =>
  let current_context_profiles := current_context build_presets in
  let link_context_profiles := linked_assets build_presets in
  if negb (truthy_list current_context_profiles)
     && negb (truthy_list link_context_profiles) then
    log Warning (EmptyLoadingPreset current_task_name) ;;
    ret loaded_containers
  else
  (if negb (truthy_list current_context_profiles) then
     log Warning (NoPresetForContext current_task_name)
   else if negb (truthy_list link_context_profiles) then
     log Warning (NoPresetForLinked current_task_name)
   else ret tt) ;;
  let '(asset_docs, current_folder_id) :=
    if truthy_list current_context_profiles
    then ([current_asset_doc], Some (asset_id current_asset_doc))
    else ([], None) in
  asset_docs <-
    (if truthy_list link_context_profiles then
       link_assets <-
         query (QLinkedAssets project_name (asset_id current_asset_doc))
           (get_linked_assets env project_name current_asset_doc) ;;
       ret (asset_docs ++ link_assets)
     else ret asset_docs) ;;
  match asset_docs with
  | [] =>
      log Warning NoLinkedAssets ;;
      ret loaded_containers
  | _ =>
      load_prepared loaders_by_name link_context_profiles current_folder_id
        asset_docs loaded_containers
  end
  end.

(** Lines 109-139: the current folder and the enabled loaders. *)
Definition build_workfile : M (list LoadedData) :=
  let loaded_containers := [] in
  let project_name := get_current_project_name env in
  let current_folder_path := get_current_asset_name env in
  current_asset_doc <-
    query (QAssetByName project_name current_folder_path)
      (get_asset_by_name env project_name current_folder_path) ;;
  match current_asset_doc with
  | None =>
      print (FolderNotFound current_folder_path) ;;
      ret loaded_containers
  | Some current_asset_doc =>
      loaders_by_name <- collect_loaders (discover_loader_plugins env) ;;
      if negb (PyDict.truthy loaders_by_name) then
        log Warning NoRegisteredLoaders ;;
        ret loaded_containers
      else build_for_task current_asset_doc loaders_by_name loaded_containers
  end.

(** ** Specification-level definitions

    The definitions below follow the words of the specification; the
    properties compare them with the functions above. *)

(** The world after some more events. *)
Definition add_events (evs : list Event) (w : World) : World :=
  {| host := host w;
     self_build_presets := self_build_presets w;
     events := events w ++ evs |}.

(** A profile is excluded when it lacks a non-empty loader list, when none
    of its loaders is registered, or when it lacks a non-empty product-type
    or representation-name list. *)
Definition excluded (loaders_by_name : PyDict.t LoaderPlugin) (p : Profile)
  : bool :=
  negb (truthy_list (loaders p))
  || negb (existsb (fun n => PyDict.contains n loaders_by_name)
             (list_of (loaders p)))
  || negb (truthy_list (product_types p))
  || negb (truthy_list (repre_names p)).

(** The profile record with its lower-cased lists cached. *)
Definition with_lowered (p : Profile) : Profile :=
  {| loaders := loaders p;
     product_types := product_types p;
     repre_names := repre_names p;
     product_name_filters := product_name_filters p;
     product_types_lowered := Some (map Str.lower (list_of (product_types p)));
     repre_names_lowered := Some (map Str.lower (list_of (repre_names p))) |}.

(** The warning logged for an excluded profile. *)
Definition exclusion_warning (loaders_by_name : PyDict.t LoaderPlugin)
  (p : Profile) : Message :=
  if negb (truthy_list (loaders p)) then ProfileMissingLoaders p
  else if negb (existsb (fun n => PyDict.contains n loaders_by_name)
                  (list_of (loaders p)))
  then ProfileLoadersNotAvailable p
  else if negb (truthy_list (product_types p)) then ProfileMissingFamilies p
  else ProfileMissingRepreNames p.

(** The world with another host state. *)
Definition with_host (h : Host) (w : World) : World :=
  {| host := h;
     self_build_presets := self_build_presets w;
     events := events w |}.

Definition option_list {A : Type} (o : option A) : list A :=
  match o with Some a => [a] | None => [] end.

Definition is_some {A : Type} (o : option A) : bool :=
  match o with Some _ => true | None => false end.

(** The preset-derived product order (lines 540-548) as one expression:
    presets in sequence, then each preset's declared product types, then
    the products whose list "families" contains that type. *)
Definition ordered_ids (build_presets : list Profile)
  (products_by_id : PyDict.t SubsetDoc) : list string :=
  flat_map
    (fun preset =>
       flat_map
         (fun product_type =>
            map fst
              (filter
                 (fun item : string * SubsetDoc =>
                    Str.mem product_type (list_of (subset_families (snd item))))
                 (PyDict.items products_by_id)))
         (list_of (product_types preset)))
    build_presets.

(** One load attempt: a representation found under the name at position
    [at_name_idx] of the profile, and a registered loader found under the
    name at position [at_loader_idx]. *)
Record Attempt : Type := {
  at_name_idx : nat;
  at_repre : RepreDoc;
  at_loader_idx : nat;
  at_loader : LoaderPlugin
}.

(** The attempts for one representation: loaders in priority order. *)
Definition loader_attempts (loaders_by_name : PyDict.t LoaderPlugin)
  (name_idx : nat) (repre : RepreDoc) (indexed_loaders : list (nat * string))
  : list Attempt :=
  flat_map
    (fun item : nat * string =>
       match PyDict.get (snd item) loaders_by_name with
       | Some loader =>
           [{| at_name_idx := name_idx; at_repre := repre;
               at_loader_idx := fst item; at_loader := loader |}]
       | None => []
       end)
    indexed_loaders.

(** The attempts for one product: representation names in priority order
    and, per representation, loaders in priority order. *)
Definition name_attempts (loaders_by_name : PyDict.t LoaderPlugin)
  (profile_loaders : list string) (repre_by_low_name : PyDict.t RepreDoc)
  (indexed_names : list (nat * string)) : list Attempt :=
  flat_map
    (fun item : nat * string =>
       match PyDict.get (snd item) repre_by_low_name with
       | Some repre =>
           loader_attempts loaders_by_name (fst item) repre
             (enumerate profile_loaders)
       | None => []
       end)
    indexed_names.

Definition attempt_plan (loaders_by_name : PyDict.t LoaderPlugin)
  (profile : Profile) (repres : list RepreDoc) : list Attempt :=
  name_attempts loaders_by_name (list_of (loaders profile))
    (PyDict.of_seq (fun repre => Str.lower (repre_name repre))
       (fun repre => repre) repres)
    (enumerate (list_of (repre_names_lowered profile))).

Definition attempt_call (product_name : string) (a : Attempt) : Event :=
  LoadCall (loader_name (at_loader a)) (repre_id (at_repre a)) product_name.

(** Priority order of attempts: earlier representation name first, then
    earlier loader. *)
Definition before_attempt (a b : Attempt) : Prop :=
  at_name_idx a < at_name_idx b
  \/ (at_name_idx a = at_name_idx b /\ at_loader_idx a < at_loader_idx b).

(** Attempts are made in order and stop at the first that does not raise.
    The result is the host state, the events and the container, if any. *)
Fixpoint run_attempts (product_name : string)
  (loaders_last_idx repre_names_last_idx : Z) (plan : list Attempt) (h : Host)
  : Host * list Event * option Container :=
  match plan with
  | [] => (h, [], None)
  | a :: rest =>
      match load_container env h (at_loader a) (repre_id (at_repre a))
              product_name with
      | (h', Loaded c) => (h', [attempt_call product_name a], Some c)
      | (h', Failed e) =>
          let '(h'', evs, r) :=
            run_attempts product_name loaders_last_idx repre_names_last_idx
              rest h' in
          (h'',
           attempt_call product_name a
           :: Log Error (UnexpectedError e)
           :: Log Info (LoadingFailed
                (fail_note (at_loader_idx a) loaders_last_idx
                   (at_name_idx a) repre_names_last_idx product_name))
           :: evs,
           r)
      end
  end.

(** What the attempts of one product come to. *)
Definition product_attempts (products_by_id : PyDict.t SubsetDoc)
  (profiles_by_product_id : PyDict.t Profile)
  (loaders_by_name : PyDict.t LoaderPlugin)
  (item : string * list RepreDoc) (h : Host)
  : Host * list Event * option Container :=
  match PyDict.get (fst item) products_by_id,
        PyDict.get (fst item) profiles_by_product_id with
  | Some product, Some profile =>
      run_attempts (subset_name product)
        (Z.of_nat (length (list_of (loaders profile))) - 1)
        (Z.of_nat (length (list_of (repre_names_lowered profile))) - 1)
        (attempt_plan loaders_by_name profile (snd item)) h
  | _, _ => (h, [], None)
  end.

(** The products in order, each with the container it yielded, if any. *)
Fixpoint load_all (products_by_id : PyDict.t SubsetDoc)
  (profiles_by_product_id : PyDict.t Profile)
  (loaders_by_name : PyDict.t LoaderPlugin)
  (items : list (string * list RepreDoc)) (h : Host)
  : Host * list Event * list (string * option Container) :=
  match items with
  | [] => (h, [], [])
  | item :: rest =>
      let '(h1, evs1, c) :=
        product_attempts products_by_id profiles_by_product_id
          loaders_by_name item h in
      let '(h2, evs2, cs) :=
        load_all products_by_id profiles_by_product_id loaders_by_name
          rest h1 in
      (h2, evs1 ++ evs2, (fst item, c) :: cs)
  end.

(** What [+=] leaves in [self.build_presets] (lines 537-538). *)
Definition after_ordering (presets : BuildPresets) : BuildPresets :=
  match current_context presets with
  | Some current =>
      {| current_context :=
           Some (current ++ list_of (linked_assets presets));
         linked_assets := linked_assets presets |}
  | None => presets
  end.

(** The profiles the product order is derived from: both pools. *)
Definition presets_sequence (presets : BuildPresets) : list Profile :=
  list_of (current_context presets) ++ list_of (linked_assets presets).

Definition with_presets (presets : option BuildPresets) (w : World) : World :=
  {| host := host w;
     self_build_presets := presets;
     events := events w |}.

(** The [LoadCall] events among some events. *)
Definition load_calls (evs : list Event) : list Event :=
  filter (fun e => match e with LoadCall _ _ _ => true | _ => false end) evs.

(** Every attempt of the plan raises; the host state they leave. *)
Fixpoint all_fail (product_name : string) (plan : list Attempt) (h : Host)
  : option Host :=
  match plan with
  | [] => Some h
  | a :: rest =>
      match load_container env h (at_loader a) (repre_id (at_repre a))
              product_name with
      | (_, Loaded _) => None
      | (h', Failed _) => all_fail product_name rest h'
      end
  end.

(** The events of the load loop: a load call, the error record of a failed
    call and the note that follows it. *)
Definition load_event (e : Event) : Prop :=
  match e with
  | LoadCall _ _ _ => True
  | Log Error (UnexpectedError _) => True
  | Log Info (LoadingFailed _) => True
  | _ => False
  end.

End Builder.

(** ** Specification-level definitions for profile resolution *)

(** [re.compile] over a list of patterns, when every pattern compiles. *)
Fixpoint compile_all (patterns : list string) : option (list Re.regex) :=
  match patterns with
  | [] => Some []
  | p :: r =>
      match Re.compile p, compile_all r with
      | Re.Compiled x, Some xs => Some (x :: xs)
      | _, _ => None
      end
  end.

(** The compiled name filters of a profile; no filter when the key is
    absent or the list is empty. *)
Definition profile_filters (profile : Profile) : option (list Re.regex) :=
  if truthy_list (product_name_filters profile)
  then compile_all (list_of (product_name_filters profile))
  else Some [].

(** The normalized product-type set of the profile contains the type. *)
Definition declares (product_type : string) (profile : Profile) : bool :=
  Str.mem (Str.lower product_type) (list_of (product_types_lowered profile)).

(** First match wins. *)
Definition first_match (profiles : list Profile) (product_type : string)
  : option Profile :=
  find (declares product_type) profiles.

(** The profile a product ends up with: the first profile that declares its
    type, provided its name passes the name filters of that profile. *)
Definition resolved_profile (profiles : list Profile) (doc : SubsetDoc)
  : option Profile :=
  match product_type_of doc with
  | None => None
  | Some product_type =>
      match first_match profiles product_type with
      | None => None
      | Some profile =>
          match profile_filters profile with
          | Some filters =>
              if name_passes filters (subset_name doc) then Some profile
              else None
          | None => None
          end
      end
  end.

(** The product is of the given type. *)
Definition has_type (product_type : string) (doc : SubsetDoc) : bool :=
  match product_type_of doc with
  | Some t => String.eqb t product_type
  | None => false
  end.

(** What the scan of the profiles does for one product type. *)
Definition assign_type (profiles : list Profile) (product_type : string)
  (subset_docs : list SubsetDoc) (d : PyDict.t Profile) : PyDict.t Profile :=
  match first_match profiles product_type with
  | None => d
  | Some profile =>
      match profile_filters profile with
      | Some filters => assign_profile profile filters subset_docs d
      | None => d
      end
  end.


(** ** Well-formed inputs of a build *)

(** A preset the whole build can process: it has a product-type list and
    its name filters compile. *)
Definition preset_ok (p : Profile) : Prop :=
  (exists pts, product_types p = Some pts)
  /\ exists rs, profile_filters p = Some rs.

Definition presets_ok (presets : BuildPresets) : Prop :=
  forall p, In p (presets_sequence presets) -> preset_ok p.

(** The store answers a query by parent ids with children of those ids. *)
Definition store_ok (Host Container : Type) (env : Env Host Container)
  : Prop :=
  (forall project ids d,
      In d (get_subsets env project ids) -> In (subset_parent d) ids)
  /\ (forall project ids v,
        In v (PyDict.values (get_last_versions env project ids)) ->
        In (version_parent v) ids)
  /\ (forall project ids r,
        In r (get_representations env project ids) ->
        In (repre_parent r) ids).

(** Prepared data of a folder: every product is filed under its own id. *)
Definition data_ok (data : AssetData) : Prop :=
  forall k e, In (k, e) (subsets_of data) -> subset_id (subset_doc_of e) = k.

(** [self.build_presets] holds presets the build can process. *)
Definition world_ok (Host : Type) (w : World Host) : Prop :=
  exists presets, self_build_presets w = Some presets /\ presets_ok presets.

(** The computation returns, and the result satisfies [Q]. *)
Definition yields (Host A : Type) (m : M Host A) (w : World Host)
  (Q : World Host -> A -> Prop) : Prop :=
  exists w' a, m w = (w', Ret a) /\ Q w' a.

(** The first name that occurs a second time, given the names seen. *)
Fixpoint first_duplicate (seen names : list string) : option string :=
  match names with
  | [] => None
  | n :: r =>
      if Str.mem n seen then Some n else first_duplicate (seen ++ [n]) r
  end.

(** The name that makes loader discovery fail, if any. *)
Definition duplicated_loader (discovered : list LoaderPlugin)
  : option string :=
  first_duplicate [] (map loader_name (filter enabled discovered)).

(** ** Predicates used in the proofs *)

(** The computation leaves the world as it was. *)
Definition silent (Host A : Type) (m : M Host A) : Prop :=
  forall w, fst (m w) = w.

(** Invariant of lines 552-561: [representations] lists what was enqueued,
    without repetition, and only entries of the dict under ordered ids are
    enqueued. *)
Definition order_inv (d : PyDict.t (list RepreDoc)) (ids : list string)
  (st : list (string * list RepreDoc) * list (list RepreDoc)) : Prop :=
  snd st = map snd (fst st)
  /\ NoDup (snd st)
  /\ forall p r, In (p, r) (fst st) -> In (p, r) d /\ In p ids.

(** Once a list is in [representations] it stays there, and nothing is
    enqueued for a product whose list is already there. *)
Definition skip_inv (r : list RepreDoc) (p2 : string)
  (st : list (string * list RepreDoc) * list (list RepreDoc)) : Prop :=
  In r (snd st) /\ ~ In p2 (map fst (fst st)).

(** A product that can go through the load loop: it is a known product and
    its profile is a valid one. *)
Definition loadable (products_by_id : PyDict.t SubsetDoc)
  (profiles_by_product_id : PyDict.t Profile) (product_id : string) : Prop :=
  exists product profile ls ns,
    PyDict.get product_id products_by_id = Some product
    /\ PyDict.get product_id profiles_by_product_id = Some profile
    /\ loaders profile = Some ls
    /\ repre_names_lowered profile = Some ns.

(** The products of one type, as [map_products_by_type] groups them. *)
Definition group_of (product_type : string) (docs : list SubsetDoc)
  : option (list SubsetDoc) :=
  match filter (has_type product_type) docs with
  | [] => None
  | l => Some l
  end.

(** A profile that profile resolution can process: validation cached its
    lower-cased product types, and its name filters compile. *)
Definition resolvable (profile : Profile) : Prop :=
  (exists lowered, product_types_lowered profile = Some lowered)
  /\ exists rs, profile_filters profile = Some rs.

(** What validation guarantees of a kept profile. *)
Definition kept_ok (q : Profile) : Prop :=
  resolvable q
  /\ (exists ls, loaders q = Some ls)
  /\ (exists ns, repre_names_lowered q = Some ns).

(** Invariant of lines 442-454 on (products_by_id, version_by_product_id,
    repres_by_version_id). *)
Definition index_ok
  (st : PyDict.t SubsetDoc * PyDict.t VersionDoc * PyDict.t (list RepreDoc))
  : Prop :=
  let '(products_by_id, version_by_product_id, repres_by_version_id) := st in
  PyDict.wf products_by_id
  /\ (forall k v, In (k, v) products_by_id -> subset_id v = k)
  /\ (forall k, In k (PyDict.keys products_by_id) ->
                exists v, PyDict.get k version_by_product_id = Some v)
  /\ (forall k v, PyDict.get k version_by_product_id = Some v ->
                  exists r,
                    PyDict.get (version_id v) repres_by_version_id = Some r).

(** Every folder of the collected output is well formed. *)
Definition output_ok (output : PyDict.t AssetData) : Prop :=
  forall k data, In (k, data) output -> data_ok data.

Arguments Raise {A} e.
Arguments Failed {Container} e.

(** ** Definitions for the properties of single functions *)

(** The distinct elements of a list, in order of first occurrence. *)
Definition first_occurrences (xs : list string) : list string :=
  fold_left (fun seen x => if Str.mem x seen then seen else seen ++ [x]) xs [].

(** The product types that occur among some products, one per typed
    product. *)
Definition types_of (docs : list SubsetDoc) : list string :=
  flat_map (fun doc => option_list (product_type_of doc)) docs.

(** The dictionary built from a list of loaders with distinct names. *)
Definition registry_of (found : list LoaderPlugin) : PyDict.t LoaderPlugin :=
  map (fun loader => (loader_name loader, loader)) found.


(** The representations that a profile asks for: those whose lower-cased
    name is among the lower-cased representation names of the profile. *)
Definition wanted_repres (profile : Profile) (repres : list RepreDoc)
  : list RepreDoc :=
  filter
    (fun repre =>
       Str.mem (Str.lower (repre_name repre))
         (list_of (repre_names_lowered profile)))
    repres.

(** The representations of the last version of a product. *)
Definition repres_of_product (version_by_product_id : PyDict.t VersionDoc)
  (repres_by_version_id : PyDict.t (list RepreDoc)) (product_id : string)
  : list RepreDoc :=
  match PyDict.get product_id version_by_product_id with
  | Some version_doc =>
      match PyDict.get (version_id version_doc) repres_by_version_id with
      | Some repres => repres
      | None => []
      end
  | None => []
  end.

(** The products with a wanted representation, in the order of the
    resolved profiles, each with its wanted representations. *)
Definition valid_repres (profiles_by_product_id : PyDict.t Profile)
  (version_by_product_id : PyDict.t VersionDoc)
  (repres_by_version_id : PyDict.t (list RepreDoc))
  : PyDict.t (list RepreDoc) :=
  flat_map
    (fun item : string * Profile =>
       match wanted_repres (snd item)
               (repres_of_product version_by_product_id
                  repres_by_version_id (fst item)) with
       | [] => []
       | l => [(fst item, l)]
       end)
    profiles_by_product_id.

(** Every preset has the key "product_types". *)
Definition all_typed (build_presets : list Profile) : bool :=
  forallb (fun preset => is_some (product_types preset)) build_presets.


(** ** Definitions for the collected entities *)

(** The representations filed under a folder and a product of the
    collected output: [output[folder_id]["subsets"][product_id]["version"]
    ["repres"]], empty when one of the keys is absent. *)
Definition filed_repres (output : PyDict.t AssetData)
  (folder_id product_id : string) : list RepreDoc :=
  match PyDict.get folder_id output with
  | Some data =>
      match PyDict.get product_id (subsets_of data) with
      | Some entry => repres_of entry
      | None => []
      end
  | None => []
  end.

(** Where a representation belongs: the folder and the product that
    lines 697-703 look up for it. *)
Definition place_of (subset_docs_by_id : PyDict.t SubsetDoc)
  (last_version_docs_by_id : PyDict.t VersionDoc) (repre_doc : RepreDoc)
  : option (string * string) :=
  match PyDict.get (repre_parent repre_doc) last_version_docs_by_id with
  | Some version_doc =>
      match PyDict.get (version_parent version_doc) subset_docs_by_id with
      | Some subset_doc =>
          Some (subset_parent subset_doc, version_parent version_doc)
      | None => None
      end
  | None => None
  end.

Definition belongs_to (subset_docs_by_id : PyDict.t SubsetDoc)
  (last_version_docs_by_id : PyDict.t VersionDoc)
  (folder_id product_id : string) (repre_doc : RepreDoc) : bool :=
  match place_of subset_docs_by_id last_version_docs_by_id repre_doc with
  | Some (f, p) => String.eqb f folder_id && String.eqb p product_id
  | None => false
  end.

(** The key whose lookup fails for a representation at lines 697-704, if
    any: the version, the product of the version or the folder of the
    product. *)
Definition missing_key (asset_docs_by_ids : PyDict.t AssetDoc)
  (subset_docs_by_id : PyDict.t SubsetDoc)
  (last_version_docs_by_id : PyDict.t VersionDoc) (repre_doc : RepreDoc)
  : option string :=
  match PyDict.get (repre_parent repre_doc) last_version_docs_by_id with
  | None => Some (repre_parent repre_doc)
  | Some version_doc =>
      match PyDict.get (version_parent version_doc) subset_docs_by_id with
      | None => Some (version_parent version_doc)
      | Some subset_doc =>
          match PyDict.get (subset_parent subset_doc) asset_docs_by_ids with
          | None => Some (subset_parent subset_doc)
          | Some _ => None
          end
      end
  end.

(** The first key that is missing for one of the representations. *)
Fixpoint first_missing_key (asset_docs_by_ids : PyDict.t AssetDoc)
  (subset_docs_by_id : PyDict.t SubsetDoc)
  (last_version_docs_by_id : PyDict.t VersionDoc)
  (repre_docs : list RepreDoc) : option string :=
  match repre_docs with
  | [] => None
  | repre_doc :: rest =>
      match missing_key asset_docs_by_ids subset_docs_by_id
              last_version_docs_by_id repre_doc with
      | Some k => Some k
      | None =>
          first_missing_key asset_docs_by_ids subset_docs_by_id
            last_version_docs_by_id rest
      end
  end.

(** The output of lines 706-723 for one representation whose version,
    product and folder were found. *)
Definition file_into (asset_doc : AssetDoc) (subset_doc : SubsetDoc)
  (version_doc : VersionDoc) (repre_doc : RepreDoc)
  (output : PyDict.t AssetData) : PyDict.t AssetData :=
  let folder_id := subset_parent subset_doc in
  let product_id := version_parent version_doc in
  let folder_data :=
    match PyDict.get folder_id output with
    | Some data => data
    | None => {| asset_doc_of := asset_doc; subsets_of := PyDict.empty |}
    end in
  let entry :=
    match PyDict.get product_id (subsets_of folder_data) with
    | Some entry => entry
    | None => {| subset_doc_of := subset_doc;
                 version_doc_of := version_doc;
                 repres_of := [] |}
    end in
  PyDict.set folder_id
    {| asset_doc_of := asset_doc_of folder_data;
       subsets_of :=
         PyDict.set product_id
           {| subset_doc_of := subset_doc_of entry;
              version_doc_of := version_doc_of entry;
              repres_of := repres_of entry ++ [repre_doc] |}
           (subsets_of folder_data) |}
    output.

(** Invariant of lines 696-723, given the three lookup tables and the
    representations filed so far. *)
Definition collected (asset_docs_by_ids : PyDict.t AssetDoc)
  (subset_docs_by_id : PyDict.t SubsetDoc)
  (last_version_docs_by_id : PyDict.t VersionDoc)
  (filed : list RepreDoc) (output : PyDict.t AssetData) : Prop :=
  PyDict.wf output
  /\ (forall folder_id data,
        In (folder_id, data) output ->
        PyDict.get folder_id asset_docs_by_ids = Some (asset_doc_of data)
        /\ PyDict.wf (subsets_of data)
        /\ subsets_of data <> []
        /\ forall product_id entry,
             In (product_id, entry) (subsets_of data) ->
             PyDict.get product_id subset_docs_by_id
             = Some (subset_doc_of entry)
             /\ subset_parent (subset_doc_of entry) = folder_id
             /\ version_parent (version_doc_of entry) = product_id
             /\ (exists version_id,
                    PyDict.get version_id last_version_docs_by_id
                    = Some (version_doc_of entry))
             /\ repres_of entry <> [])
  /\ forall folder_id product_id,
       filed_repres output folder_id product_id
       = filter
           (belongs_to subset_docs_by_id last_version_docs_by_id
              folder_id product_id)
           filed.


(** ** Definitions for the properties of a whole build *)

(** A load call names a loader, a representation and a product that are
    related by [ok]; every other event is allowed. *)
Definition call_ok (ok : LoaderPlugin -> RepreDoc -> SubsetDoc -> Prop)
  (e : Event) : Prop :=
  match e with
  | LoadCall loader repre name =>
      exists l r s,
        ok l r s
        /\ loader_name l = loader /\ repre_id r = repre
        /\ subset_name s = name
  | _ => True
  end.

(** What [_load_containers] may call [load_container] with: a registered
    loader that the profile of a product lists, for a representation of
    this product whose lower-cased name the profile lists. *)
Definition planned (repres_by_product_id : PyDict.t (list RepreDoc))
  (products_by_id : PyDict.t SubsetDoc)
  (profiles_by_product_id : PyDict.t Profile)
  (loaders_by_name : PyDict.t LoaderPlugin)
  (loader : LoaderPlugin) (repre : RepreDoc) (product : SubsetDoc) : Prop :=
  exists product_id repres profile key,
    In (product_id, repres) repres_by_product_id
    /\ In repre repres
    /\ PyDict.get product_id products_by_id = Some product
    /\ PyDict.get product_id profiles_by_product_id = Some profile
    /\ In (Str.lower (repre_name repre))
         (list_of (repre_names_lowered profile))
    /\ In key (list_of (loaders profile))
    /\ PyDict.get key loaders_by_name = Some loader.

(** What [load_containers_by_asset_data] may call [load_container] with: a
    product and a representation of the folder data, and a registered
    loader, such that one of the build profiles lists the loader and, up
    to case, the name of the representation. *)
Definition asked_for (asset_doc_data : AssetData)
  (build_profiles : list Profile) (loaders_by_name : PyDict.t LoaderPlugin)
  (loader : LoaderPlugin) (repre : RepreDoc) (product : SubsetDoc) : Prop :=
  (exists product_id entry,
      In (product_id, entry) (subsets_of asset_doc_data)
      /\ subset_doc_of entry = product)
  /\ (exists product_id entry,
        In (product_id, entry) (subsets_of asset_doc_data)
        /\ In repre (repres_of entry))
  /\ exists profile key,
       In profile build_profiles
       /\ In (Str.lower (repre_name repre))
            (map Str.lower (list_of (repre_names profile)))
       /\ In key (list_of (loaders profile))
       /\ PyDict.get key loaders_by_name = Some loader.

(** The computation only adds events, all of which satisfy [P], whether it
    returns or raises; a value it returns satisfies [Q]. *)
Definition confined (Host A : Type) (P : Event -> Prop) (Q : A -> Prop)
  (m : M Host A) : Prop :=
  forall w,
    (exists evs, events (fst (m w)) = events w ++ evs /\ Forall P evs)
    /\ match snd (m w) with
       | Ret a => Q a
       | Raise _ => True
       end.

(** Prepared data of a folder whose documents satisfy the predicates. *)
Definition data_from (Rok : RepreDoc -> Prop) (Sok : SubsetDoc -> Prop)
  (data : AssetData) : Prop :=
  forall product_id entry,
    In (product_id, entry) (subsets_of data) ->
    Sok (subset_doc_of entry)
    /\ forall repre, In repre (repres_of entry) -> Rok repre.

(** The store returned the document to a query of the current project. *)
Definition repre_from_store (Host Container : Type)
  (env : Env Host Container) (repre : RepreDoc) : Prop :=
  exists ids,
    In repre (get_representations env (get_current_project_name env) ids).

Definition product_from_store (Host Container : Type)
  (env : Env Host Container) (product : SubsetDoc) : Prop :=
  exists ids, In product (get_subsets env (get_current_project_name env) ids).

(** Collected entities of the given folders: the keys are unique, every
    entry is keyed by the id of its folder document, which is one of the
    given folders, and holds documents that the store returned. *)
Definition collected_from (Host Container : Type) (env : Env Host Container)
  (asset_docs : list AssetDoc) (output : PyDict.t AssetData) : Prop :=
  PyDict.wf output
  /\ forall folder_id data,
       In (folder_id, data) output ->
       In (asset_doc_of data) asset_docs
       /\ asset_id (asset_doc_of data) = folder_id
       /\ data_from (repre_from_store env) (product_from_store env) data.

(** What a build may call [load_container] with: an enabled loader that
    discovery returned, a representation that the store returned and a
    product that the store returned. *)
Definition sanctioned (Host Container : Type) (env : Env Host Container)
  (loader : LoaderPlugin) (repre : RepreDoc) (product : SubsetDoc) : Prop :=
  (In loader (discover_loader_plugins env) /\ enabled loader = true)
  /\ repre_from_store env repre
  /\ product_from_store env product.

(** The folder id of an entry of the returned list. *)
Definition loaded_folder_id (Container : Type)
  (loaded_data : LoadedData Container) : string :=
  asset_id (loaded_asset_doc loaded_data).

(** The folders a build processes: the current folder when the
    current-context pool is filled, the linked folders when the
    linked-folder pool is filled. *)
Definition candidate_folders (presets : BuildPresets)
  (current_asset_doc : AssetDoc) (link_assets : list AssetDoc)
  : list AssetDoc :=
  (if truthy_list (current_context presets) then [current_asset_doc] else [])
  ++ (if truthy_list (linked_assets presets) then link_assets else []).





(** ** Definitions for the store queries of a build *)

Definition is_query (e : Event) : bool :=
  match e with Query _ => true | _ => false end.

(** The store queries among some events. *)
Definition queries (evs : list Event) : list Event := filter is_query evs.

(** The computation only adds events, the store queries among them are
    exactly [qs], whether it returns or raises, and a value it returns
    satisfies [Q]. *)
Definition asking (Host A : Type) (qs : list Event) (Q : A -> Prop)
  (m : M Host A) : Prop :=
  forall w,
    (exists evs, events (fst (m w)) = events w ++ evs /\ queries evs = qs)
    /\ match snd (m w) with
       | Ret a => Q a
       | Raise _ => True
       end.

(** The queries that collect the entities of some folders: none for no
    folder, else one for the products of the folders, one for the last
    versions of these products and one for the representations of these
    versions. *)
Definition collect_queries (Host Container : Type)
  (env : Env Host Container) (asset_docs : list AssetDoc) : list Event :=
  match asset_docs with
  | [] => []
  | _ :: _ =>
      let project := get_current_project_name env in
      let asset_ids :=
        PyDict.keys (PyDict.of_seq asset_id (fun d => d) asset_docs) in
      let subset_ids :=
        PyDict.keys
          (PyDict.of_seq subset_id (fun d => d)
             (get_subsets env project asset_ids)) in
      let version_ids :=
        PyDict.keys
          (PyDict.of_seq version_id (fun d => d)
             (PyDict.values (get_last_versions env project subset_ids))) in
      [Query (QSubsets project asset_ids);
       Query (QLastVersions project subset_ids);
       Query (QRepresentations project version_ids)]
  end.

(** The queries of a build once the current folder and the loaders are
    known: the linked folders when the linked-folder pool is filled, then
    the entities of the folders to process. *)
Definition task_queries (Host Container : Type) (env : Env Host Container)
  (current_asset_doc : AssetDoc) : list Event :=
  let project := get_current_project_name env in
  match get_build_presets env (get_current_task_name env)
          current_asset_doc with
  | None => []
  | Some presets =>
      if negb (truthy_list (current_context presets))
         && negb (truthy_list (linked_assets presets))
      then []
      else
        (if truthy_list (linked_assets presets)
         then [Query (QLinkedAssets project (asset_id current_asset_doc))]
         else [])
        ++ collect_queries env
             (candidate_folders presets current_asset_doc
                (get_linked_assets env project current_asset_doc))
  end.

(** The queries of a whole build: the current folder first; the rest only
    when the folder exists and there is an enabled loader and no two of
    them share a name. *)
Definition build_queries (Host Container : Type) (env : Env Host Container)
  : list Event :=
  let project := get_current_project_name env in
  let path := get_current_asset_name env in
  Query (QAssetByName project path)
  :: match get_asset_by_name env project path with
     | None => []
     | Some current_asset_doc =>
         match duplicated_loader (discover_loader_plugins env) with
         | Some _ => []
         | None =>
             match filter enabled (discover_loader_plugins env) with
             | [] => []
             | _ :: _ => task_queries env current_asset_doc
             end
         end
     end.


(** ** Scenarios

    Concrete documents, profiles and collaborators on which the properties
    below are evaluated. *)

Module Scenario.

(** A product named "charA_model" of type "model". *)
Definition charA_model : SubsetDoc :=
  {| subset_id := "p1";
     subset_name := "charA_model";
     subset_parent := "a1";
     subset_family := Some "model";
     subset_families := Some ["model"] |}.

(** A valid profile for the type "model" with the given name filters. *)
Definition model_profile (filters : option (list string)) : Profile :=
  with_lowered
    {| loaders := Some ["LoaderX"; "LoaderY"];
       product_types := Some ["model"];
       repre_names := Some ["abc"; "usd"];
       product_name_filters := filters;
       product_types_lowered := None;
       repre_names_lowered := None |}.

(** The host state counts the successful loads; a container records the
    loader and the representation it came from. *)
Definition Host : Type := nat.
Definition Container : Type := (string * string)%type.

Definition abc : RepreDoc :=
  {| repre_id := "r_abc"; repre_name := "abc"; repre_parent := "v1" |}.

Definition usd : RepreDoc :=
  {| repre_id := "r_usd"; repre_name := "usd"; repre_parent := "v1" |}.

Definition LoaderX : LoaderPlugin :=
  {| loader_name := "LoaderX"; enabled := true |}.

Definition LoaderY : LoaderPlugin :=
  {| loader_name := "LoaderY"; enabled := true |}.

Definition registry : PyDict.t LoaderPlugin :=
  [("LoaderX", LoaderX); ("LoaderY", LoaderY)].

(** An instance of [IncompatibleLoaderError]. *)
Definition incompatible : ExcInstance :=
  {| exc_ident := 1;
     exc_class := IncompatibleLoaderError;
     exc_message := "not compatible" |}.

(** [LoaderX] raises [IncompatibleLoaderError], any other loader loads. *)
Definition load_x_raises (h : Host) (loader : LoaderPlugin)
  (repre_id product_name : string) : Host * LoadOutcome Container :=
  if String.eqb (loader_name loader) "LoaderX"
  then (h, Failed incompatible)
  else (S h, Loaded (loader_name loader, repre_id)).

(** Every loader loads. *)
Definition load_always (h : Host) (loader : LoaderPlugin)
  (repre_id product_name : string) : Host * LoadOutcome Container :=
  (S h, Loaded (loader_name loader, repre_id)).

Definition current_folder : AssetDoc :=
  {| asset_id := "a1"; asset_name := "charA"; asset_tasks := [] |}.

(** Collaborators over a small store: the given task presets, products,
    last versions, representations, linked folders, discovered loaders and
    behaviour of [load_container]. *)
Definition env_with (presets : option BuildPresets)
  (subset_docs : list SubsetDoc) (versions : PyDict.t VersionDoc)
  (repre_docs : list RepreDoc) (linked : list AssetDoc)
  (discovered : list LoaderPlugin)
  (load : Host -> LoaderPlugin -> string -> string
          -> Host * LoadOutcome Container)
  : Env Host Container :=
  {| get_current_project_name := "project";
     get_current_asset_name := "/assets/charA";
     get_current_task_name := "modeling";
     get_current_host_name := "maya";
     get_project_settings := fun _ =>
       [("maya",
         {| workfile_builder :=
              Some {| builder_profiles := Some (option_list presets) |};
            workfile_build := None |})];
     filter_profiles := fun profiles _ _ => hd_error profiles;
     get_asset_by_name := fun _ path =>
       if String.eqb path "/assets/charA" then Some current_folder else None;
     get_linked_assets := fun _ _ => linked;
     get_subsets := fun _ ids =>
       filter (fun d => Str.mem (subset_parent d) ids) subset_docs;
     get_last_versions := fun _ ids =>
       filter (fun kv : string * VersionDoc => Str.mem (fst kv) ids) versions;
     get_representations := fun _ ids =>
       filter (fun r => Str.mem (repre_parent r) ids) repre_docs;
     discover_loader_plugins := discovered;
     load_container := load |}.

(** Collaborators of which only [load_container] matters. *)
Definition env_loading
  (load : Host -> LoaderPlugin -> string -> string
          -> Host * LoadOutcome Container)
  : Env Host Container :=
  env_with None [] [] [] [] [LoaderX; LoaderY] load.

(** A world in which [self.build_presets] was assigned. *)
Definition world_with (presets : option BuildPresets) : World Host :=
  {| host := 0; self_build_presets := presets; events := [] |}.

(** Presets whose current-context pool is the profile for "model". *)
Definition model_presets : BuildPresets :=
  {| current_context := Some [model_profile None];
     linked_assets := None |}.

(** A second product of type "model". *)
Definition charB_model : SubsetDoc :=
  {| subset_id := "p2";
     subset_name := "charB_model";
     subset_parent := "a1";
     subset_family := Some "model";
     subset_families := Some ["model"] |}.

(** Presets in which the type "model" is declared by a profile of each
    pool. *)
Definition repeated_presets : BuildPresets :=
  {| current_context := Some [model_profile None];
     linked_assets := Some [model_profile None] |}.

(** Products A (type "model") and B (type "rig") of the current folder.
    [legacy] says whether the legacy list "families" is filled next to the
    type. *)
Definition product_A (legacy : bool) : SubsetDoc :=
  {| subset_id := "pA";
     subset_name := "A";
     subset_parent := "a1";
     subset_family := Some "model";
     subset_families := if legacy then Some ["model"] else None |}.

Definition product_B (legacy : bool) : SubsetDoc :=
  {| subset_id := "pB";
     subset_name := "B";
     subset_parent := "a1";
     subset_family := Some "rig";
     subset_families := if legacy then Some ["rig"] else None |}.

Definition rig_profile : Profile :=
  {| loaders := Some ["LoaderX"];
     product_types := Some ["rig"];
     repre_names := Some ["abc"];
     product_name_filters := None;
     product_types_lowered := None;
     repre_names_lowered := None |}.

Definition plain_model_profile : Profile :=
  {| loaders := Some ["LoaderX"];
     product_types := Some ["model"];
     repre_names := Some ["abc"];
     product_name_filters := None;
     product_types_lowered := None;
     repre_names_lowered := None |}.

(** Profile order: the rig profile first, the model profile second. *)
Definition rig_then_model : BuildPresets :=
  {| current_context := Some [rig_profile; plain_model_profile];
     linked_assets := None |}.

Definition versions_AB : PyDict.t VersionDoc :=
  [("pA", {| version_id := "vA"; version_parent := "pA" |});
   ("pB", {| version_id := "vB"; version_parent := "pB" |})].

Definition repres_AB : list RepreDoc :=
  [{| repre_id := "rA"; repre_name := "abc"; repre_parent := "vA" |};
   {| repre_id := "rB"; repre_name := "abc"; repre_parent := "vB" |}].

(** The build over products [A; B] with profile order [rig; model]. *)
Definition env_AB (legacy : bool) : Env Host Container :=
  env_with (Some rig_then_model) [product_A legacy; product_B legacy]
    versions_AB repres_AB [] [LoaderX] load_always.

(** The same profiles with their product types capitalised. *)
Definition capital_rig_profile : Profile :=
  {| loaders := Some ["LoaderX"];
     product_types := Some ["Rig"];
     repre_names := Some ["abc"];
     product_name_filters := None;
     product_types_lowered := None;
     repre_names_lowered := None |}.

Definition capital_model_profile : Profile :=
  {| loaders := Some ["LoaderX"];
     product_types := Some ["Model"];
     repre_names := Some ["abc"];
     product_name_filters := None;
     product_types_lowered := None;
     repre_names_lowered := None |}.

Definition capital_rig_then_model : BuildPresets :=
  {| current_context := Some [capital_rig_profile; capital_model_profile];
     linked_assets := None |}.

(** The build over products [A; B], "families" filled, with the profile
    order [Rig; Model]. *)
Definition env_AB_capital : Env Host Container :=
  env_with (Some capital_rig_then_model) [product_A true; product_B true]
    versions_AB repres_AB [] [LoaderX] load_always.

(** A build whose only profile carries the name filter "*", which
    [re.compile] rejects; the two discovered loaders have distinct names. *)
Definition env_bad_filter : Env Host Container :=
  env_with
    (Some {| current_context := Some [model_profile (Some ["*"])];
             linked_assets := None |})
    [charA_model]
    [("p1", {| version_id := "v1"; version_parent := "p1" |})]
    [abc] [] [LoaderX; LoaderY] load_always.

(** A disabled loader that has the name of [LoaderX]. *)
Definition LoaderX_disabled : LoaderPlugin :=
  {| loader_name := "LoaderX"; enabled := false |}.

(** The rig profile without its loader list. *)
Definition rig_no_loaders : Profile :=
  {| loaders := None;
     product_types := Some ["rig"];
     repre_names := Some ["abc"];
     product_name_filters := None;
     product_types_lowered := None;
     repre_names_lowered := None |}.

(** A representation that no profile of the scenarios asks for. *)
Definition ma : RepreDoc :=
  {| repre_id := "r_ma"; repre_name := "MA"; repre_parent := "v1" |}.

(** A profile without the key "product_types", and presets whose
    linked-folder pool holds it. *)
Definition untyped_profile : Profile :=
  {| loaders := Some ["LoaderX"];
     product_types := None;
     repre_names := Some ["abc"];
     product_name_filters := None;
     product_types_lowered := None;
     repre_names_lowered := None |}.

Definition untyped_linked_presets : BuildPresets :=
  {| current_context := Some [model_profile None];
     linked_assets := Some [untyped_profile] |}.

(** A folder linked to the current one, with one product of type "model"
    whose only representation is named in upper case. *)
Definition linked_folder : AssetDoc :=
  {| asset_id := "a2"; asset_name := "propB"; asset_tasks := [] |}.

Definition linked_model : SubsetDoc :=
  {| subset_id := "p3";
     subset_name := "propB_model";
     subset_parent := "a2";
     subset_family := Some "model";
     subset_families := Some ["model"] |}.

Definition linked_abc : RepreDoc :=
  {| repre_id := "r3"; repre_name := "ABC"; repre_parent := "v3" |}.

(** A build over the current folder and the linked folder, with the
    profile for "model" in both pools and a disabled namesake of
    [LoaderX]. *)
Definition env_linked : Env Host Container :=
  env_with (Some repeated_presets) [charA_model; linked_model]
    [("p1", {| version_id := "v1"; version_parent := "p1" |});
     ("p3", {| version_id := "v3"; version_parent := "p3" |})]
    [abc; linked_abc] [linked_folder]
    [LoaderX; LoaderX_disabled; LoaderY] load_x_raises.

(** Prepared data of the current folder: the product "charA_model" with
    its last version and two representations. *)
Definition folder_data : AssetData :=
  {| asset_doc_of := current_folder;
     subsets_of :=
       [("p1",
         {| subset_doc_of := charA_model;
            version_doc_of :=
              {| version_id := "v1"; version_parent := "p1" |};
            repres_of := [ma; abc] |})] |}.

End Scenario.

(** * Properties *)

(** ** Dictionaries *)

Module PyDictFacts.
Import PyDict.

Section Facts.
Variable V : Type.
Implicit Types (d : PyDict.t V) (k : string) (v : V).

Lemma get_set_same k v d : get k (set k v d) = Some v.
Proof.
  induction d as [|[k' v'] r IH]; simpl.
  - now rewrite String.eqb_refl.
  - destruct (String.eqb k k') eqn:E; simpl.
    + now rewrite String.eqb_refl.
    + now rewrite E.
Qed.

Lemma get_set_other k k' v d : k <> k' -> get k' (set k v d) = get k' d.
Proof.
  intros N. induction d as [|[k0 v0] r IH]; simpl.
  - destruct (String.eqb_spec k' k); congruence.
  - destruct (String.eqb_spec k k0) as [->|]; simpl.
    + destruct (String.eqb_spec k' k0); congruence.
    + destruct (String.eqb_spec k' k0); auto.
Qed.

Lemma get_set k k' v d :
  get k' (set k v d) = if String.eqb k k' then Some v else get k' d.
Proof.
  destruct (String.eqb_spec k k') as [->|N].
  - apply get_set_same.
  - now apply get_set_other.
Qed.

Lemma get_Some_In k v d : get k d = Some v -> In (k, v) d.
Proof.
  induction d as [|[k' v'] r IH]; simpl; [discriminate|].
  destruct (String.eqb_spec k k') as [->|]; intros H.
  - injection H as ->. now left.
  - right. auto.
Qed.

Lemma get_None_keys k d : get k d = None <-> ~ In k (keys d).
Proof.
  induction d as [|[k' v'] r IH]; simpl.
  - tauto.
  - destruct (String.eqb_spec k k') as [->|N].
    + split; [discriminate | intros H; exfalso; apply H; now left].
    + rewrite IH. split.
      * intros H [E|I]; [congruence | tauto].
      * tauto.
Qed.

Lemma get_Some_keys k v d : get k d = Some v -> In k (keys d).
Proof.
  intros H. apply get_Some_In in H.
  apply in_map_iff. exists (k, v); auto.
Qed.

Lemma keys_get k d : In k (keys d) -> exists v, get k d = Some v.
Proof.
  intros H. destruct (get k d) eqn:E; eauto.
  apply get_None_keys in E. contradiction.
Qed.

Lemma contains_keys k d : contains k d = true <-> In k (keys d).
Proof.
  unfold contains. split.
  - destruct (get k d) eqn:E; [|discriminate].
    intros _. eapply get_Some_keys; eauto.
  - intros H. apply keys_get in H as [v ->]. reflexivity.
Qed.

Lemma In_get k v d : wf d -> In (k, v) d -> get k d = Some v.
Proof.
  unfold wf. induction d as [|[k' v'] r IH]; simpl; [tauto|].
  intros W [E|I].
  - injection E as -> ->. now rewrite String.eqb_refl.
  - inversion W as [|? ? N W']; subst.
    destruct (String.eqb_spec k k') as [->|].
    + exfalso. apply N. apply in_map_iff. exists (k', v); auto.
    + auto.
Qed.

Lemma keys_set k v d :
  keys (set k v d) = if contains k d then keys d else keys d ++ [k].
Proof.
  unfold contains. induction d as [|[k' v'] r IH]; simpl; [reflexivity|].
  destruct (String.eqb_spec k k') as [->|N]; simpl; [reflexivity|].
  rewrite IH. destruct (get k r); reflexivity.
Qed.

Lemma In_keys_set k k' v d :
  In k' (keys (set k v d)) <-> k' = k \/ In k' (keys d).
Proof.
  rewrite keys_set. destruct (contains k d) eqn:E.
  - apply contains_keys in E. split; [tauto|]. intros [->|]; auto.
  - rewrite in_app_iff. simpl. split; intros H; intuition.
Qed.

Lemma wf_empty : wf (@empty V).
Proof. constructor. Qed.

Lemma wf_set k v d : wf d -> wf (set k v d).
Proof.
  unfold wf. rewrite keys_set. intros W.
  destruct (contains k d) eqn:E; [assumption|].
  assert (N : ~ In k (keys d)).
  { intros I. apply contains_keys in I. congruence. }
  clear E. induction (keys d) as [|a l IH]; simpl.
  - constructor; [tauto | constructor].
  - inversion W as [|? ? Na Wl]; subst. constructor.
    + rewrite in_app_iff. simpl in *. intuition.
    + apply IH; simpl in *; intuition.
Qed.

Lemma truthy_false d : truthy d = false -> d = [].
Proof. destruct d; [reflexivity | discriminate]. Qed.

Lemma get_remove_other k k' d : k <> k' -> get k' (remove k d) = get k' d.
Proof.
  intros N. induction d as [|[k0 v0] r IH]; simpl; [reflexivity|].
  destruct (String.eqb_spec k k0) as [->|]; simpl.
  - destruct (String.eqb_spec k' k0); congruence.
  - destruct (String.eqb_spec k' k0); auto.
Qed.

Lemma In_remove kv k d : In kv (remove k d) -> In kv d.
Proof.
  induction d as [|[k0 v0] r IH]; simpl; [tauto|].
  destruct (String.eqb k k0); simpl; intuition.
Qed.

Section OfSeq.
Variable X : Type.
Variables (key : X -> string) (val : X -> V).

Lemma of_seq_fold_wf xs d :
  wf d -> wf (fold_left (fun d x => set (key x) (val x) d) xs d).
Proof.
  revert d. induction xs as [|x r IH]; simpl; auto using wf_set.
Qed.

Lemma wf_of_seq xs : wf (of_seq key val xs).
Proof. apply of_seq_fold_wf, wf_empty. Qed.

Lemma of_seq_fold_keys xs d k :
  In k (keys (fold_left (fun d x => set (key x) (val x) d) xs d)) <->
  In k (keys d) \/ exists x, In x xs /\ key x = k.
Proof.
  revert d. induction xs as [|x r IH]; simpl; intros d.
  - split; [tauto|]. intros [H|[x [[] _]]]; assumption.
  - rewrite IH, In_keys_set. split.
    + intros [[->|H]|[y [Hy E]]]; eauto.
    + intros [H|[y [[->|Hy] E]]]; eauto.
Qed.

Lemma keys_of_seq xs k :
  In k (keys (of_seq key val xs)) <-> exists x, In x xs /\ key x = k.
Proof.
  unfold of_seq. rewrite of_seq_fold_keys. simpl. tauto.
Qed.

Lemma of_seq_fold_get xs d k v :
  get k (fold_left (fun d x => set (key x) (val x) d) xs d) = Some v ->
  get k d = Some v \/ exists x, In x xs /\ key x = k /\ val x = v.
Proof.
  revert d. induction xs as [|x r IH]; simpl; intros d H; auto.
  apply IH in H as [H|[y [Hy [E1 E2]]]]; eauto 6.
  rewrite get_set in H. destruct (String.eqb_spec (key x) k).
  - injection H as <-. eauto 6.
  - auto.
Qed.

Lemma get_of_seq xs k v :
  get k (of_seq key val xs) = Some v ->
  exists x, In x xs /\ key x = k /\ val x = v.
Proof.
  intros H. apply of_seq_fold_get in H as [H|H]; [discriminate|assumption].
Qed.

End OfSeq.

End Facts.

End PyDictFacts.

(** ** Loops *)

Lemma loop_first_hit (X : Type) (f : X -> bool) (xs : list X) :
  loop xs (fun x _ => if f x then Break true else Next false) false
  = existsb f xs.
Proof.
  induction xs as [|x r IH]; simpl; [reflexivity|].
  destruct (f x); simpl; auto.
Qed.

Lemma loop_fold (X S : Type) (f : X -> S -> S) (xs : list X) (s : S) :
  loop xs (fun x s => Next (f x s)) s = fold_left (fun s x => f x s) xs s.
Proof.
  revert s. induction xs as [|x r IH]; simpl; auto.
Qed.

(** ** Regular expressions *)

Module ReFacts.
Import Re.

Lemma match_from_prefix (s : string) :
  forall (b : bool) (r : regex),
    match_from b r s = true <->
    exists p q, s = (p ++ q)%string /\ fullmatch_from b r p = true.
Proof.
  induction s as [|c s IH]; intros b r; simpl.
  - rewrite orb_false_r. split.
    + intros H. exists EmptyString, EmptyString. auto.
    + intros [p [q [E H]]]. destruct p; [assumption | discriminate].
  - rewrite orb_true_iff, IH. split.
    + intros [H|[p [q [E H]]]].
      * exists EmptyString, (String c s). auto.
      * exists (String c p), q. simpl. split; [congruence | assumption].
    + intros [p [q [E H]]]. destruct p as [|c' p]; simpl in *.
      * now left.
      * injection E as <- ->. right. eauto.
Qed.

Lemma match_prefix (r : regex) (s : string) :
  match_ r s = true <->
  exists p q, s = (p ++ q)%string /\ fullmatch r p = true.
Proof. apply match_from_prefix. Qed.

End ReFacts.

Lemma name_passes_existsb (rs : list Re.regex) (name : string) :
  name_passes rs name =
  match rs with
  | [] => true
  | _ => existsb (fun r => Re.match_ r name) rs
  end.
Proof.
  unfold name_passes. destruct rs; [reflexivity|].
  apply (loop_first_hit (fun r => Re.match_ r name)).
Qed.

(** ** The monad *)

Section MonadFacts.
Variable Host : Type.
Implicit Types (w : World Host).

Lemma add_events_nil w : add_events [] w = w.
Proof. destruct w. unfold add_events. simpl. now rewrite app_nil_r. Qed.

Lemma add_events_app evs1 evs2 w :
  add_events evs2 (add_events evs1 w) = add_events (evs1 ++ evs2) w.
Proof. unfold add_events. simpl. now rewrite app_assoc. Qed.

Lemma emit_add e w : emit e w = (add_events [e] w, Ret tt).
Proof. reflexivity. Qed.

Lemma bind_ret (A B : Type) (a : A) (k : A -> M Host B) w :
  bind (ret a) k w = k a w.
Proof. reflexivity. Qed.

Lemma bind_emit (B : Type) e (k : unit -> M Host B) w :
  bind (emit e) k w = k tt (add_events [e] w).
Proof. reflexivity. Qed.

Lemma bind_log (B : Type) lvl m (k : unit -> M Host B) w :
  bind (log lvl m) k w = k tt (add_events [Log lvl m] w).
Proof. reflexivity. Qed.

Lemma bind_print (B : Type) m (k : unit -> M Host B) w :
  bind (print m) k w = k tt (add_events [Print m] w).
Proof. reflexivity. Qed.

Lemma bind_query (A B : Type) q (a : A) (k : A -> M Host B) w :
  bind (query q a) k w = k a (add_events [Query q] w).
Proof. reflexivity. Qed.

Lemma bind_assign (B : Type) (v : option BuildPresets)
  (k : unit -> M Host B) w :
  bind (assign_build_presets v) k w = k tt (with_presets v w).
Proof. reflexivity. Qed.

Lemma bind_bind (A B C : Type) (m : M Host A) (k : A -> M Host B)
  (h : B -> M Host C) w :
  bind (bind m k) h w = bind m (fun a => bind (k a) h) w.
Proof. unfold bind. destruct (m w) as [w' [a|e]]; reflexivity. Qed.

End MonadFacts.

(** ** [_filter_build_profiles] *)

Section FilterFacts.
Variable Host : Type.
Variable loaders_by_name : PyDict.t LoaderPlugin.

Lemma check_profile_spec (p : Profile) (acc : list Profile) (w : World Host) :
  check_profile loaders_by_name p acc w =
  if excluded loaders_by_name p
  then (add_events [Log Warning (exclusion_warning loaders_by_name p)] w,
        Ret (Next acc))
  else (w, Ret (Next (acc ++ [with_lowered p]))).
Proof.
  unfold check_profile, excluded, exclusion_warning.
  rewrite (loop_first_hit (fun n => PyDict.contains n loaders_by_name)).
  destruct (truthy_list (loaders p)); [|reflexivity].
  destruct (existsb _ (list_of (loaders p))); [|reflexivity].
  destruct (truthy_list (product_types p)); [|reflexivity].
  destruct (truthy_list (repre_names p)); reflexivity.
Qed.

Lemma filter_loop (profiles : list Profile) :
  forall (acc : list Profile) (w : World Host),
    for_ profiles (check_profile loaders_by_name) acc w
    = (add_events
         (map (fun p => Log Warning (exclusion_warning loaders_by_name p))
            (filter (excluded loaders_by_name) profiles)) w,
       Ret (acc ++ map with_lowered
              (filter (fun p => negb (excluded loaders_by_name p)) profiles))).
Proof.
  induction profiles as [|p r IH]; intros acc w.
  - simpl. unfold ret. now rewrite add_events_nil, app_nil_r.
  - cbn [for_ filter]. unfold bind. rewrite check_profile_spec.
    destruct (excluded loaders_by_name p); cbn [negb map].
    + rewrite IH, add_events_app. reflexivity.
    + rewrite IH, <- app_assoc. reflexivity.
Qed.

Lemma filter_build_profiles_spec (profiles : list Profile) (w : World Host) :
  _filter_build_profiles profiles loaders_by_name w
  = (add_events
       (map (fun p => Log Warning (exclusion_warning loaders_by_name p))
          (filter (excluded loaders_by_name) profiles)) w,
     Ret (map with_lowered
            (filter (fun p => negb (excluded loaders_by_name p)) profiles))).
Proof. apply (filter_loop profiles []). Qed.

End FilterFacts.

(** ** Computations that leave the world alone *)

Section Silent.
Variable Host : Type.

Lemma silent_ret (A : Type) (a : A) : silent (Host:=Host) (ret a).
Proof. intros w. reflexivity. Qed.

Lemma silent_raise (A : Type) (e : ExcInstance) :
  silent (Host:=Host) (raise (A:=A) e).
Proof. intros w. reflexivity. Qed.

Lemma silent_bind (A B : Type) (m : M Host A) (k : A -> M Host B) :
  silent m -> (forall a, silent (k a)) -> silent (bind m k).
Proof.
  intros Hm Hk w. unfold bind. specialize (Hm w).
  destruct (m w) as [w' [a|e]]; simpl in *; subst; [apply Hk | reflexivity].
Qed.

Lemma silent_subscript (V : Type) (d : PyDict.t V) (k : string) :
  silent (Host:=Host) (subscript d k).
Proof. intros w. unfold subscript. destruct (PyDict.get k d); reflexivity. Qed.

Lemma silent_field (V : Type) (o : option V) (k : string) :
  silent (Host:=Host) (field o k).
Proof. intros w. destruct o; reflexivity. Qed.

Lemma silent_for (X S : Type) (body : X -> S -> M Host (Ctl S)) (xs : list X) :
  (forall x s, silent (body x s)) -> forall s, silent (for_ xs body s).
Proof.
  intros Hb. induction xs as [|x r IH]; intros s; simpl.
  - apply silent_ret.
  - apply silent_bind; [apply Hb|]. intros [s'|s']; [apply IH | apply silent_ret].
Qed.

Lemma silent_run (A : Type) (m : M Host A) (w : World Host) :
  silent m -> m w = (w, snd (m w)).
Proof. intros H. specialize (H w). destruct (m w); simpl in *; now subst. Qed.

End Silent.

Ltac silent_step :=
  first
    [ apply silent_ret | apply silent_raise | apply silent_subscript
    | apply silent_field
    | apply silent_bind; [|intros ?]
    | apply silent_for; intros ? ? ].

(** ** [_collect_last_version_repres] *)

Section CollectFacts.
Variables Host Container : Type.

Lemma silent_file_repre (a : PyDict.t AssetDoc) (s : PyDict.t SubsetDoc)
  (v : PyDict.t VersionDoc) (repre_doc : RepreDoc)
  (output : PyDict.t AssetData) :
  silent (file_repre (Host:=Host) a s v repre_doc output).
Proof. unfold file_repre. repeat silent_step. Qed.

End CollectFacts.

Lemma loop_inv (X S : Type) (P : S -> Prop) (body : X -> S -> Ctl S)
  (xs : list X) :
  (forall x s, In x xs -> P s ->
               match body x s with Next s' | Break s' => P s' end) ->
  forall s, P s -> P (loop xs body s).
Proof.
  induction xs as [|x r IH]; intros Hb s Hs; simpl; [assumption|].
  pose proof (Hb x s (or_introl eq_refl) Hs) as H.
  destruct (body x s) as [s'|s']; [|assumption].
  apply IH; [|assumption]. intros y t I. apply Hb. now right.
Qed.

Lemma loop_app (X S : Type) (body : X -> S -> S) (xs ys : list X) (s : S) :
  loop (xs ++ ys) (fun x s => Next (body x s)) s
  = loop ys (fun x s => Next (body x s)) (loop xs (fun x s => Next (body x s)) s).
Proof.
  revert s. induction xs as [|x r IH]; intros s; simpl; auto.
Qed.

(** ** Equality of representation documents *)

Lemma repre_eqb_eq (a b : RepreDoc) : repre_eqb a b = true <-> a = b.
Proof.
  unfold repre_eqb. rewrite !andb_true_iff, !String.eqb_eq.
  destruct a, b; simpl. split.
  - intros [[-> ->] ->]. reflexivity.
  - intros E. injection E as -> -> ->. auto.
Qed.

Lemma repres_eqb_eq (xs ys : list RepreDoc) : repres_eqb xs ys = true <-> xs = ys.
Proof.
  revert ys. induction xs as [|x r IH]; intros [|y ys]; simpl;
    try (split; [discriminate | discriminate]); [tauto|].
  rewrite andb_true_iff, repre_eqb_eq, IH. split.
  - intros [-> ->]. reflexivity.
  - intros E. injection E as -> ->. auto.
Qed.

Lemma repres_in (r : list RepreDoc) (rs : list (list RepreDoc)) :
  existsb (repres_eqb r) rs = true <-> In r rs.
Proof.
  rewrite existsb_exists. split.
  - intros [x [I E]]. apply repres_eqb_eq in E. now subst.
  - intros I. exists r. split; [assumption | now apply repres_eqb_eq].
Qed.

(** ** Ordering of representations (lines 552-561) *)

Section OrderFacts.
Variable d : PyDict.t (list RepreDoc).

Lemma NoDup_snoc (A : Type) (x : A) (l : list A) :
  NoDup l -> ~ In x l -> NoDup (l ++ [x]).
Proof.
  induction l as [|a l IH]; simpl; intros N I.
  - constructor; [tauto | constructor].
  - inversion N as [|? ? Na Nl]; subst. constructor.
    + rewrite in_app_iff. simpl. intuition.
    + apply IH; tauto.
Qed.

Lemma enqueue_step_inv (ids : list string) (oid : string)
  (item : string * list RepreDoc) st :
  In oid ids -> In item d -> order_inv d ids st ->
  match enqueue_step oid item st with
  | Next st' | Break st' => order_inv d ids st'
  end.
Proof.
  intros Ho Hi [H1 [H2 H3]]. destruct item as [p r], st as [ro rs].
  unfold order_inv. simpl in *.
  destruct (existsb (repres_eqb r) rs) eqn:E; [auto|].
  destruct (String.eqb_spec oid p) as [->|N]; [|auto].
  simpl. split; [|split].
  - rewrite map_app, H1. reflexivity.
  - apply NoDup_snoc; [assumption|]. intros I.
    apply repres_in in I. congruence.
  - intros p' r' H. apply in_app_iff in H as [H|[H|[]]]; [now apply H3|].
    injection H as <- <-. auto.
Qed.

Lemma order_representations_inv (ids : list string) :
  order_inv d ids (order_representations ids d).
Proof.
  unfold order_representations.
  apply loop_inv with (P := order_inv d ids).
  - intros oid st Ho Hs.
    apply loop_inv with (P := order_inv d ids); [|assumption].
    intros item st' Hi Hs'. now apply enqueue_step_inv.
  - unfold order_inv. simpl. split; [reflexivity|].
    split; [constructor | tauto].
Qed.

Lemma NoDup_fst_of_snd (A B : Type) (l : list (A * B)) :
  NoDup (map snd l) ->
  (forall x y, In x l -> In y l -> fst x = fst y -> snd x = snd y) ->
  NoDup (map fst l).
Proof.
  induction l as [|[a b] l IH]; simpl; intros N F; [constructor|].
  inversion N as [|? ? Nb Nl]; subst. constructor.
  - intros I. apply in_map_iff in I as [[a' b'] [E I]]. simpl in E. subst a'.
    apply Nb. apply in_map_iff. exists (a, b'). split; [|assumption].
    simpl. symmetry. apply (F (a, b) (a, b')); auto.
  - apply IH; [assumption|]. intros x y Hx Hy. apply F; auto.
Qed.

Lemma order_representations_ids_nodup (ids : list string) :
  PyDict.wf d -> NoDup (map fst (fst (order_representations ids d))).
Proof.
  intros W. destruct (order_representations_inv ids) as [H1 [H2 H3]].
  apply NoDup_fst_of_snd.
  - now rewrite <- H1.
  - intros [p r] [p' r'] Hx Hy E. simpl in *. subst p'.
    apply H3 in Hx as [Hx _]. apply H3 in Hy as [Hy _].
    apply PyDictFacts.In_get in Hx; [|assumption].
    apply PyDictFacts.In_get in Hy; [|assumption]. congruence.
Qed.

Lemma enqueue_step_skip (r : list RepreDoc) (p2 oid : string)
  (item : string * list RepreDoc) st :
  PyDict.wf d -> PyDict.get p2 d = Some r -> In item d ->
  skip_inv r p2 st ->
  match enqueue_step oid item st with
  | Next st' | Break st' => skip_inv r p2 st'
  end.
Proof.
  intros W G Hi [H1 H2]. destruct item as [p r'], st as [ro rs].
  simpl in *. destruct (existsb (repres_eqb r') rs) eqn:E.
  - split; assumption.
  - destruct (String.eqb_spec oid p) as [->|N]; [|split; assumption].
    split; simpl.
    + apply in_app_iff. now left.
    + rewrite map_app, in_app_iff. simpl. intros [I|[<-|[]]]; [tauto|].
      apply PyDictFacts.In_get in Hi; [|assumption].
      assert (r' = r) by congruence. subst r'.
      apply repres_in in H1. congruence.
Qed.

Lemma enqueue_step_grows (oid : string) (item : string * list RepreDoc) st
  (r : list RepreDoc) :
  In r (snd st) ->
  match enqueue_step oid item st with
  | Next st' | Break st' => In r (snd st')
  end.
Proof.
  destruct item as [p r'], st as [ro rs]. simpl. intros I.
  destruct (existsb (repres_eqb r') rs); [assumption|].
  destruct (String.eqb oid p); simpl; [|assumption].
  apply in_app_iff. now left.
Qed.

Lemma enqueue_step_other (oid p2 : string) (item : string * list RepreDoc) st :
  oid <> p2 -> ~ In p2 (map fst (fst st)) ->
  match enqueue_step oid item st with
  | Next st' | Break st' => ~ In p2 (map fst (fst st'))
  end.
Proof.
  destruct item as [p r'], st as [ro rs]. simpl. intros N I.
  destruct (existsb (repres_eqb r') rs); [assumption|].
  destruct (String.eqb_spec oid p) as [->|]; simpl; [|assumption].
  rewrite map_app, in_app_iff. simpl. intuition.
Qed.

(** After the iteration for an ordered id that has a list in the dict, that
    list is in [representations]. *)
Lemma enqueue_for_reaches (oid : string) (r : list RepreDoc) :
  forall (items : list (string * list RepreDoc)) st,
    In (oid, r) items ->
    In r (snd (loop items (enqueue_step oid) st)).
Proof.
  induction items as [|[p r'] items IH]; intros st I; [destruct I|].
  destruct I as [E|I].
  - injection E as -> ->. cbn [loop].
    assert (X : In r (snd match enqueue_step oid (oid, r) st with
                          | Next s | Break s => s end)).
    { destruct st as [ro rs]. simpl.
      destruct (existsb (repres_eqb r) rs) eqn:E.
      - apply repres_in in E. assumption.
      - rewrite String.eqb_refl. simpl. apply in_app_iff. right. now left. }
    destruct (enqueue_step oid (oid, r) st) as [s|s] eqn:E.
    + apply loop_inv with (P := fun st => In r (snd st)); [|assumption].
      intros x s' _ H. now apply enqueue_step_grows.
    + destruct st as [ro rs]. simpl in E.
      destruct (existsb (repres_eqb r) rs); [discriminate|].
      rewrite String.eqb_refl in E. discriminate.
  - cbn [loop]. destruct (enqueue_step oid (p, r') st) as [s|s] eqn:E.
    + now apply IH.
    + destruct st as [ro rs]. simpl in E.
      destruct (existsb (repres_eqb r') rs); [discriminate|].
      destruct (String.eqb oid p); discriminate.
Qed.

Lemma order_skips_equal_later (pre post : list string) (p1 p2 : string)
  (r : list RepreDoc) :
  PyDict.wf d ->
  In p1 pre -> ~ In p2 pre ->
  PyDict.get p1 d = Some r -> PyDict.get p2 d = Some r ->
  ~ In p2 (map fst (fst (order_representations (pre ++ p2 :: post) d))).
Proof.
  intros W I1 N2 G1 G2. unfold order_representations.
  rewrite loop_app.
  set (body := fun oid st => loop (PyDict.items d) (enqueue_step oid) st).
  cut (skip_inv r p2 (loop pre (fun x s => Next (body x s)) ([], []))).
  { intros H.
    apply (loop_inv (skip_inv r p2)
             (fun x s => Next (body x s)) (p2 :: post)) in H.
    - apply H.
    - intros oid st _ Hs. unfold body.
      apply loop_inv with (P := skip_inv r p2); [|assumption].
      intros item st' Hi Hs'. now apply enqueue_step_skip. }
  split.
  - apply in_split in I1 as [l1 [l2 ->]]. rewrite loop_app. cbn [loop].
    apply loop_inv with (P := fun st => In r (snd st)).
    + intros oid st _ H. unfold body.
      apply loop_inv with (P := fun st => In r (snd st)); [|assumption].
      intros x s' _ H'. now apply enqueue_step_grows.
    + unfold body. apply enqueue_for_reaches.
      now apply PyDictFacts.get_Some_In.
  - apply loop_inv with (P := fun st => ~ In p2 (map fst (fst st)));
      [|simpl; tauto].
    intros oid st Ho H. unfold body.
    apply loop_inv with (P := fun st => ~ In p2 (map fst (fst st)));
      [|assumption].
    intros x s' _ H'. apply enqueue_step_other; [|assumption].
    intros ->. contradiction.
Qed.

End OrderFacts.

(** ** The load loop (lines 566-627) *)

Section LoadFacts.
Variables Host Container : Type.
Variable env : Env Host Container.
Implicit Types (w : World Host) (h : Host).

Lemma with_host_same w : with_host (host w) w = w.
Proof. destruct w. reflexivity. Qed.

Lemma with_host_twice h h' w : with_host h' (with_host h w) = with_host h' w.
Proof. reflexivity. Qed.

Lemma world_same w : add_events [] (with_host (host w) w) = w.
Proof. now rewrite with_host_same, add_events_nil. Qed.

Lemma run_attempts_app pname ll lr (p1 p2 : list Attempt) h :
  run_attempts env pname ll lr (p1 ++ p2) h =
  let '(h1, evs1, c1) := run_attempts env pname ll lr p1 h in
  match c1 with
  | Some c => (h1, evs1, Some c)
  | None =>
      let '(h2, evs2, c2) := run_attempts env pname ll lr p2 h1 in
      (h2, evs1 ++ evs2, c2)
  end.
Proof.
  revert h. induction p1 as [|a r IH]; intros h; simpl.
  - destruct (run_attempts env pname ll lr p2 h) as [[h2 evs2] c2].
    reflexivity.
  - destruct (load_container env h (at_loader a) (repre_id (at_repre a)) pname)
      as [h' [c|e]]; [reflexivity|].
    rewrite IH.
    destruct (run_attempts env pname ll lr r h') as [[h1 evs1] [c1|]];
      [reflexivity|].
    destruct (run_attempts env pname ll lr p2 h1) as [[h2 evs2] c2].
    reflexivity.
Qed.

Section OneProduct.
Variable loaders_by_name : PyDict.t LoaderPlugin.
Variable pname : string.
Variables ll lr : Z.

Lemma loader_attempts_cons (ridx : nat) (repre : RepreDoc) (i : nat)
  (n : string) (r : list (nat * string)) :
  loader_attempts loaders_by_name ridx repre ((i, n) :: r)
  = match PyDict.get n loaders_by_name with
    | Some loader =>
        [{| at_name_idx := ridx; at_repre := repre;
            at_loader_idx := i; at_loader := loader |}]
    | None => []
    end ++ loader_attempts loaders_by_name ridx repre r.
Proof. reflexivity. Qed.

Lemma name_attempts_cons (ls : list string) (by_name : PyDict.t RepreDoc)
  (i : nat) (n : string) (r : list (nat * string)) :
  name_attempts loaders_by_name ls by_name ((i, n) :: r)
  = match PyDict.get n by_name with
    | Some repre =>
        loader_attempts loaders_by_name i repre (enumerate ls)
    | None => []
    end ++ name_attempts loaders_by_name ls by_name r.
Proof. reflexivity. Qed.

Lemma loaders_loop_loaded (repre : RepreDoc) (ridx : nat)
  (items : list (nat * string)) (acc : list Container) w :
  for_ items (try_loader env loaders_by_name pname repre ll ridx lr)
    (acc, true) w
  = (w, Ret (acc, true)).
Proof. destruct items as [|[i n] r]; reflexivity. Qed.

Lemma loaders_loop (repre : RepreDoc) (ridx : nat)
  (items : list (nat * string)) :
  forall (acc : list Container) w,
    for_ items (try_loader env loaders_by_name pname repre ll ridx lr)
      (acc, false) w
    = let '(h', evs, c) :=
        run_attempts env pname ll lr
          (loader_attempts loaders_by_name ridx repre items) (host w) in
      (add_events evs (with_host h' w), Ret (acc ++ option_list c, is_some c)).
Proof.
  induction items as [|[i n] r IH]; intros acc w.
  - simpl. now rewrite world_same, app_nil_r.
  - cbn [for_]. rewrite loader_attempts_cons. unfold bind at 1.
    unfold try_loader at 1.
    destruct (PyDict.get n loaders_by_name) as [loader|] eqn:G.
    + cbn [app run_attempts at_loader at_repre at_loader_idx at_name_idx].
      unfold bind at 1. unfold call_load_container at 1.
      destruct (load_container env (host w) loader (repre_id repre) pname)
        as [h1 [c|e]].
      * unfold ret at 1. rewrite loaders_loop_loaded. reflexivity.
      * cbn [py_eq py_is]. rewrite bind_log, bind_log. unfold ret at 1.
        rewrite IH. cbn [host add_events with_host].
        destruct (run_attempts env pname ll lr
                    (loader_attempts loaders_by_name ridx repre r) h1)
          as [[h2 evs] c].
        unfold add_events, with_host. cbn. rewrite <- !app_assoc.
        reflexivity.
    + unfold ret at 1. cbn [app]. apply IH.
Qed.

Variable profile : Profile.
Variable profile_loaders : list string.
Hypothesis Hloaders : loaders profile = Some profile_loaders.
Variable by_name : PyDict.t RepreDoc.

Lemma names_loop_loaded (items : list (nat * string))
  (acc : list Container) w :
  for_ items
    (try_repre_name env loaders_by_name pname profile by_name ll lr)
    (acc, true) w
  = (w, Ret (acc, true)).
Proof. destruct items as [|[i n] r]; reflexivity. Qed.

Lemma names_loop (items : list (nat * string)) :
  forall (acc : list Container) w,
    for_ items
      (try_repre_name env loaders_by_name pname profile by_name ll lr)
      (acc, false) w
    = let '(h', evs, c) :=
        run_attempts env pname ll lr
          (name_attempts loaders_by_name profile_loaders by_name items)
          (host w) in
      (add_events evs (with_host h' w), Ret (acc ++ option_list c, is_some c)).
Proof.
  induction items as [|[i n] r IH]; intros acc w.
  - simpl. now rewrite world_same, app_nil_r.
  - cbn [for_]. rewrite name_attempts_cons. unfold bind at 1.
    unfold try_repre_name at 1. cbn [snd].
    destruct (PyDict.get n by_name) as [repre|] eqn:G.
    + rewrite Hloaders. cbn [field]. rewrite bind_ret.
      unfold bind at 1. rewrite loaders_loop. rewrite run_attempts_app.
      destruct (run_attempts env pname ll lr
                  (loader_attempts loaders_by_name i repre
                     (enumerate profile_loaders)) (host w))
        as [[h1 evs1] [c|]].
      * unfold ret at 1. cbn [option_list is_some].
        rewrite names_loop_loaded. reflexivity.
      * unfold ret at 1. cbn [option_list is_some]. rewrite app_nil_r.
        rewrite IH. cbn [host add_events with_host].
        destruct (run_attempts env pname ll lr
                    (name_attempts loaders_by_name profile_loaders by_name r)
                    h1) as [[h2 evs2] c2].
        unfold add_events, with_host. cbn. rewrite <- !app_assoc.
        reflexivity.
    + unfold ret at 1. cbn [app]. apply IH.
Qed.

End OneProduct.

Variable products_by_id : PyDict.t SubsetDoc.
Variable profiles_by_product_id : PyDict.t Profile.
Variable loaders_by_name : PyDict.t LoaderPlugin.

Lemma load_product_spec (item : string * list RepreDoc)
  (acc : list Container) w :
  loadable products_by_id profiles_by_product_id (fst item) ->
  load_product env products_by_id profiles_by_product_id loaders_by_name
    item acc w
  = let '(h', evs, c) :=
      product_attempts env products_by_id profiles_by_product_id
        loaders_by_name item (host w) in
    (add_events evs (with_host h' w), Ret (Next (acc ++ option_list c))).
Proof.
  destruct item as [pid repres]. cbn [fst].
  intros [product [profile [ls [ns [G1 [G2 [L N]]]]]]].
  unfold load_product, product_attempts, subscript. cbn [fst snd].
  rewrite G1, G2. rewrite !bind_ret. rewrite L, N. cbn [field list_of].
  rewrite !bind_ret. unfold bind at 1. erewrite names_loop by exact L.
  unfold attempt_plan. rewrite L, N. cbn [list_of].
  match goal with
  | |- context [run_attempts ?e ?p ?a ?b ?pl ?h] =>
      destruct (run_attempts e p a b pl h) as [[h' evs] c]
  end.
  reflexivity.
Qed.

Lemma load_loop_spec (items : list (string * list RepreDoc)) :
  (forall item, In item items ->
                loadable products_by_id profiles_by_product_id (fst item)) ->
  forall (acc : list Container) w,
    for_ items
      (load_product env products_by_id profiles_by_product_id loaders_by_name)
      acc w
    = let '(h', evs, outs) :=
        load_all env products_by_id profiles_by_product_id loaders_by_name
          items (host w) in
      (add_events evs (with_host h' w),
       Ret (acc ++ flat_map (fun o => option_list (snd o)) outs)).
Proof.
  induction items as [|item r IH]; intros H acc w.
  - simpl. now rewrite world_same, app_nil_r.
  - cbn [for_ load_all]. unfold bind at 1.
    rewrite load_product_spec by (apply H; now left).
    destruct (product_attempts env products_by_id profiles_by_product_id
                loaders_by_name item (host w)) as [[h1 evs1] c].
    rewrite IH by (intros i I; apply H; now right).
    cbn [host add_events with_host].
    destruct (load_all env products_by_id profiles_by_product_id
                loaders_by_name r h1) as [[h2 evs2] cs].
    unfold add_events, with_host. cbn. rewrite <- !app_assoc.
    reflexivity.
Qed.

End LoadFacts.

(** ** Product order (lines 536-548) *)

Section ProductOrderFacts.
Variable Host : Type.
Variable products_by_id : PyDict.t SubsetDoc.

Lemma matching_products_loop (product_type : string)
  (items : list (string * SubsetDoc)) :
  forall acc : list string,
    loop items
      (fun '(product_id, subset_doc) product_ids_ordered =>
         let families := list_of (subset_families subset_doc) in
         if negb (Str.mem product_type families)
         then Next product_ids_ordered
         else Next (product_ids_ordered ++ [product_id]))
      acc
    = acc ++ map fst
               (filter
                  (fun item : string * SubsetDoc =>
                     Str.mem product_type
                       (list_of (subset_families (snd item))))
                  items).
Proof.
  induction items as [|[pid doc] r IH]; intros acc; simpl.
  - now rewrite app_nil_r.
  - destruct (Str.mem product_type (list_of (subset_families doc))); simpl.
    + rewrite IH, <- app_assoc. reflexivity.
    + apply IH.
Qed.

Lemma product_types_loop (types : list string) :
  forall acc : list string,
    loop types
      (fun product_type product_ids_ordered =>
         Next (loop (PyDict.items products_by_id)
           (fun '(product_id, subset_doc) product_ids_ordered =>
              let families := list_of (subset_families subset_doc) in
              if negb (Str.mem product_type families)
              then Next product_ids_ordered
              else Next (product_ids_ordered ++ [product_id]))
           product_ids_ordered))
      acc
    = acc ++ flat_map
               (fun product_type =>
                  map fst
                    (filter
                       (fun item : string * SubsetDoc =>
                          Str.mem product_type
                            (list_of (subset_families (snd item))))
                       (PyDict.items products_by_id)))
               types.
Proof.
  induction types as [|t r IH]; intros acc; cbn [loop flat_map].
  - now rewrite app_nil_r.
  - rewrite matching_products_loop, IH, <- app_assoc. reflexivity.
Qed.

Lemma order_product_ids_loop (presets : list Profile) :
  (forall p, In p presets -> exists pts, product_types p = Some pts) ->
  forall (acc : list string) (w : World Host),
    for_ presets
      (fun preset product_ids_ordered =>
         bind (field (product_types preset) "product_types")
           (fun preset_types =>
              ret (Next
                (loop preset_types
                   (fun product_type product_ids_ordered =>
                      Next (loop (PyDict.items products_by_id)
                        (fun '(product_id, subset_doc) product_ids_ordered =>
                           let families :=
                             list_of (subset_families subset_doc) in
                           if negb (Str.mem product_type families)
                           then Next product_ids_ordered
                           else Next (product_ids_ordered ++ [product_id]))
                        product_ids_ordered))
                   product_ids_ordered))))
      acc w
    = (w, Ret (acc ++ ordered_ids presets products_by_id)).
Proof.
  induction presets as [|p r IH]; intros H acc w.
  - simpl. now rewrite app_nil_r.
  - cbn [for_]. unfold bind at 1.
    destruct (H p (or_introl eq_refl)) as [pts E]. rewrite E.
    cbn [field]. rewrite bind_ret. unfold ret at 1.
    rewrite product_types_loop.
    rewrite IH by (intros q I; apply H; now right).
    unfold ordered_ids. cbn [flat_map]. rewrite E. cbn [list_of].
    rewrite <- app_assoc. reflexivity.
Qed.

Lemma order_product_ids_spec (presets : list Profile) (w : World Host) :
  (forall p, In p presets -> exists pts, product_types p = Some pts) ->
  order_product_ids presets products_by_id w
  = (w, Ret (ordered_ids presets products_by_id)).
Proof.
  intros H. unfold order_product_ids.
  now rewrite order_product_ids_loop by assumption.
Qed.

End ProductOrderFacts.

(** ** [_load_containers] as a whole *)

Section LoadContainersFacts.
Variables Host Container : Type.
Variable env : Env Host Container.

Lemma ordering_presets_spec (presets : BuildPresets) (w : World Host) :
  self_build_presets w = Some presets ->
  ordering_presets w
  = (with_presets (Some (after_ordering presets)) w,
     Ret (presets_sequence presets)).
Proof.
  intros E. unfold ordering_presets, after_ordering, presets_sequence.
  rewrite E. destruct (current_context presets) as [cur|]; cbn [list_of].
  - reflexivity.
  - destruct w. simpl in *. now subst.
Qed.

Lemma load_containers_spec (repres_by_product_id : PyDict.t (list RepreDoc))
  (products_by_id : PyDict.t SubsetDoc)
  (profiles_by_product_id : PyDict.t Profile)
  (loaders_by_name : PyDict.t LoaderPlugin)
  (presets : BuildPresets) (w : World Host) :
  self_build_presets w = Some presets ->
  (forall p, In p (presets_sequence presets) ->
             exists pts, product_types p = Some pts) ->
  (forall product_id,
      In product_id (PyDict.keys repres_by_product_id) ->
      loadable products_by_id profiles_by_product_id product_id) ->
  _load_containers env repres_by_product_id products_by_id
    profiles_by_product_id loaders_by_name w
  = let ordered :=
      order_representations
        (ordered_ids (presets_sequence presets) products_by_id)
        repres_by_product_id in
    let '(h', evs, outs) :=
      load_all env products_by_id profiles_by_product_id loaders_by_name
        (fst ordered) (host w) in
    (add_events
       (Print (ReprePerProduct repres_by_product_id)
        :: Print (Representations (snd ordered)) :: evs)
       (with_host h' (with_presets (Some (after_ordering presets)) w)),
     Ret (flat_map (fun o => option_list (snd o)) outs)).
Proof.
  intros E Hp Hl. unfold _load_containers.
  unfold bind at 1. rewrite ordering_presets_spec with (presets := presets)
    by assumption.
  unfold bind at 1. rewrite order_product_ids_spec by assumption.
  rewrite bind_print.
  pose proof (order_representations_inv repres_by_product_id
                (ordered_ids (presets_sequence presets) products_by_id))
    as [_ [_ I]].
  destruct (order_representations
              (ordered_ids (presets_sequence presets) products_by_id)
              repres_by_product_id) as [ro rs].
  cbn [fst snd] in *. rewrite bind_print.
  rewrite load_loop_spec.
  - cbn [host add_events with_host with_presets].
    destruct (load_all env products_by_id profiles_by_product_id
                loaders_by_name ro (host w)) as [[h' evs] outs].
    unfold add_events, with_host, with_presets. cbn.
    rewrite <- !app_assoc. reflexivity.
  - intros [pid r] Hi. apply Hl. cbn [fst].
    apply I in Hi as [Hi _].
    apply in_map_iff. exists (pid, r). auto.
Qed.

End LoadContainersFacts.

(** ** Shape of the attempts of one product *)

Section AttemptFacts.
Variables Host Container : Type.
Variable env : Env Host Container.
Variable pname : string.
Variables ll lr : Z.

Lemma load_calls_app (evs1 evs2 : list Event) :
  load_calls (evs1 ++ evs2) = load_calls evs1 ++ load_calls evs2.
Proof. apply filter_app. Qed.

Lemma run_attempts_cases (plan : list Attempt) :
  forall h : Host,
    let '(h', evs, c) := run_attempts env pname ll lr plan h in
    match c with
    | None =>
        all_fail env pname plan h = Some h'
        /\ load_calls evs = map (attempt_call pname) plan
    | Some container =>
        exists before last rest h0,
          plan = before ++ last :: rest
          /\ all_fail env pname before h = Some h0
          /\ load_container env h0 (at_loader last)
               (repre_id (at_repre last)) pname
             = (h', Loaded container)
          /\ load_calls evs = map (attempt_call pname) (before ++ [last])
    end
    /\ Forall load_event evs.
Proof.
  induction plan as [|a r IH]; intros h.
  - simpl. repeat split; constructor.
  - cbn [run_attempts].
    destruct (load_container env h (at_loader a) (repre_id (at_repre a)) pname)
      as [h1 [c|e]] eqn:L.
    + split.
      * exists [], a, r, h. repeat split; assumption.
      * repeat constructor.
    + specialize (IH h1).
      destruct (run_attempts env pname ll lr r h1) as [[h2 evs] [c|]].
      * destruct IH as [[before [last [rest [h0 [E [F [S C]]]]]]] A].
        split.
        -- exists (a :: before), last, rest, h0. split; [|split; [|split]].
           ++ simpl. now rewrite E.
           ++ simpl. now rewrite L.
           ++ assumption.
           ++ cbn. unfold load_calls in C. now rewrite C.
        -- repeat constructor. assumption.
      * destruct IH as [[F C] A]. split; [split|].
        -- simpl. now rewrite L.
        -- cbn. unfold load_calls in C. now rewrite C.
        -- repeat constructor. assumption.
Qed.

End AttemptFacts.

Section LoadAllFacts.
Variables Host Container : Type.
Variable env : Env Host Container.
Variable products_by_id : PyDict.t SubsetDoc.
Variable profiles_by_product_id : PyDict.t Profile.
Variable loaders_by_name : PyDict.t LoaderPlugin.

Lemma load_all_ids (items : list (string * list RepreDoc)) :
  forall h : Host,
    map fst (snd (load_all env products_by_id profiles_by_product_id
                    loaders_by_name items h))
    = map fst items.
Proof.
  induction items as [|item r IH]; intros h; [reflexivity|].
  cbn [load_all].
  destruct (product_attempts env products_by_id profiles_by_product_id
              loaders_by_name item h) as [[h1 evs1] c].
  specialize (IH h1).
  destruct (load_all env products_by_id profiles_by_product_id
              loaders_by_name r h1) as [[h2 evs2] cs].
  simpl in *. now rewrite IH.
Qed.

Lemma containers_bound (outs : list (string * option Container)) :
  length (flat_map (fun o => option_list (snd o)) outs) <= length outs.
Proof.
  induction outs as [|[p [c|]] r IH]; simpl; lia.
Qed.

End LoadAllFacts.

(** ** Priority order of the attempt plan *)

Section PlanFacts.
Variable loaders_by_name : PyDict.t LoaderPlugin.

Lemma StronglySorted_app (A : Type) (R : A -> A -> Prop) (l1 l2 : list A) :
  StronglySorted R l1 -> StronglySorted R l2 ->
  (forall a b, In a l1 -> In b l2 -> R a b) ->
  StronglySorted R (l1 ++ l2).
Proof.
  induction l1 as [|x l1 IH]; simpl; intros S1 S2 H; [assumption|].
  inversion S1 as [|? ? S1' F]; subst. constructor.
  - apply IH; auto.
  - apply Forall_app. split; [assumption|].
    apply Forall_forall. intros b Hb. apply H; auto.
Qed.

Lemma loader_attempts_in (ridx : nat) (repre : RepreDoc) (ls : list string) :
  forall (k : nat) (a : Attempt),
    In a (loader_attempts loaders_by_name ridx repre (enumerate_from k ls)) ->
    at_name_idx a = ridx /\ at_repre a = repre /\ k <= at_loader_idx a
    /\ exists n, nth_error ls (at_loader_idx a - k) = Some n
                 /\ PyDict.get n loaders_by_name = Some (at_loader a).
Proof.
  induction ls as [|n ls IH]; intros k a; simpl; [tauto|].
  rewrite in_app_iff. intros [I|I].
  - destruct (PyDict.get n loaders_by_name) as [loader|] eqn:G;
      [|destruct I].
    destruct I as [<-|[]]. simpl. repeat split; auto.
    exists n. rewrite Nat.sub_diag. auto.
  - apply IH in I as [E1 [E2 [L [m [N G]]]]]. repeat split; auto; [lia|].
    exists m. split; [|assumption].
    replace (at_loader_idx a - k) with (S (at_loader_idx a - S k)) by lia.
    assumption.
Qed.

Lemma loader_attempts_sorted (ridx : nat) (repre : RepreDoc)
  (ls : list string) :
  forall k : nat,
    StronglySorted before_attempt
      (loader_attempts loaders_by_name ridx repre (enumerate_from k ls)).
Proof.
  induction ls as [|n ls IH]; intros k; simpl; [constructor|].
  apply StronglySorted_app.
  - destruct (PyDict.get n loaders_by_name); repeat constructor.
  - apply IH.
  - intros a b Ia Ib.
    destruct (PyDict.get n loaders_by_name); [|destruct Ia].
    destruct Ia as [<-|[]].
    apply loader_attempts_in in Ib as [E [_ [L _]]].
    right. simpl. split; [congruence | lia].
Qed.

Variable profile_loaders : list string.
Variable by_name : PyDict.t RepreDoc.

Lemma name_attempts_in (names : list string) :
  forall (k : nat) (a : Attempt),
    In a (name_attempts loaders_by_name profile_loaders by_name
            (enumerate_from k names)) ->
    k <= at_name_idx a
    /\ (exists n, nth_error names (at_name_idx a - k) = Some n
                  /\ PyDict.get n by_name = Some (at_repre a))
    /\ (exists n, nth_error profile_loaders (at_loader_idx a) = Some n
                  /\ PyDict.get n loaders_by_name = Some (at_loader a)).
Proof.
  induction names as [|n names IH]; intros k a; simpl; [tauto|].
  rewrite in_app_iff. intros [I|I].
  - destruct (PyDict.get n by_name) as [repre|] eqn:G; [|destruct I].
    apply loader_attempts_in in I as [E1 [E2 [_ [m [N G']]]]].
    rewrite Nat.sub_0_r in N. subst. split; [lia|]. split.
    + exists n. rewrite Nat.sub_diag. auto.
    + eauto.
  - apply IH in I as [L [[m [N G]] H]]. split; [lia|]. split; [|assumption].
    exists m. split; [|assumption].
    replace (at_name_idx a - k) with (S (at_name_idx a - S k)) by lia.
    assumption.
Qed.

Lemma name_attempts_sorted (names : list string) :
  forall k : nat,
    StronglySorted before_attempt
      (name_attempts loaders_by_name profile_loaders by_name
         (enumerate_from k names)).
Proof.
  induction names as [|n names IH]; intros k; simpl; [constructor|].
  apply StronglySorted_app.
  - destruct (PyDict.get n by_name); [|constructor].
    apply loader_attempts_sorted.
  - apply IH.
  - intros a b Ia Ib.
    destruct (PyDict.get n by_name); [|destruct Ia].
    apply loader_attempts_in in Ia as [E _].
    apply name_attempts_in in Ib as [L _].
    left. lia.
Qed.

End PlanFacts.

Lemma attempt_plan_priority (loaders_by_name : PyDict.t LoaderPlugin)
  (profile : Profile) (repres : list RepreDoc) :
  StronglySorted before_attempt (attempt_plan loaders_by_name profile repres)
  /\ forall a,
       In a (attempt_plan loaders_by_name profile repres) ->
       (exists n,
           nth_error (list_of (repre_names_lowered profile)) (at_name_idx a)
           = Some n
           /\ PyDict.get n
                (PyDict.of_seq (fun r => Str.lower (repre_name r))
                   (fun r => r) repres)
              = Some (at_repre a))
       /\ (exists n,
              nth_error (list_of (loaders profile)) (at_loader_idx a) = Some n
              /\ PyDict.get n loaders_by_name = Some (at_loader a)).
Proof.
  unfold attempt_plan, enumerate. split.
  - apply name_attempts_sorted.
  - intros a I. apply name_attempts_in in I as [_ [H1 H2]].
    rewrite Nat.sub_0_r in H1. auto.
Qed.

Section AllFailFacts.
Variables Host Container : Type.
Variable env : Env Host Container.
Variable pname : string.

Lemma all_fail_stops (before rest : list Attempt) (last : Attempt)
  (h h0 h' : Host) (c : Container) :
  all_fail env pname before h = Some h0 ->
  load_container env h0 (at_loader last) (repre_id (at_repre last)) pname
  = (h', Loaded c) ->
  all_fail env pname (before ++ last :: rest) h = None.
Proof.
  revert h. induction before as [|a r IH]; simpl; intros h F L.
  - injection F as ->. now rewrite L.
  - destruct (load_container env h (at_loader a) (repre_id (at_repre a)) pname)
      as [h1 [c1|e]]; [discriminate|]. now apply IH.
Qed.

End AllFailFacts.

(** ** [map_products_by_type] *)

Section GroupFacts.

Lemma has_type_iff (t : string) (doc : SubsetDoc) :
  has_type t doc = true <-> product_type_of doc = Some t.
Proof.
  unfold has_type. destruct (product_type_of doc) as [t'|].
  - rewrite String.eqb_eq. split; congruence.
  - split; discriminate.
Qed.

Lemma group_step (doc : SubsetDoc) (d : PyDict.t (list SubsetDoc))
  (pre : list SubsetDoc) :
  PyDict.wf d ->
  (forall t, PyDict.get t d = group_of t pre) ->
  let d' :=
    match product_type_of doc with
    | None => d
    | Some product_type => append_to product_type doc d
    end in
  PyDict.wf d' /\ forall t, PyDict.get t d' = group_of t (pre ++ [doc]).
Proof.
  intros W G. unfold group_of in *. cbv zeta.
  destruct (product_type_of doc) as [pt|] eqn:E.
  - unfold append_to. split.
    + destruct (PyDict.get pt d); now apply PyDictFacts.wf_set.
    + intros t. rewrite filter_app. cbn [filter]. unfold has_type at 2.
      rewrite E. specialize (G t).
      destruct (String.eqb_spec pt t) as [->|N].
      * destruct (PyDict.get t d) as [l|] eqn:Gt;
          rewrite PyDictFacts.get_set_same;
          destruct (filter (has_type t) pre) as [|x l'];
          try discriminate; [|reflexivity].
        injection G as ->. reflexivity.
      * rewrite app_nil_r.
        destruct (PyDict.get pt d);
          rewrite PyDictFacts.get_set_other by assumption; exact G.
  - split; [assumption|]. intros t. rewrite filter_app. cbn [filter].
    unfold has_type at 2. rewrite E, app_nil_r. apply G.
Qed.

Lemma groups_loop (docs : list SubsetDoc) :
  forall (pre : list SubsetDoc) (d : PyDict.t (list SubsetDoc)),
    PyDict.wf d ->
    (forall t, PyDict.get t d = group_of t pre) ->
    let d' :=
      loop docs
        (fun subset_doc products_by_type =>
           match product_type_of subset_doc with
           | None => Next products_by_type
           | Some product_type =>
               Next (append_to product_type subset_doc products_by_type)
           end) d in
    PyDict.wf d' /\ forall t, PyDict.get t d' = group_of t (pre ++ docs).
Proof.
  induction docs as [|doc r IH]; intros pre d W G; cbv zeta.
  - simpl. rewrite app_nil_r. auto.
  - cbn [loop]. destruct (group_step doc pre W G) as [W' G'].
    replace (pre ++ doc :: r) with ((pre ++ [doc]) ++ r)
      by (rewrite <- app_assoc; reflexivity).
    destruct (product_type_of doc); apply IH; assumption.
Qed.

Lemma map_products_by_type_spec (docs : list SubsetDoc) :
  PyDict.wf (map_products_by_type docs)
  /\ forall t, PyDict.get t (map_products_by_type docs) = group_of t docs.
Proof.
  unfold map_products_by_type.
  apply (groups_loop docs [] (d := PyDict.empty)).
  - apply PyDictFacts.wf_empty.
  - reflexivity.
Qed.

End GroupFacts.

(** ** [_prepare_profile_for_products] *)

Section PrepareFacts.
Variable Host : Type.
Implicit Types (w : World Host) (d : PyDict.t Profile).

Lemma compile_filters_loop (patterns : list string) :
  forall (rs acc : list Re.regex) w,
    compile_all patterns = Some rs ->
    for_ patterns
      (fun regex _profile_regexes =>
         match Re.compile regex with
         | Re.Compiled r => ret (Next (_profile_regexes ++ [r]))
         | Re.Invalid => raise (exc ReError regex)
         | Re.Unsupported => raise (exc UnmodelledPattern regex)
         end)
      acc w
    = (w, Ret (acc ++ rs)).
Proof.
  induction patterns as [|p r IH]; intros rs acc w E; simpl in *.
  - injection E as <-. now rewrite app_nil_r.
  - unfold bind. destruct (Re.compile p) as [x| |]; try discriminate.
    destruct (compile_all r) as [xs|]; [|discriminate].
    injection E as <-. unfold ret at 1.
    rewrite (IH xs) by reflexivity. now rewrite <- app_assoc.
Qed.

Lemma compile_filters_spec (patterns : list string) (rs : list Re.regex) w :
  compile_all patterns = Some rs ->
  compile_filters patterns w = (w, Ret rs).
Proof.
  intros E. unfold compile_filters.
  now rewrite compile_filters_loop with (rs := rs).
Qed.

Lemma try_profile_spec (t : string) (docs : list SubsetDoc)
  (profile : Profile) (lowered : list string) (rs : list Re.regex) d w :
  product_types_lowered profile = Some lowered ->
  profile_filters profile = Some rs ->
  try_profile (Str.lower t) docs profile d w
  = (w, Ret (if declares t profile
             then Break (assign_profile profile rs docs d)
             else Next d)).
Proof.
  intros L F. unfold try_profile, declares. rewrite L. cbn [field list_of].
  rewrite bind_ret.
  destruct (Str.mem (Str.lower t) lowered); [|reflexivity].
  cbn [negb]. unfold profile_filters in F. unfold bind.
  destruct (truthy_list (product_name_filters profile)).
  - now rewrite compile_filters_spec with (rs := rs).
  - injection F as <-. reflexivity.
Qed.

Lemma profiles_loop (t : string) (docs : list SubsetDoc)
  (profiles : list Profile) :
  (forall p, In p profiles -> resolvable p) ->
  forall d w,
    for_ profiles (try_profile (Str.lower t) docs) d w
    = (w, Ret (assign_type profiles t docs d)).
Proof.
  unfold assign_type, first_match.
  induction profiles as [|p r IH]; intros H d w; [reflexivity|].
  cbn [for_ find]. unfold bind.
  destruct (H p (or_introl eq_refl)) as [[lowered L] [rs F]].
  rewrite try_profile_spec with (lowered := lowered) (rs := rs)
    by assumption.
  destruct (declares t p).
  - rewrite F. reflexivity.
  - apply IH. intros q I. apply H. now right.
Qed.

Lemma prepare_loop (profiles : list Profile)
  (items : list (string * list SubsetDoc)) :
  (forall p, In p profiles -> resolvable p) ->
  forall d w,
    for_ items (resolve_type profiles) d w
    = (w, Ret (fold_left
                 (fun d item => assign_type profiles (fst item) (snd item) d)
                 items d)).
Proof.
  intros H. induction items as [|[t docs] r IH]; intros d w; [reflexivity|].
  cbn [for_ fold_left fst snd]. unfold bind at 1. unfold resolve_type at 1.
  unfold bind at 1. rewrite profiles_loop by assumption.
  unfold ret at 1. apply IH.
Qed.

Lemma get_assign_profile (profile : Profile) (rs : list Re.regex)
  (docs : list SubsetDoc) :
  forall d k,
    PyDict.get k (assign_profile profile rs docs d)
    = if existsb
           (fun doc => String.eqb (subset_id doc) k
                       && name_passes rs (subset_name doc)) docs
      then Some profile
      else PyDict.get k d.
Proof.
  unfold assign_profile.
  induction docs as [|x r IH]; intros d k; [reflexivity|].
  cbn [loop existsb].
  destruct (name_passes rs (subset_name x)); cbn [negb].
  - rewrite IH, PyDictFacts.get_set, andb_true_r.
    destruct (existsb _ r); [now rewrite orb_true_r|].
    rewrite orb_false_r. reflexivity.
  - rewrite IH, andb_false_r. reflexivity.
Qed.

Lemma wf_assign_profile (profile : Profile) (rs : list Re.regex)
  (docs : list SubsetDoc) :
  forall d, PyDict.wf d -> PyDict.wf (assign_profile profile rs docs d).
Proof.
  unfold assign_profile.
  induction docs as [|x r IH]; intros d W; [assumption|].
  cbn [loop]. destruct (name_passes rs (subset_name x)); cbn [negb].
  - apply IH. now apply PyDictFacts.wf_set.
  - now apply IH.
Qed.

Lemma wf_assign_type (profiles : list Profile) (t : string)
  (docs : list SubsetDoc) d :
  PyDict.wf d -> PyDict.wf (assign_type profiles t docs d).
Proof.
  intros W. unfold assign_type.
  destruct (first_match profiles t) as [p|]; [|assumption].
  destruct (profile_filters p); [|assumption].
  now apply wf_assign_profile.
Qed.

End PrepareFacts.

(** From here on every argument of a lemma is explicit. *)
Unset Implicit Arguments.

Section ResolveFacts.
Variable docs : list SubsetDoc.
Variable profiles : list Profile.
Hypothesis ids_unique : NoDup (map subset_id docs).

Lemma same_id (x y : SubsetDoc) :
  In x docs -> In y docs -> subset_id x = subset_id y -> x = y.
Proof.
  revert ids_unique. induction docs as [|a l IH]; simpl; [tauto|].
  intros N [<-|Ix] [<-|Iy] E; auto.
  - inversion N as [|? ? Na _]; subst. exfalso. apply Na.
    rewrite E. now apply in_map.
  - inversion N as [|? ? Na _]; subst. exfalso. apply Na.
    rewrite <- E. now apply in_map.
  - inversion N; subst. auto.
Qed.

Lemma group_of_In (t : string) (l : list SubsetDoc) (x : SubsetDoc) :
  group_of t docs = Some l ->
  (In x l <-> In x docs /\ has_type t x = true).
Proof.
  unfold group_of. intros E. rewrite <- filter_In.
  destruct (filter (has_type t) docs); [discriminate|].
  injection E as <-. tauto.
Qed.

Lemma passes_in_group (doc : SubsetDoc) (t : string) (l : list SubsetDoc)
  (rs : list Re.regex) :
  In doc docs -> group_of t docs = Some l ->
  existsb
    (fun x => String.eqb (subset_id x) (subset_id doc)
              && name_passes rs (subset_name x)) l
  = has_type t doc && name_passes rs (subset_name doc).
Proof.
  intros I G.
  destruct (has_type t doc && name_passes rs (subset_name doc)) eqn:E.
  - apply andb_true_iff in E as [T P]. apply existsb_exists.
    exists doc. split.
    + apply (group_of_In t l doc G). auto.
    + now rewrite String.eqb_refl, P.
  - destruct (existsb _ l) eqn:X; [|reflexivity].
    apply existsb_exists in X as [x [Ix C]].
    apply andb_true_iff in C as [C P]. apply String.eqb_eq in C.
    apply (group_of_In t l x G) in Ix as [Ix T].
    assert (x = doc) by now apply same_id. subst x.
    rewrite T, P in E. discriminate.
Qed.

Lemma get_assign_type (doc : SubsetDoc) (t : string) (l : list SubsetDoc)
  (d : PyDict.t Profile) :
  In doc docs -> group_of t docs = Some l ->
  PyDict.get (subset_id doc) (assign_type profiles t l d)
  = if has_type t doc
    then match resolved_profile profiles doc with
         | Some p => Some p
         | None => PyDict.get (subset_id doc) d
         end
    else PyDict.get (subset_id doc) d.
Proof.
  intros I G. unfold assign_type, resolved_profile.
  destruct (has_type t doc) eqn:T.
  - apply has_type_iff in T as E. rewrite E.
    destruct (first_match profiles t) as [p|]; [|reflexivity].
    destruct (profile_filters p) as [rs|]; [|reflexivity].
    rewrite get_assign_profile, (passes_in_group doc t l rs I G), T.
    cbn [andb].
    destruct (name_passes rs (subset_name doc)); reflexivity.
  - destruct (first_match profiles t) as [p|]; [|reflexivity].
    destruct (profile_filters p) as [rs|]; [|reflexivity].
    rewrite get_assign_profile, (passes_in_group doc t l rs I G), T.
    reflexivity.
Qed.

Lemma get_resolved_fold (doc : SubsetDoc)
  (items : list (string * list SubsetDoc)) :
  In doc docs ->
  (forall t l, In (t, l) items -> group_of t docs = Some l) ->
  NoDup (map fst items) ->
  forall d : PyDict.t Profile,
    PyDict.get (subset_id doc)
      (fold_left
         (fun d item => assign_type profiles (fst item) (snd item) d)
         items d)
    = if existsb (fun item => has_type (fst item) doc) items
      then match resolved_profile profiles doc with
           | Some p => Some p
           | None => PyDict.get (subset_id doc) d
           end
      else PyDict.get (subset_id doc) d.
Proof.
  intros I. induction items as [|[t l] r IH]; intros G N d; [reflexivity|].
  cbn [fold_left existsb fst snd].
  inversion N as [|? ? Nt Nr]; subst.
  rewrite IH by (auto; intros t' l' H; apply G; now right).
  rewrite (get_assign_type doc t l d I (G t l (or_introl eq_refl))).
  destruct (has_type t doc) eqn:T; cbn [orb].
  - assert (X : existsb (fun item => has_type (fst item) doc) r = false).
    { destruct (existsb _ r) eqn:X; [|reflexivity].
      apply existsb_exists in X as [[t' l'] [H T']]. cbn [fst] in T'.
      apply has_type_iff in T, T'. assert (t' = t) by congruence. subst t'.
      exfalso. apply Nt. apply in_map_iff. exists (t, l'). auto. }
    rewrite X. reflexivity.
  - reflexivity.
Qed.

Lemma get_origin_fold (items : list (string * list SubsetDoc)) :
  (forall t l, In (t, l) items -> group_of t docs = Some l) ->
  forall (d : PyDict.t Profile) (k : string) (p : Profile),
    PyDict.get k
      (fold_left
         (fun d item => assign_type profiles (fst item) (snd item) d)
         items d) = Some p ->
    PyDict.get k d = Some p
    \/ (In p profiles /\ exists doc, In doc docs /\ subset_id doc = k).
Proof.
  induction items as [|[t l] r IH]; intros G d k p H; [now left|].
  cbn [fold_left fst snd] in H.
  apply IH in H; [|intros t' l' H'; apply G; now right].
  destruct H as [H|H]; [|now right].
  unfold assign_type, first_match in H.
  destruct (find (declares t) profiles) as [q|] eqn:F; [|now left].
  destruct (profile_filters q) as [rs|]; [|now left].
  rewrite get_assign_profile in H.
  destruct (existsb _ l) eqn:X; [|now left].
  injection H as <-. right. split.
  - apply find_some in F. tauto.
  - apply existsb_exists in X as [x [Ix C]].
    apply andb_true_iff in C as [C _]. apply String.eqb_eq in C.
    exists x. split; [|assumption].
    apply (group_of_In t l x (G t l (or_introl eq_refl))) in Ix. tauto.
Qed.

Lemma wf_fold (items : list (string * list SubsetDoc)) :
  forall d : PyDict.t Profile,
    PyDict.wf d ->
    PyDict.wf
      (fold_left
         (fun d item => assign_type profiles (fst item) (snd item) d)
         items d).
Proof.
  induction items as [|[t l] r IH]; intros d W; [assumption|].
  cbn [fold_left fst snd]. apply IH. now apply wf_assign_type.
Qed.

End ResolveFacts.

Section PrepareSpec.
Variable Host : Type.

Lemma prepare_spec (docs : list SubsetDoc) (profiles : list Profile)
  (w : World Host) :
  NoDup (map subset_id docs) ->
  (forall p, In p profiles -> resolvable p) ->
  exists d,
    _prepare_profile_for_products docs profiles w = (w, Ret d)
    /\ PyDict.wf d
    /\ (forall doc, In doc docs ->
          PyDict.get (subset_id doc) d = resolved_profile profiles doc)
    /\ (forall k p, PyDict.get k d = Some p ->
          In p profiles /\ exists doc, In doc docs /\ subset_id doc = k).
Proof.
  intros N R. unfold _prepare_profile_for_products.
  destruct (map_products_by_type_spec docs) as [W G].
  assert (GI : forall t l, In (t, l) (map_products_by_type docs) ->
                           group_of t docs = Some l).
  { intros t l I. rewrite <- G. now apply PyDictFacts.In_get. }
  eexists. split; [apply prepare_loop; assumption|].
  split; [|split].
  - apply wf_fold, PyDictFacts.wf_empty.
  - intros doc I.
    rewrite (get_resolved_fold docs profiles N doc
               (map_products_by_type docs)) by assumption.
    cbn [PyDict.get PyDict.empty].
    destruct (existsb _ (map_products_by_type docs)) eqn:X.
    + destruct (resolved_profile profiles doc); reflexivity.
    + unfold resolved_profile.
      destruct (product_type_of doc) as [t|] eqn:T; [|reflexivity].
      exfalso. specialize (G t). unfold group_of in G.
      assert (F : In doc (filter (has_type t) docs)).
      { apply filter_In. split; [assumption|]. now apply has_type_iff. }
      destruct (filter (has_type t) docs) as [|x l] eqn:E; [destruct F|].
      apply PyDictFacts.get_Some_In in G.
      assert (Y : existsb (fun item => has_type (fst item) doc)
                    (map_products_by_type docs) = true).
      { apply existsb_exists. exists (t, x :: l). split; [assumption|].
        now apply has_type_iff. }
      unfold PyDict.items in *. congruence.
  - intros k p H.
    apply (get_origin_fold docs profiles) in H; [|assumption].
    destruct H as [H|H]; [discriminate | assumption].
Qed.

End PrepareSpec.

Lemma find_first (A : Type) (f : A -> bool) (l : list A) (x : A) :
  find f l = Some x <->
  exists before after,
    l = before ++ x :: after
    /\ f x = true
    /\ forall y, In y before -> f y = false.
Proof.
  induction l as [|a l IH]; simpl.
  - split; [discriminate|]. intros [[|b before] [after [E _]]]; discriminate.
  - destruct (f a) eqn:Fa.
    + split.
      * intros H. injection H as <-. exists [], l. simpl. tauto.
      * intros [[|b before] [after [E [Fx Hb]]]]; simpl in E.
        -- congruence.
        -- injection E as <- _. rewrite (Hb a (or_introl eq_refl)) in Fa.
           discriminate.
    + rewrite IH. split.
      * intros [before [after [E [Fx Hb]]]].
        exists (a :: before), after. simpl. split; [now rewrite E|].
        split; [assumption|]. intros y [<-|I]; auto.
      * intros [[|b before] [after [E [Fx Hb]]]]; simpl in E.
        -- injection E as <- _. congruence.
        -- injection E as <- ->. exists before, after.
           split; [reflexivity|]. split; [assumption|].
           intros y I. apply Hb. now right.
Qed.

(** ** Computations that return *)

Section YieldsFacts.
Variable Host : Type.
Implicit Types (w : World Host).

Lemma yields_ret (A : Type) (a : A) w (Q : World Host -> A -> Prop) :
  Q w a -> yields (ret a) w Q.
Proof. intros H. exists w, a. auto. Qed.

Lemma yields_bind (A B : Type) (m : M Host A) (k : A -> M Host B) w
  (Q1 : World Host -> A -> Prop) (Q : World Host -> B -> Prop) :
  yields m w Q1 ->
  (forall w' a, Q1 w' a -> yields (k a) w' Q) ->
  yields (bind m k) w Q.
Proof.
  intros [w1 [a [E H1]]] Hk. unfold yields, bind. rewrite E.
  apply (Hk w1 a H1).
Qed.

Lemma yields_weaken (A : Type) (m : M Host A) w
  (Q1 Q2 : World Host -> A -> Prop) :
  yields m w Q1 -> (forall w' a, Q1 w' a -> Q2 w' a) -> yields m w Q2.
Proof. intros [w1 [a [E H1]]] H. exists w1, a. auto. Qed.

Lemma yields_for (X S : Type) (body : X -> S -> M Host (Ctl S))
  (I : World Host -> S -> Prop) (xs : list X) :
  (forall x s w, In x xs -> I w s ->
     yields (body x s) w
       (fun w' c => match c with Next s' | Break s' => I w' s' end)) ->
  forall s w, I w s -> yields (for_ xs body s) w I.
Proof.
  induction xs as [|x r IH]; intros Hb s w Hi.
  - now apply yields_ret.
  - cbn [for_]. eapply yields_bind.
    + apply Hb; [now left | exact Hi].
    + intros w' [s'|s'] H'; cbn beta iota.
      * apply IH; [|exact H']. intros y t u Iy. apply Hb. now right.
      * now apply yields_ret.
Qed.

Lemma yields_log (lvl : LogLevel) (m : Message) w
  (Q : World Host -> unit -> Prop) :
  Q (add_events [Log lvl m] w) tt -> yields (log lvl m) w Q.
Proof. intros H. exists (add_events [Log lvl m] w), tt. auto. Qed.

Lemma yields_bind_log (B : Type) (lvl : LogLevel) (m : Message)
  (k : unit -> M Host B) w (Q : World Host -> B -> Prop) :
  yields (k tt) (add_events [Log lvl m] w) Q ->
  yields (bind (log lvl m) k) w Q.
Proof. unfold yields. now rewrite bind_log. Qed.

Lemma yields_subscript (V : Type) (d : PyDict.t V) (k : string) (v : V) w
  (Q : World Host -> V -> Prop) :
  PyDict.get k d = Some v -> Q w v -> yields (subscript d k) w Q.
Proof. intros G H. exists w, v. unfold subscript. rewrite G. auto. Qed.

Lemma yields_field (V : Type) (o : option V) (k : string) (v : V) w
  (Q : World Host -> V -> Prop) :
  o = Some v -> Q w v -> yields (field o k) w Q.
Proof. intros -> H. exists w, v. auto. Qed.

Lemma world_ok_add_events (evs : list Event) w :
  world_ok w -> world_ok (add_events evs w).
Proof. intros [p [E H]]. exists p. auto. Qed.

Lemma world_ok_with_host (h : Host) w : world_ok w -> world_ok (with_host h w).
Proof. intros [p [E H]]. exists p. auto. Qed.

Lemma presets_ok_after (presets : BuildPresets) :
  presets_ok presets -> presets_ok (after_ordering presets).
Proof.
  unfold presets_ok, after_ordering, presets_sequence. intros H p.
  destruct (current_context presets) as [cur|] eqn:C; cbn [list_of].
  - intros I. apply H. cbn [current_context linked_assets list_of] in *.
    rewrite !in_app_iff in *. tauto.
  - rewrite C. apply H.
Qed.

End YieldsFacts.

(** ** No failed lookup in [load_containers_by_asset_data] *)

Lemma In_set_inv (V : Type) (k k' : string) (v v' : V) (d : PyDict.t V) :
  In (k', v') (PyDict.set k v d) -> (k' = k /\ v' = v) \/ In (k', v') d.
Proof.
  induction d as [|[k0 v0] r IH]; simpl.
  - intros [E|[]]. injection E as <- <-. auto.
  - destruct (String.eqb k k0); simpl.
    + intros [E|I]; [injection E as <- <-; auto | auto].
    + intros [E|I]; [auto | apply IH in I; tauto].
Qed.

Lemma ids_of_values (d : PyDict.t SubsetDoc) :
  PyDict.wf d ->
  (forall k v, In (k, v) d -> subset_id v = k) ->
  NoDup (map subset_id (PyDict.values d)).
Proof.
  intros W H.
  assert (E : map subset_id (PyDict.values d) = PyDict.keys d).
  { clear W. unfold PyDict.values, PyDict.keys.
    induction d as [|[k v] r IH]; simpl; [reflexivity|].
    rewrite (H k v (or_introl eq_refl)), IH; [reflexivity|].
    intros k' v' I. apply H. now right. }
  rewrite E. exact W.
Qed.

Lemma keys_append_to (V : Type) (k pid : string) (x : V)
  (d : PyDict.t (list V)) :
  In k (PyDict.keys (append_to pid x d)) -> k = pid \/ In k (PyDict.keys d).
Proof.
  unfold append_to. destruct (PyDict.get pid d);
    intros I; apply PyDictFacts.In_keys_set in I; exact I.
Qed.

Lemma index_subsets_ok (data : AssetData) :
  data_ok data -> index_ok (index_subsets data).
Proof.
  intros D. unfold index_subsets. apply loop_inv.
  - intros [pid e] [[a b] c] I [W [H1 [H2 H3]]]. cbn beta iota zeta.
    specialize (D pid e I). unfold index_ok. split; [|split; [|split]].
    + now apply PyDictFacts.wf_set.
    + intros k v J. apply In_set_inv in J as [[-> ->]|J]; auto.
    + intros k J. apply PyDictFacts.In_keys_set in J.
      rewrite PyDictFacts.get_set. rewrite D in J.
      destruct (String.eqb_spec pid k) as [->|N]; [eauto|].
      destruct J as [->|J]; [contradiction | auto].
    + intros k v G. rewrite PyDictFacts.get_set in G.
      rewrite PyDictFacts.get_set.
      destruct (String.eqb pid k).
      * injection G as <-. rewrite String.eqb_refl. eauto.
      * destruct (String.eqb (version_id (version_doc_of e)) (version_id v));
          eauto.
  - unfold index_ok. split; [apply PyDictFacts.wf_empty|].
    split; [intros k v []|]. split; [intros k []|]. intros k v G.
    discriminate.
Qed.

Section AssetDataFacts.
Variable Host : Type.
Implicit Types (w : World Host).

Lemma collect_valid_repres_ok (d : PyDict.t Profile)
  (vbp : PyDict.t VersionDoc) (rbv : PyDict.t (list RepreDoc)) w :
  (forall pid profile,
      In (pid, profile) d ->
      (exists ns, repre_names_lowered profile = Some ns)
      /\ exists v, PyDict.get pid vbp = Some v) ->
  (forall k v, PyDict.get k vbp = Some v ->
               exists r, PyDict.get (version_id v) rbv = Some r) ->
  yields (collect_valid_repres d vbp rbv) w
    (fun w' valid =>
       w' = w /\ forall k, In k (PyDict.keys valid) -> In k (PyDict.keys d)).
Proof.
  intros H1 H2. unfold collect_valid_repres.
  apply yields_for
    with (I := fun w' valid =>
                 w' = w
                 /\ forall k, In k (PyDict.keys valid) -> In k (PyDict.keys d)).
  - intros [pid profile] valid w1 I [-> K].
    destruct (H1 pid profile I) as [[ns N] [v G]].
    destruct (H2 pid v G) as [r R].
    unfold yields. rewrite N. cbn [field]. rewrite bind_ret.
    unfold subscript. rewrite G, bind_ret, R, bind_ret.
    eexists _, _. split; [reflexivity|]. split; [reflexivity|].
    apply loop_inv
      with (P := fun s => forall k, In k (PyDict.keys s) ->
                                    In k (PyDict.keys d)); [|exact K].
    intros x s _ Hs.
    destruct (Str.mem (Str.lower (repre_name x)) ns); [|exact Hs].
    intros k J. apply keys_append_to in J as [->|J]; [|auto].
    apply in_map_iff. exists (pid, profile). auto.
  - split; [reflexivity|]. intros k [].
Qed.

Lemma debug_valid_repres_ok (asset : AssetDoc) (pbi : PyDict.t SubsetDoc)
  (valid : PyDict.t (list RepreDoc)) w :
  (forall k, In k (PyDict.keys valid) -> exists doc, PyDict.get k pbi = Some doc) ->
  yields (debug_valid_repres asset pbi valid) w
    (fun w' _ => exists evs, w' = add_events evs w).
Proof.
  intros H. unfold debug_valid_repres.
  eapply yields_bind.
  - apply yields_for with (I := fun w' (_ : list (string * string * list string)) => w' = w).
    + intros [pid repres] msg w1 I ->.
      destruct (H pid) as [doc G].
      { apply in_map_iff. exists (pid, repres). auto. }
      unfold yields, subscript. rewrite G, bind_ret.
      eexists _, _. split; reflexivity.
    + reflexivity.
  - intros w1 msg ->. apply yields_log. eauto.
Qed.

End AssetDataFacts.

Section AssetDataOk.
Variables Host Container : Type.
Variable env : Env Host Container.
Implicit Types (w : World Host).

Lemma kept_profiles_ok (lbn : PyDict.t LoaderPlugin) (l : list Profile)
  (q : Profile) :
  (forall p, In p l -> preset_ok p) ->
  In q (map with_lowered (filter (fun p => negb (excluded lbn p)) l)) ->
  kept_ok q.
Proof.
  intros H I. apply in_map_iff in I as [p [<- I]].
  apply filter_In in I as [I X]. destruct (H p I) as [_ [rs F]].
  unfold kept_ok, resolvable. split; [split|split].
  - eexists. reflexivity.
  - exists rs. exact F.
  - unfold excluded in X. apply negb_true_iff in X.
    apply orb_false_iff in X as [X _]. apply orb_false_iff in X as [X _].
    apply orb_false_iff in X as [X _]. apply negb_false_iff in X.
    cbn [with_lowered loaders]. destruct (loaders p) as [ls|]; [eauto|].
    discriminate.
  - eexists. reflexivity.
Qed.

Lemma load_containers_ok (rbp : PyDict.t (list RepreDoc))
  (pbi : PyDict.t SubsetDoc) (profs : PyDict.t Profile)
  (lbn : PyDict.t LoaderPlugin) w :
  world_ok w ->
  (forall pid, In pid (PyDict.keys rbp) -> loadable pbi profs pid) ->
  yields (_load_containers env rbp pbi profs lbn) w
    (fun w' _ => world_ok w').
Proof.
  intros [presets [E P]] L. unfold yields.
  rewrite load_containers_spec with (presets := presets);
    [|exact E | intros p I; apply (P p I) | exact L].
  cbv zeta.
  destruct (load_all env pbi profs lbn
              (fst (order_representations
                      (ordered_ids (presets_sequence presets) pbi) rbp))
              (host w)) as [[h' evs] outs].
  eexists _, _. split; [reflexivity|].
  exists (after_ordering presets). split; [reflexivity|].
  now apply presets_ok_after.
Qed.

Lemma load_asset_data_ok (data : AssetData)
  (build_profiles : option (list Profile)) (lbn : PyDict.t LoaderPlugin) w :
  world_ok w -> data_ok data ->
  (forall p, In p (list_of build_profiles) -> preset_ok p) ->
  yields (load_containers_by_asset_data env data build_profiles lbn) w
    (fun w' _ => world_ok w').
Proof.
  intros Wok D P. unfold load_containers_by_asset_data.
  destruct (negb (truthy_list build_profiles) || negb (PyDict.truthy lbn));
    [now apply yields_ret|].
  eapply yields_bind
    with (Q1 := fun w' valid => world_ok w' /\ forall q, In q valid -> kept_ok q).
  { unfold yields. rewrite filter_build_profiles_spec.
    eexists _, _. split; [reflexivity|]. split.
    - now apply world_ok_add_events.
    - intros q I. now apply (kept_profiles_ok lbn (list_of build_profiles)). }
  intros w1 valid [W1 V]. destruct valid as [|v0 vs] eqn:Ev.
  { apply yields_bind_log, yields_ret. now apply world_ok_add_events. }
  rewrite <- Ev in *. clear Ev.
  apply yields_bind_log.
  assert (W2 : world_ok (add_events [Log Debug (ValidProfiles valid)] w1))
    by now apply world_ok_add_events.
  revert W2. generalize (add_events [Log Debug (ValidProfiles valid)] w1).
  intros w2 W2.
  pose proof (index_subsets_ok data D) as X.
  destruct (index_subsets data) as [[pbi vbp] rbv].
  destruct X as [Wp [X1 [X2 X3]]].
  destruct (negb (PyDict.truthy pbi)).
  { apply yields_bind_log, yields_ret. now apply world_ok_add_events. }
  destruct (prepare_spec Host (PyDict.values pbi) valid w2)
    as [d [Ed [Wd [_ O]]]].
  { now apply ids_of_values. }
  { intros q I. apply (V q I). }
  eapply yields_bind
    with (Q1 := fun w' d' => w' = w2 /\ d' = d).
  { exists w2, d. auto. }
  intros w3 d' [-> ->].
  destruct (negb (PyDict.truthy d)).
  { apply yields_bind_log, yields_ret. now apply world_ok_add_events. }
  assert (K : forall pid profile,
             In (pid, profile) d ->
             kept_ok profile /\ In pid (PyDict.keys pbi)).
  { intros pid profile I. apply PyDictFacts.In_get in I; [|exact Wd].
    apply O in I as [I [doc [Id <-]]]. split; [now apply V|].
    apply in_map_iff in Id as [[k v] [<- Id]]. cbn [snd].
    rewrite (X1 k v Id). apply in_map_iff. exists (k, v). auto. }
  eapply yields_bind.
  { apply collect_valid_repres_ok.
    - intros pid profile I. destruct (K pid profile I) as [[_ [_ N]] J].
      split; [exact N | now apply X2].
    - exact X3. }
  intros w3 valid_repres [-> Kv].
  assert (L : forall pid, In pid (PyDict.keys valid_repres) ->
                          loadable pbi d pid).
  { intros pid I. apply Kv in I.
    apply PyDictFacts.keys_get in I as [profile G].
    apply PyDictFacts.get_Some_In in G as I.
    destruct (K pid profile I) as [[_ [[ls Ls] [ns N]]] J].
    apply PyDictFacts.keys_get in J as [doc Gd].
    exists doc, profile, ls, ns. auto. }
  eapply yields_bind.
  { apply debug_valid_repres_ok. intros k I. destruct (L k I) as [doc [_ [_ [_ [G _]]]]].
    eauto. }
  intros w3 _ [evs ->].
  eapply yields_bind.
  { apply load_containers_ok; [now apply world_ok_add_events | exact L]. }
  intros w4 cs W4. now apply yields_ret.
Qed.

End AssetDataOk.

(** ** No failed lookup in [_collect_last_version_repres] *)

Lemma ensure_key (V : Type) (k : string) (fresh : V) (d : PyDict.t V) :
  let d1 := if negb (PyDict.contains k d) then PyDict.set k fresh d else d in
  exists v,
    PyDict.get k d1 = Some v
    /\ (v = fresh \/ In (k, v) d)
    /\ forall k' v', In (k', v') d1 -> (k' = k /\ v' = fresh) \/ In (k', v') d.
Proof.
  cbv zeta. unfold PyDict.contains.
  destruct (PyDict.get k d) as [v|] eqn:G; cbn [negb].
  - exists v. split; [exact G|]. split.
    + right. now apply PyDictFacts.get_Some_In.
    + auto.
  - exists fresh. split; [apply PyDictFacts.get_set_same|]. split; [now left|].
    intros k' v' I. now apply In_set_inv in I.
Qed.

Section CollectOk.
Variables Host Container : Type.
Variable env : Env Host Container.
Implicit Types (w : World Host).

Lemma yields_bind_query (A B : Type) (q : StoreQuery) (a : A)
  (k : A -> M Host B) w (Q : World Host -> B -> Prop) :
  yields (k a) (add_events [Query q] w) Q ->
  yields (bind (query q a) k) w Q.
Proof. unfold yields. now rewrite bind_query. Qed.

Lemma file_repre_ok (ad : PyDict.t AssetDoc) (sd : PyDict.t SubsetDoc)
  (lvd : PyDict.t VersionDoc) (r : RepreDoc) (output : PyDict.t AssetData) w :
  (exists v, PyDict.get (repre_parent r) lvd = Some v) ->
  (forall k v, PyDict.get k lvd = Some v ->
               exists s, PyDict.get (version_parent v) sd = Some s) ->
  (forall k s, PyDict.get k sd = Some s ->
               subset_id s = k
               /\ exists a, PyDict.get (subset_parent s) ad = Some a) ->
  output_ok output ->
  yields (file_repre ad sd lvd r output) w
    (fun w' c =>
       w' = w /\ match c with Next o | Break o => output_ok o end).
Proof.
  intros [v Gv] B C O.
  destruct (B _ v Gv) as [s Gs]. destruct (C _ s Gs) as [Es [a Ga]].
  unfold yields, file_repre, subscript.
  rewrite Gv, bind_ret, Gs, bind_ret, Ga, bind_ret.
  destruct (ensure_key AssetData (subset_parent s)
              {| asset_doc_of := a; subsets_of := PyDict.empty |} output)
    as [fd [Gf [Of Io]]].
  rewrite Gf, bind_ret.
  destruct (ensure_key SubsetData (version_parent v)
              {| subset_doc_of := s; version_doc_of := v; repres_of := [] |}
              (subsets_of fd))
    as [entry [Ge [Oe Ie]]].
  rewrite Ge, bind_ret.
  eexists _, _. split; [reflexivity|]. split; [reflexivity|].
  assert (Dfd : data_ok fd).
  { destruct Of as [->|I]; [intros k e []|]. exact (O _ _ I). }
  intros k data I. apply In_set_inv in I as [[-> ->]|I].
  - intros k' e' J. cbn [subsets_of] in J.
    apply In_set_inv in J as [[-> ->]|J].
    + cbn [subset_doc_of]. destruct Oe as [->|J]; [exact Es|].
      exact (Dfd _ _ J).
    + apply Ie in J as [[-> ->]|J]; [exact Es|]. exact (Dfd _ _ J).
  - apply Io in I as [[-> ->]|I]; [intros k' e' []|]. exact (O _ _ I).
Qed.

Lemma collect_ok (asset_docs : list AssetDoc) w :
  store_ok env ->
  yields (_collect_last_version_repres env asset_docs) w
    (fun w' output =>
       (exists evs, w' = add_events evs w) /\ output_ok output).
Proof.
  intros [S1 [S2 S3]]. unfold _collect_last_version_repres.
  destruct asset_docs as [|a0 rest].
  { apply yields_ret. split; [|intros k data []].
    exists []. symmetry. apply add_events_nil. }
  cbv zeta.
  apply yields_bind_query, yields_bind_query, yields_bind_query.
  match goal with
  | |- yields _ ?W _ => set (w3 := W)
  end.
  assert (E3 : exists evs, w3 = add_events evs w).
  { unfold w3. rewrite !add_events_app. eauto. }
  clearbody w3.
  eapply yields_weaken.
  - apply yields_for
      with (I := fun w' output => w' = w3 /\ output_ok output).
    + intros r output w1 I [-> O].
      eapply yields_weaken.
      * apply file_repre_ok; [| | |exact O].
        -- apply PyDictFacts.keys_get. now apply S3 in I.
        -- intros k v G. apply PyDictFacts.get_of_seq in G as [x [Ix [_ <-]]].
           apply PyDictFacts.keys_get. now apply S2 in Ix.
        -- intros k s G. apply PyDictFacts.get_of_seq in G as [x [Ix [Ek <-]]].
           split; [exact Ek|]. apply PyDictFacts.keys_get. now apply S1 in Ix.
      * intros w' c [-> H]. destruct c; auto.
    + split; [reflexivity | intros k data []].
  - intros w' output [-> O]. split; [exact E3 | exact O].
Qed.

End CollectOk.

(** ** Loader discovery (lines 125-134) *)

Lemma mem_In (x : string) (l : list string) : Str.mem x l = true <-> In x l.
Proof.
  unfold Str.mem. rewrite existsb_exists. split.
  - intros [y [I E]]. apply String.eqb_eq in E. now subst.
  - intros I. exists x. split; [exact I | apply String.eqb_refl].
Qed.

Lemma contains_mem (V : Type) (k : string) (d : PyDict.t V) :
  PyDict.contains k d = Str.mem k (PyDict.keys d).
Proof.
  destruct (Str.mem k (PyDict.keys d)) eqn:E.
  - apply mem_In in E. now apply PyDictFacts.contains_keys.
  - destruct (PyDict.contains k d) eqn:C; [|reflexivity].
    apply PyDictFacts.contains_keys in C. apply mem_In in C. congruence.
Qed.

Lemma first_duplicate_none (names : list string) :
  forall seen : list string,
    first_duplicate seen names = None <->
    NoDup names /\ forall n, In n names -> ~ In n seen.
Proof.
  induction names as [|n r IH]; intros seen; simpl.
  - split; [intros _; split; [constructor | tauto] | reflexivity].
  - destruct (Str.mem n seen) eqn:E.
    + apply mem_In in E. split; [discriminate|].
      intros [_ H]. exfalso. apply (H n); auto.
    + rewrite IH. split.
      * intros [N H]. split.
        -- constructor; [|exact N]. intros I. apply (H n I).
           apply in_app_iff. right. now left.
        -- intros m [<-|I] J.
           ++ apply mem_In in J. congruence.
           ++ apply (H m I). apply in_app_iff. now left.
      * intros [N H]. inversion N as [|? ? Nn Nr]; subst. split; [exact Nr|].
        intros m I J. apply in_app_iff in J as [J|[<-|[]]].
        -- apply (H m); auto.
        -- contradiction.
Qed.

Lemma first_duplicate_some (names : list string) :
  forall (seen : list string) (n : string),
    first_duplicate seen names = Some n ->
    exists before after,
      names = before ++ n :: after /\ In n (seen ++ before).
Proof.
  induction names as [|m r IH]; intros seen n; simpl; [discriminate|].
  destruct (Str.mem m seen) eqn:E.
  - intros H. injection H as <-. apply mem_In in E.
    exists [], r. split; [reflexivity|]. rewrite app_nil_r. exact E.
  - intros H. apply IH in H as [before [after [-> I]]].
    exists (m :: before), after. split; [reflexivity|].
    rewrite <- app_assoc in I. exact I.
Qed.

Section DiscoveryFacts.
Variable Host : Type.

Lemma collect_loaders_loop (discovered : list LoaderPlugin) :
  forall (d : PyDict.t LoaderPlugin) (w : World Host),
    for_ discovered
      (fun loader loaders_by_name =>
         if negb (enabled loader) then ret (Next loaders_by_name)
         else
           let loader_name := loader_name loader in
           if PyDict.contains loader_name loaders_by_name then
             raise (exc KeyError
                      ("Duplicated loader name " ++ loader_name ++ "!"))
           else ret (Next (PyDict.set loader_name loader loaders_by_name)))
      d w
    = match first_duplicate (PyDict.keys d)
              (map loader_name (filter enabled discovered)) with
      | Some n =>
          (w, Raise (exc KeyError ("Duplicated loader name " ++ n ++ "!")))
      | None =>
          (w, Ret (fold_left (fun d x => PyDict.set (loader_name x) x d)
                     (filter enabled discovered) d))
      end.
Proof.
  induction discovered as [|x r IH]; intros d w; [reflexivity|].
  cbn [for_ filter]. unfold bind at 1.
  destruct (enabled x); cbn [negb map first_duplicate fold_left].
  - cbv zeta. rewrite contains_mem.
    destruct (Str.mem (loader_name x) (PyDict.keys d)) eqn:E; [reflexivity|].
    unfold ret at 1. rewrite IH, PyDictFacts.keys_set, contains_mem, E.
    reflexivity.
  - unfold ret at 1. apply IH.
Qed.

Lemma collect_loaders_spec (discovered : list LoaderPlugin) (w : World Host) :
  collect_loaders discovered w
  = match duplicated_loader discovered with
    | Some n =>
        (w, Raise (exc KeyError ("Duplicated loader name " ++ n ++ "!")))
    | None =>
        (w, Ret (PyDict.of_seq loader_name (fun x => x)
                   (filter enabled discovered)))
    end.
Proof. apply collect_loaders_loop. Qed.

End DiscoveryFacts.

Lemma of_seq_truthy (V X : Type) (key : X -> string) (val : X -> V)
  (xs : list X) :
  PyDict.truthy (PyDict.of_seq key val xs) = false <-> xs = [].
Proof.
  split.
  - intros T. apply PyDictFacts.truthy_false in T.
    destruct xs as [|x r]; [reflexivity|]. exfalso.
    assert (I : In (key x) (PyDict.keys (PyDict.of_seq key val (x :: r)))).
    { apply PyDictFacts.keys_of_seq. exists x. split; [now left | reflexivity]. }
    rewrite T in I. destruct I.
  - intros ->. reflexivity.
Qed.

(** ** The build returns on well-formed inputs *)

Section BuildOk.
Variables Host Container : Type.
Variable env : Env Host Container.
Implicit Types (w : World Host).

Lemma output_ok_remove (k : string) (output : PyDict.t AssetData) :
  output_ok output -> output_ok (PyDict.remove k output).
Proof.
  intros O k' data I. apply PyDictFacts.In_remove in I. exact (O _ _ I).
Qed.

Lemma load_prepared_ok (lbn : PyDict.t LoaderPlugin)
  (link_profiles : option (list Profile)) (folder_id : option string)
  (asset_docs : list AssetDoc) (loaded : list (LoadedData Container)) w :
  store_ok env -> world_ok w ->
  (forall p, In p (list_of link_profiles) -> preset_ok p) ->
  yields (load_prepared env lbn link_profiles folder_id asset_docs loaded) w
    (fun _ _ => True).
Proof.
  intros S W L. unfold load_prepared.
  eapply yields_bind; [apply collect_ok; exact S|].
  intros w1 output [[evs ->] O].
  assert (W1 : world_ok (add_events evs w)) by now apply world_ok_add_events.
  revert W1. generalize (add_events evs w). clear w W. intros w W.
  eapply yields_bind
    with (Q1 := fun w' pr => world_ok w' /\ output_ok (fst pr)).
  - destruct folder_id as [fid|]; [|now apply yields_ret].
    destruct (Str.truthy fid); [|now apply yields_ret].
    destruct (PyDict.get fid output) as [data|] eqn:G;
      [|now apply yields_ret].
    unfold yields. unfold bind at 1. unfold current_context_profiles_now.
    destruct W as [presets [E P]]. rewrite E.
    assert (D : data_ok data).
    { apply PyDictFacts.get_Some_In in G. exact (O _ _ G). }
    destruct (load_asset_data_ok Host Container env data
                (current_context presets) lbn w) as [w2 [r [E2 W2]]].
    + exists presets. auto.
    + exact D.
    + intros p I. apply P. unfold presets_sequence. apply in_app_iff.
      now left.
    + unfold bind. rewrite E2. eexists _, _. split; [reflexivity|].
      split; [exact W2|]. now apply output_ok_remove.
  - intros w2 [output2 loaded2] [W2 O2]. cbn [fst] in O2.
    eapply yields_weaken.
    + apply yields_for
        with (I := fun w' (_ : list (LoadedData Container)) => world_ok w').
      * intros data acc w3 I W3.
        eapply yields_bind.
        -- apply load_asset_data_ok; [exact W3| |exact L].
           apply in_map_iff in I as [[k d] [<- I]]. exact (O2 _ _ I).
        -- intros w4 r W4. now apply yields_ret.
      * exact W2.
    + auto.
Qed.

Lemma build_for_task_ok (asset : AssetDoc) (lbn : PyDict.t LoaderPlugin)
  (loaded : list (LoadedData Container)) w :
  store_ok env ->
  (forall presets,
      get_build_presets env (get_current_task_name env) asset = Some presets ->
      presets_ok presets) ->
  yields (build_for_task env asset lbn loaded) w (fun _ _ => True).
Proof.
  intros S P. unfold build_for_task. cbv zeta.
  unfold yields. unfold bind at 1. unfold assign_build_presets at 1.
  destruct (get_build_presets env (get_current_task_name env) asset)
    as [presets|] eqn:G.
  2:{ rewrite bind_log. eexists _, _. split; [reflexivity|exact I]. }
  specialize (P presets eq_refl).
  match goal with
  | |- exists w' a, _ ?W = _ /\ _ => set (w1 := W)
  end.
  assert (W1 : world_ok w1) by (exists presets; auto).
  clearbody w1.
  destruct (negb (truthy_list (current_context presets))
            && negb (truthy_list (linked_assets presets))).
  { rewrite bind_log. eexists _, _. split; [reflexivity|exact I]. }
  match goal with
  | |- exists w' a, ?m w1 = (w', Ret a) /\ _ =>
      change (yields m w1 (fun _ _ => True))
  end.
  eapply yields_bind with (Q1 := fun w' _ => world_ok w').
  { destruct (negb (truthy_list (current_context presets)));
      [apply yields_log; now apply world_ok_add_events|].
    destruct (negb (truthy_list (linked_assets presets)));
      [apply yields_log; now apply world_ok_add_events|].
    now apply yields_ret. }
  intros w2 _ W2.
  destruct (if truthy_list (current_context presets)
            then ([asset], Some (asset_id asset))
            else ([], None)) as [asset_docs folder_id].
  eapply yields_bind with (Q1 := fun w' _ => world_ok w').
  { destruct (truthy_list (linked_assets presets)).
    - apply yields_bind_query, yields_ret. now apply world_ok_add_events.
    - now apply yields_ret. }
  intros w3 docs W3. destruct docs as [|d0 ds].
  { apply yields_bind_log. now apply yields_ret. }
  apply load_prepared_ok; [exact S | exact W3|].
  intros p I. apply P. unfold presets_sequence. apply in_app_iff. now right.
Qed.

End BuildOk.

(** * The claims *)

(** C1: in the load loop every enqueued product goes through the attempts
    of its profile in priority order (representation names first, loaders
    second) and stops at the first call that does not raise, so the result
    holds at most one container per product.  With representations
    ["abc"; "usd"] and loaders ["LoaderX"; "LoaderY"], [LoaderX] raising and
    [LoaderY] loading, one container is produced, by [LoaderY], and "usd"
    is never attempted. *)
Theorem C1_first_successful_load_per_product :
  (forall (Host Container : Type) (env : Env Host Container)
     (repres_by_product_id : PyDict.t (list RepreDoc))
     (products_by_id : PyDict.t SubsetDoc)
     (profiles_by_product_id : PyDict.t Profile)
     (loaders_by_name : PyDict.t LoaderPlugin)
     (presets : BuildPresets) (w : World Host),
      self_build_presets w = Some presets ->
      (forall p, In p (presets_sequence presets) ->
                 exists pts, product_types p = Some pts) ->
      (forall product_id,
          In product_id (PyDict.keys repres_by_product_id) ->
          loadable products_by_id profiles_by_product_id product_id) ->
      PyDict.wf repres_by_product_id ->
      let ordered :=
        order_representations
          (ordered_ids (presets_sequence presets) products_by_id)
          repres_by_product_id in
      exists h' evs outs,
        load_all env products_by_id profiles_by_product_id loaders_by_name
          (fst ordered) (host w) = (h', evs, outs)
        /\ _load_containers env repres_by_product_id products_by_id
             profiles_by_product_id loaders_by_name w
           = (add_events
                (Print (ReprePerProduct repres_by_product_id)
                 :: Print (Representations (snd ordered)) :: evs)
                (with_host h'
                   (with_presets (Some (after_ordering presets)) w)),
              Ret (flat_map (fun o => option_list (snd o)) outs))
        /\ map fst outs = map fst (fst ordered)
        /\ NoDup (map fst outs)
        /\ length (flat_map (fun o => option_list (snd o)) outs)
           <= length outs)
  /\ (forall (Host Container : Type) (env : Env Host Container)
        (products_by_id : PyDict.t SubsetDoc)
        (profiles_by_product_id : PyDict.t Profile)
        (loaders_by_name : PyDict.t LoaderPlugin)
        (item : string * list RepreDoc) (product : SubsetDoc)
        (profile : Profile) (h h' : Host) (evs : list Event)
        (c : option Container),
         PyDict.get (fst item) products_by_id = Some product ->
         PyDict.get (fst item) profiles_by_product_id = Some profile ->
         product_attempts env products_by_id profiles_by_product_id
           loaders_by_name item h = (h', evs, c) ->
         let plan := attempt_plan loaders_by_name profile (snd item) in
         let pname := subset_name product in
         StronglySorted before_attempt plan
         /\ (forall a, In a plan ->
               (exists n,
                   nth_error (list_of (repre_names_lowered profile))
                     (at_name_idx a) = Some n
                   /\ PyDict.get n
                        (PyDict.of_seq (fun r => Str.lower (repre_name r))
                           (fun r => r) (snd item))
                      = Some (at_repre a))
               /\ (exists n,
                      nth_error (list_of (loaders profile)) (at_loader_idx a)
                      = Some n
                      /\ PyDict.get n loaders_by_name = Some (at_loader a)))
         /\ match c with
            | None =>
                all_fail env pname plan h = Some h'
                /\ load_calls evs = map (attempt_call pname) plan
            | Some container =>
                exists before last rest h0,
                  plan = before ++ last :: rest
                  /\ all_fail env pname before h = Some h0
                  /\ load_container env h0 (at_loader last)
                       (repre_id (at_repre last)) pname
                     = (h', Loaded container)
                  /\ load_calls evs
                     = map (attempt_call pname) (before ++ [last])
            end)
  /\ (let run :=
        _load_containers (Scenario.env_loading Scenario.load_x_raises)
          [("p1", [Scenario.abc])] [("p1", Scenario.charA_model)]
          [("p1", Scenario.model_profile None)] Scenario.registry
          (Scenario.world_with (Some Scenario.model_presets)) in
      snd run = Ret [("LoaderY", "r_abc")]
      /\ load_calls (events (fst run))
         = [LoadCall "LoaderX" "r_abc" "charA_model";
            LoadCall "LoaderY" "r_abc" "charA_model"])
  /\ (let run :=
        _load_containers (Scenario.env_loading Scenario.load_x_raises)
          [("p1", [Scenario.usd; Scenario.abc])]
          [("p1", Scenario.charA_model)]
          [("p1", Scenario.model_profile None)] Scenario.registry
          (Scenario.world_with (Some Scenario.model_presets)) in
      snd run = Ret [("LoaderY", "r_abc")]
      /\ load_calls (events (fst run))
         = [LoadCall "LoaderX" "r_abc" "charA_model";
            LoadCall "LoaderY" "r_abc" "charA_model"]).
Proof.
  split; [|split; [|split]].
  - intros Host Container env rbp pbi profs lbn presets w E Hp Hl W.
    cbv zeta.
    pose proof (@load_containers_spec Host Container env rbp pbi profs lbn
                  presets w E Hp Hl) as S.
    cbv zeta in S.
    pose proof (load_all_ids env pbi profs lbn
                  (fst (order_representations
                          (ordered_ids (presets_sequence presets) pbi) rbp))
                  (host w)) as I.
    revert S I.
    destruct (load_all env pbi profs lbn
                (fst (order_representations
                        (ordered_ids (presets_sequence presets) pbi) rbp))
                (host w)) as [[h' evs] outs].
    cbn [snd]. intros S I.
    exists h', evs, outs. split; [reflexivity|].
    split; [exact S|]. split; [exact I|]. split.
    + rewrite I. now apply order_representations_ids_nodup.
    + apply containers_bound.
  - intros Host Container env pbi profs lbn item product profile h h' evs c
      G1 G2 R plan pname.
    destruct (attempt_plan_priority lbn profile (snd item)) as [S P].
    split; [exact S|]. split; [exact P|].
    unfold product_attempts in R. rewrite G1, G2 in R.
    pose proof (run_attempts_cases env pname
                  (Z.of_nat (length (list_of (loaders profile))) - 1)
                  (Z.of_nat (length (list_of (repre_names_lowered profile)))
                   - 1) plan h) as C.
    fold plan pname in R. rewrite R in C. apply C.
  - split; reflexivity.
  - split; reflexivity.
Qed.

(** The general part of C1 at the scenario of the claim. *)
Lemma C1_witness :
  exists h' evs outs,
    load_all (Scenario.env_loading Scenario.load_x_raises)
      [("p1", Scenario.charA_model)] [("p1", Scenario.model_profile None)]
      Scenario.registry
      (fst (order_representations
              (ordered_ids (presets_sequence Scenario.model_presets)
                 [("p1", Scenario.charA_model)])
              [("p1", [Scenario.abc])]))
      (host (Scenario.world_with (Some Scenario.model_presets)))
    = (h', evs, outs)
    /\ _load_containers (Scenario.env_loading Scenario.load_x_raises)
         [("p1", [Scenario.abc])] [("p1", Scenario.charA_model)]
         [("p1", Scenario.model_profile None)] Scenario.registry
         (Scenario.world_with (Some Scenario.model_presets))
       = (add_events
            (Print (ReprePerProduct [("p1", [Scenario.abc])])
             :: Print (Representations
                  (snd (order_representations
                          (ordered_ids
                             (presets_sequence Scenario.model_presets)
                             [("p1", Scenario.charA_model)])
                          [("p1", [Scenario.abc])])))
             :: evs)
            (with_host h'
               (with_presets
                  (Some (after_ordering Scenario.model_presets))
                  (Scenario.world_with (Some Scenario.model_presets)))),
          Ret (flat_map (fun o => option_list (snd o)) outs))
    /\ map fst outs
       = map fst
           (fst (order_representations
                   (ordered_ids (presets_sequence Scenario.model_presets)
                      [("p1", Scenario.charA_model)])
                   [("p1", [Scenario.abc])]))
    /\ NoDup (map fst outs)
    /\ length (flat_map (fun o => option_list (snd o)) outs) <= length outs.
Proof.
  apply (proj1 C1_first_successful_load_per_product).
  - reflexivity.
  - intros p [<-|[]]. eexists. reflexivity.
  - intros pid [<-|[]]. unfold loadable. repeat eexists; reflexivity.
  - repeat constructor. simpl. tauto.
Defined.

(** C2: the product order of the load loop goes through the presets in
    sequence, then through each preset's product types, then through the
    products whose legacy list "families" contains that type; the type of
    the product itself is not consulted.  At products A (type "model") and
    B (type "rig") under the profile order [rig; model]: with the type
    carried by "family" alone both products get their profile, yet none is
    ordered and no load is attempted; the same happens with "families"
    filled when the profiles spell their types "Rig" and "Model", which
    profile resolution accepts; with "families" filled and the types
    spelled alike B is attempted before A. *)
Theorem C2_order_by_legacy_families :
  (forall (Host : Type) (build_presets : list Profile)
     (products_by_id : PyDict.t SubsetDoc) (w : World Host),
      (forall p, In p build_presets ->
                 exists pts, product_types p = Some pts) ->
      order_product_ids build_presets products_by_id w
      = (w, Ret (ordered_ids build_presets products_by_id)))
  /\ (forall w : World Scenario.Host,
      _prepare_profile_for_products
        [Scenario.product_A false; Scenario.product_B false]
        (map with_lowered
           [Scenario.rig_profile; Scenario.plain_model_profile]) w
      = (w, Ret [("pA", with_lowered Scenario.plain_model_profile);
                 ("pB", with_lowered Scenario.rig_profile)]))
  /\ ordered_ids (presets_sequence Scenario.rig_then_model)
       [("pA", Scenario.product_A false); ("pB", Scenario.product_B false)]
     = []
  /\ (let run :=
        build_workfile (Scenario.env_AB false) (Scenario.world_with None) in
      load_calls (events (fst run)) = []
      /\ snd run
         = Ret [{| loaded_asset_doc := Scenario.current_folder;
                   containers := [] |}])
  /\ (forall w : World Scenario.Host,
        _prepare_profile_for_products
          [Scenario.product_A true; Scenario.product_B true]
          (map with_lowered
             [Scenario.capital_rig_profile; Scenario.capital_model_profile])
          w
        = (w, Ret [("pA", with_lowered Scenario.capital_model_profile);
                   ("pB", with_lowered Scenario.capital_rig_profile)]))
  /\ (let run :=
        build_workfile Scenario.env_AB_capital (Scenario.world_with None) in
      load_calls (events (fst run)) = []
      /\ snd run
         = Ret [{| loaded_asset_doc := Scenario.current_folder;
                   containers := [] |}])
  /\ ordered_ids (presets_sequence Scenario.rig_then_model)
       [("pA", Scenario.product_A true); ("pB", Scenario.product_B true)]
     = ["pB"; "pA"]
  /\ (let run :=
        build_workfile (Scenario.env_AB true) (Scenario.world_with None) in
      load_calls (events (fst run))
      = [LoadCall "LoaderX" "rB" "B"; LoadCall "LoaderX" "rA" "A"]
      /\ snd run
         = Ret [{| loaded_asset_doc := Scenario.current_folder;
                   containers := [("LoaderX", "rB"); ("LoaderX", "rA")] |}]).
Proof.
  split.
  - intros Host build_presets products_by_id w H.
    now apply order_product_ids_spec.
  - repeat split; reflexivity.
Qed.

(** C3: the test [exc == IncompatibleLoaderError] compares an exception
    instance with a class and is never true, also for an instance of that
    very class; whatever a load call raises, the attempt is recorded as an
    unexpected error and the loop goes on with the next loader, then the
    next representation name: a product ends without a container only
    when every attempt of its plan has raised. *)
Theorem C3_load_failures_fall_through :
  (forall e : ExcInstance,
      py_eq (InstanceObject e) (ClassObject IncompatibleLoaderError) = false)
  /\ isinstance Scenario.incompatible IncompatibleLoaderError = true
  /\ (forall (Host Container : Type) (env : Env Host Container)
        (loaders_by_name : PyDict.t LoaderPlugin) (product_name : string)
        (repre : RepreDoc) (loaders_last_idx repre_names_last_idx : Z)
        (repre_name_idx loader_idx : nat) (loader_key : string)
        (loader : LoaderPlugin) (loaded_containers : list Container)
        (w : World Host) (h' : Host) (e : ExcInstance),
         PyDict.get loader_key loaders_by_name = Some loader ->
         load_container env (host w) loader (repre_id repre) product_name
         = (h', Failed e) ->
         try_loader env loaders_by_name product_name repre loaders_last_idx
           repre_name_idx repre_names_last_idx (loader_idx, loader_key)
           (loaded_containers, false) w
         = (add_events
              [LoadCall (loader_name loader) (repre_id repre)
                 product_name;
               Log Error (UnexpectedError e);
               Log Info (LoadingFailed
                 (fail_note loader_idx loaders_last_idx repre_name_idx
                    repre_names_last_idx product_name))]
              (with_host h' w),
            Ret (Next (loaded_containers, false))))
  /\ (forall (Host Container : Type) (env : Env Host Container)
        (products_by_id : PyDict.t SubsetDoc)
        (profiles_by_product_id : PyDict.t Profile)
        (loaders_by_name : PyDict.t LoaderPlugin)
        (item : string * list RepreDoc) (product : SubsetDoc)
        (profile : Profile) (ls ns : list string)
        (loaded_containers : list Container) (w : World Host),
         PyDict.get (fst item) products_by_id = Some product ->
         PyDict.get (fst item) profiles_by_product_id = Some profile ->
         loaders profile = Some ls ->
         repre_names_lowered profile = Some ns ->
         let plan := attempt_plan loaders_by_name profile (snd item) in
         exists h' evs c,
           load_product env products_by_id profiles_by_product_id
             loaders_by_name item loaded_containers w
           = (add_events evs (with_host h' w),
              Ret (Next (loaded_containers ++ option_list c)))
           /\ Forall load_event evs
           /\ (c = None <->
               all_fail env (subset_name product) plan (host w) = Some h')
           /\ (c = None ->
               load_calls evs
               = map (attempt_call (subset_name product)) plan))
  /\ events
       (fst (_load_containers (Scenario.env_loading Scenario.load_x_raises)
               [("p1", [Scenario.abc])] [("p1", Scenario.charA_model)]
               [("p1", Scenario.model_profile None)] Scenario.registry
               (Scenario.world_with (Some Scenario.model_presets))))
     = [Print (ReprePerProduct [("p1", [Scenario.abc])]);
        Print (Representations [[Scenario.abc]]);
        LoadCall "LoaderX" "r_abc" "charA_model";
        Log Error (UnexpectedError Scenario.incompatible);
        Log Info (LoadingFailed TryingNextLoader);
        LoadCall "LoaderY" "r_abc" "charA_model"].
Proof.
  split; [|split; [|split; [|split]]].
  - reflexivity.
  - reflexivity.
  - intros Host Container env lbn pname repre ll lr ridx idx lname loader acc
      w h' e G L.
    unfold try_loader. rewrite G. unfold bind at 1.
    unfold call_load_container. rewrite L. cbn [py_eq py_is].
    rewrite bind_log, bind_log. unfold ret, add_events, with_host. cbn.
    rewrite <- !app_assoc. reflexivity.
  - intros Host Container env pbi profs lbn item product profile ls ns acc w
      G1 G2 L N plan.
    assert (Hl : loadable pbi profs (fst item)).
    { exists product, profile, ls, ns. auto. }
    pose proof (load_product_spec env lbn item acc w Hl) as S.
    unfold product_attempts in S. rewrite G1, G2 in S. fold plan in S.
    pose proof (run_attempts_cases env (subset_name product)
                  (Z.of_nat (length (list_of (loaders profile))) - 1)
                  (Z.of_nat (length (list_of (repre_names_lowered profile)))
                   - 1) plan (host w)) as C.
    revert S C.
    destruct (run_attempts env (subset_name product)
                (Z.of_nat (length (list_of (loaders profile))) - 1)
                (Z.of_nat (length (list_of (repre_names_lowered profile)))
                 - 1) plan (host w)) as [[h' evs] c].
    intros S [C A]. exists h', evs, c.
    split; [exact S|]. split; [exact A|].
    destruct c as [container|].
    + destruct C as [before [last [rest [h0 [E [F [Ld _]]]]]]].
      split; [split; [discriminate|]|discriminate].
      rewrite E, (all_fail_stops env _ before rest last _ F Ld).
      discriminate.
    + destruct C as [F C]. split; [split; auto|auto].
  - reflexivity.
Qed.

(** The fall-through of C3 at a failing call of the scenario: [LoaderX]
    raises on "abc" and the loop state is left as it was. *)
Lemma C3_witness :
  try_loader (Scenario.env_loading Scenario.load_x_raises) Scenario.registry
    "charA_model" Scenario.abc 1 0 1 (0, "LoaderX") ([], false)
    (Scenario.world_with (Some Scenario.model_presets))
  = (add_events
       [LoadCall "LoaderX" "r_abc" "charA_model";
        Log Error (UnexpectedError Scenario.incompatible);
        Log Info (LoadingFailed (fail_note 0 1 0 1 "charA_model"))]
       (with_host 0 (Scenario.world_with (Some Scenario.model_presets))),
     Ret (Next ([], false))).
Proof.
  apply (proj1 (proj2 (proj2 C3_load_failures_fall_through)))
    with (loader := Scenario.LoaderX); reflexivity.
Defined.

(** C4: for valid profiles whose name filters compile and products with
    distinct ids, [_prepare_profile_for_products] returns, without raising
    or logging, the mapping that gives every product the first profile
    whose lower-cased product types contain the product's lower-cased type,
    provided the product name passes the name filters of that first
    profile; later profiles are not considered.  Products of one type that
    get a profile get the same one, and products without a type or without
    a declaring profile are left out. *)
Theorem C4_first_matching_profile_per_type :
  forall (Host : Type) (subset_docs : list SubsetDoc)
    (profiles : list Profile) (w : World Host),
    NoDup (map subset_id subset_docs) ->
    (forall p, In p profiles -> resolvable p) ->
    exists d,
      _prepare_profile_for_products subset_docs profiles w = (w, Ret d)
      /\ (forall doc,
            In doc subset_docs ->
            PyDict.get (subset_id doc) d = resolved_profile profiles doc)
      /\ (forall t p,
            first_match profiles t = Some p <->
            exists before after,
              profiles = before ++ p :: after
              /\ declares t p = true
              /\ forall q, In q before -> declares t q = false)
      /\ (forall doc1 doc2 p1 p2,
            In doc1 subset_docs -> In doc2 subset_docs ->
            product_type_of doc1 = product_type_of doc2 ->
            PyDict.get (subset_id doc1) d = Some p1 ->
            PyDict.get (subset_id doc2) d = Some p2 ->
            p1 = p2)
      /\ (forall doc,
            In doc subset_docs ->
            (product_type_of doc = None
             \/ exists t, product_type_of doc = Some t
                          /\ first_match profiles t = None) ->
            PyDict.get (subset_id doc) d = None)
      /\ (forall k p,
            PyDict.get k d = Some p ->
            In p profiles
            /\ exists doc, In doc subset_docs /\ subset_id doc = k).
Proof.
  intros Host docs profiles w N R.
  destruct (prepare_spec Host docs profiles w N R) as [d [E [W [G O]]]].
  exists d. split; [exact E|]. split; [exact G|].
  split; [|split; [|split; [|exact O]]].
  - intros t p. apply find_first.
  - intros doc1 doc2 p1 p2 I1 I2 T G1 G2.
    rewrite (G doc1 I1) in G1. rewrite (G doc2 I2) in G2.
    unfold resolved_profile in G1, G2. rewrite <- T in G2.
    destruct (product_type_of doc1) as [t|]; [|discriminate].
    destruct (first_match profiles t) as [p|]; [|discriminate].
    destruct (profile_filters p) as [rs|]; [|discriminate].
    destruct (name_passes rs (subset_name doc1)); [|discriminate].
    destruct (name_passes rs (subset_name doc2)); [|discriminate].
    congruence.
  - intros doc I H. rewrite (G doc I). unfold resolved_profile.
    destruct H as [->|[t [-> ->]]]; reflexivity.
Qed.

(** C4 at two products of type "model" and one profile filtered on
    "char.*". *)
Lemma C4_witness :
  exists d,
    _prepare_profile_for_products
      [Scenario.charA_model; Scenario.charB_model]
      [Scenario.model_profile (Some ["char.*"])]
      (Scenario.world_with None)
    = (Scenario.world_with None, Ret d)
    /\ (forall doc,
          In doc [Scenario.charA_model; Scenario.charB_model] ->
          PyDict.get (subset_id doc) d
          = resolved_profile [Scenario.model_profile (Some ["char.*"])] doc)
    /\ (forall t p,
          first_match [Scenario.model_profile (Some ["char.*"])] t = Some p
          <->
          exists before after,
            [Scenario.model_profile (Some ["char.*"])] = before ++ p :: after
            /\ declares t p = true
            /\ forall q, In q before -> declares t q = false)
    /\ (forall doc1 doc2 p1 p2,
          In doc1 [Scenario.charA_model; Scenario.charB_model] ->
          In doc2 [Scenario.charA_model; Scenario.charB_model] ->
          product_type_of doc1 = product_type_of doc2 ->
          PyDict.get (subset_id doc1) d = Some p1 ->
          PyDict.get (subset_id doc2) d = Some p2 ->
          p1 = p2)
    /\ (forall doc,
          In doc [Scenario.charA_model; Scenario.charB_model] ->
          (product_type_of doc = None
           \/ exists t,
                product_type_of doc = Some t
                /\ first_match [Scenario.model_profile (Some ["char.*"])] t
                   = None) ->
          PyDict.get (subset_id doc) d = None)
    /\ (forall k p,
          PyDict.get k d = Some p ->
          In p [Scenario.model_profile (Some ["char.*"])]
          /\ exists doc,
               In doc [Scenario.charA_model; Scenario.charB_model]
               /\ subset_id doc = k).
Proof.
  apply C4_first_matching_profile_per_type.
  - repeat constructor; simpl; intuition discriminate.
  - intros p [<-|[]]. split; eexists; reflexivity.
Defined.

(** C5: [_filter_build_profiles] drops exactly the profiles that lack a
    non-empty loader list, a non-empty product-type list or a non-empty
    representation-name list, or none of whose loaders is registered; it
    logs one warning per dropped profile and raises nothing; every profile
    it keeps carries its lower-cased product types and representation
    names. *)
Theorem C5_filter_build_profiles_exact :
  forall (Host : Type) (build_profiles : list Profile)
    (loaders_by_name : PyDict.t LoaderPlugin) (w : World Host),
    (forall p,
        excluded loaders_by_name p = true <->
        (loaders p = None \/ loaders p = Some [])
        \/ (forall n, In n (list_of (loaders p)) ->
                      PyDict.get n loaders_by_name = None)
        \/ (product_types p = None \/ product_types p = Some [])
        \/ (repre_names p = None \/ repre_names p = Some []))
    /\ (exists warnings,
          _filter_build_profiles build_profiles loaders_by_name w
          = (add_events warnings w,
             Ret (map with_lowered
                    (filter (fun p => negb (excluded loaders_by_name p))
                       build_profiles)))
          /\ warnings
             = map (fun p => Log Warning (exclusion_warning loaders_by_name p))
                 (filter (excluded loaders_by_name) build_profiles))
    /\ (forall p,
          product_types_lowered (with_lowered p)
            = Some (map Str.lower (list_of (product_types p)))
          /\ repre_names_lowered (with_lowered p)
            = Some (map Str.lower (list_of (repre_names p)))
          /\ loaders (with_lowered p) = loaders p
          /\ product_types (with_lowered p) = product_types p
          /\ repre_names (with_lowered p) = repre_names p
          /\ product_name_filters (with_lowered p) = product_name_filters p).
Proof.
  intros Host build_profiles loaders_by_name w. split; [|split].
  - intros p. unfold excluded.
    assert (T : forall (A : Type) (o : option (list A)),
               negb (truthy_list o) = true <-> o = None \/ o = Some []).
    { intros A [[|a l]|]; simpl; split; intros H; auto; try discriminate;
        destruct H; discriminate. }
    assert (E : negb (existsb (fun n => PyDict.contains n loaders_by_name)
                        (list_of (loaders p))) = true <->
                forall n, In n (list_of (loaders p)) ->
                          PyDict.get n loaders_by_name = None).
    { rewrite negb_true_iff. split.
      - intros H n I. destruct (PyDict.get n loaders_by_name) eqn:G; auto.
        assert (X : existsb (fun n => PyDict.contains n loaders_by_name)
                      (list_of (loaders p)) = true).
        { apply existsb_exists. exists n. split; auto.
          unfold PyDict.contains. now rewrite G. }
        congruence.
      - intros H. destruct (existsb _ _) eqn:X; auto.
        apply existsb_exists in X as [n [I C]].
        unfold PyDict.contains in C. rewrite (H n I) in C. discriminate. }
    rewrite !orb_true_iff, !T, E. tauto.
  - eexists. split; [apply filter_build_profiles_spec | reflexivity].
  - intros p. repeat split; reflexivity.
Qed.

(** C6: a name filter is tested with [re.match]: a product passes when at
    least one pattern matches a prefix of its name, the whole name need not
    match.  "charA_model" passes "char.*" and "char" but not "^prop". *)
Theorem C6_name_filters_match_from_start :
  (forall r s,
      Re.match_ r s = true <->
      exists p q, s = (p ++ q)%string /\ Re.fullmatch r p = true)
  /\ (forall rs name,
        name_passes rs name = true <->
        rs = [] \/ exists r, In r rs /\ Re.match_ r name = true)
  /\ (forall (Host : Type) (w : World Host),
        _prepare_profile_for_products [Scenario.charA_model]
          [Scenario.model_profile (Some ["char.*"])] w
        = (w, Ret [("p1", Scenario.model_profile (Some ["char.*"]))])
        /\ _prepare_profile_for_products [Scenario.charA_model]
             [Scenario.model_profile (Some ["^prop"])] w
           = (w, Ret [])
        /\ _prepare_profile_for_products [Scenario.charA_model]
             [Scenario.model_profile (Some ["^prop"; "char.*"])] w
           = (w, Ret [("p1", Scenario.model_profile
                               (Some ["^prop"; "char.*"]))])
        /\ _prepare_profile_for_products [Scenario.charA_model]
             [Scenario.model_profile (Some ["char"])] w
           = (w, Ret [("p1", Scenario.model_profile (Some ["char"]))]))
  /\ (exists r, Re.compile "char" = Re.Compiled r
                /\ Re.match_ r "charA_model" = true
                /\ Re.fullmatch r "charA_model" = false).
Proof.
  split; [|split; [|split]].
  - exact ReFacts.match_prefix.
  - intros rs name. rewrite name_passes_existsb. destruct rs as [|r0 rs].
    + split; auto.
    + rewrite existsb_exists. split.
      * intros [r H]. right. eauto.
      * intros [H|[r H]]; [discriminate | eauto].
  - intros Host w. repeat split; reflexivity.
  - eexists. repeat split; reflexivity.
Qed.

(** The claim C7 as stated fails: a profile whose name filter does not
    compile makes the build raise [re.error] although no two enabled
    loaders share a name. *)
Lemma C7_counterexample :
  snd (build_workfile Scenario.env_bad_filter (Scenario.world_with None))
  = Raise (exc ReError "*")
  /\ NoDup (map loader_name
              (filter enabled
                 (discover_loader_plugins Scenario.env_bad_filter))).
Proof.
  split; [reflexivity|].
  repeat constructor; simpl; intuition discriminate.
Qed.

(** C7, amended: [build_workfile] itself raises only [KeyError], for the
    first enabled loader whose name was already taken, right after the
    current folder was found and before anything else is queried or
    loaded; each stage that comes up empty (no current folder, no enabled
    loader, no presets for the task, both pools empty, no candidate
    folder) returns the empty container list without raising; and when
    the store answers by parent ids and every preset has a product-type
    list and name filters that compile, the duplicate loader name is the
    only exception the build can end with. *)
Theorem C7_duplicate_loader_is_the_only_raise :
  forall (Host Container : Type) (env : Env Host Container) (w : World Host),
    let project := get_current_project_name env in
    let path := get_current_asset_name env in
    let task := get_current_task_name env in
    let discovered := discover_loader_plugins env in
    let found := get_asset_by_name env project path in
    let lookup := Query (QAssetByName project path) in
    let run := build_workfile env w in
    (duplicated_loader discovered = None <->
     NoDup (map loader_name (filter enabled discovered)))
    /\ (forall n,
          duplicated_loader discovered = Some n ->
          exists before after,
            map loader_name (filter enabled discovered) = before ++ n :: after
            /\ In n before)
    /\ (found = None ->
        run = (add_events [lookup; Print (FolderNotFound path)] w, Ret []))
    /\ (forall asset n,
          found = Some asset -> duplicated_loader discovered = Some n ->
          run = (add_events [lookup] w,
                 Raise (exc KeyError ("Duplicated loader name " ++ n ++ "!"))))
    /\ (forall asset,
          found = Some asset -> filter enabled discovered = [] ->
          run = (add_events [lookup; Log Warning NoRegisteredLoaders] w,
                 Ret []))
    /\ (forall asset,
          found = Some asset -> duplicated_loader discovered = None ->
          filter enabled discovered <> [] ->
          (get_build_presets env task asset = None ->
           snd run = Ret []
           /\ events (fst run)
              = events w ++ [lookup; Log Warning (NoLoadingPreset task)])
          /\ (forall presets,
                get_build_presets env task asset = Some presets ->
                truthy_list (current_context presets) = false ->
                truthy_list (linked_assets presets) = false ->
                snd run = Ret []
                /\ events (fst run)
                   = events w
                     ++ [lookup; Log Warning (EmptyLoadingPreset task)])
          /\ (forall presets,
                get_build_presets env task asset = Some presets ->
                truthy_list (current_context presets) = false ->
                truthy_list (linked_assets presets) = true ->
                get_linked_assets env project asset = [] ->
                snd run = Ret []
                /\ events (fst run)
                   = events w
                     ++ [lookup;
                         Log Warning (NoPresetForContext task);
                         Query (QLinkedAssets project (asset_id asset));
                         Log Warning NoLinkedAssets]))
    /\ (store_ok env ->
        (forall asset presets,
            found = Some asset ->
            get_build_presets env task asset = Some presets ->
            presets_ok presets) ->
        (duplicated_loader discovered = None ->
         exists result, snd run = Ret result)
        /\ forall e,
             snd run = Raise e ->
             exists n,
               duplicated_loader discovered = Some n
               /\ e = exc KeyError ("Duplicated loader name " ++ n ++ "!")).
Proof.
  intros Host Container env w project path task discovered found lookup run.
  assert (N : duplicated_loader discovered = None <->
              NoDup (map loader_name (filter enabled discovered))).
  { unfold duplicated_loader. rewrite first_duplicate_none. split.
    - tauto.
    - intros H. split; [exact H | intros n _ []]. }
  assert (R : run
              = match found with
                | None =>
                    (add_events [lookup; Print (FolderNotFound path)] w,
                     Ret [])
                | Some asset =>
                    match duplicated_loader discovered with
                    | Some n =>
                        (add_events [lookup] w,
                         Raise (exc KeyError
                                  ("Duplicated loader name " ++ n ++ "!")))
                    | None =>
                        if negb (PyDict.truthy
                                   (PyDict.of_seq loader_name (fun x => x)
                                      (filter enabled discovered)))
                        then (add_events
                                [lookup; Log Warning NoRegisteredLoaders] w,
                              Ret [])
                        else build_for_task env asset
                               (PyDict.of_seq loader_name (fun x => x)
                                  (filter enabled discovered))
                               [] (add_events [lookup] w)
                    end
                end).
  { unfold run, build_workfile. cbv zeta. rewrite bind_query.
    fold project path found lookup discovered.
    destruct found as [asset|].
    - unfold bind at 1. rewrite collect_loaders_spec.
      destruct (duplicated_loader discovered); [reflexivity|].
      destruct (negb (PyDict.truthy _)); [|reflexivity].
      rewrite bind_log. unfold ret. now rewrite add_events_app.
    - rewrite bind_print. unfold ret. now rewrite add_events_app. }
  split; [exact N|]. split; [|split; [|split; [|split; [|split]]]].
  - intros n H. unfold duplicated_loader in H.
    apply first_duplicate_some in H as [before [after [E I]]]. eauto.
  - intros F. rewrite R, F. reflexivity.
  - intros asset n F D. rewrite R, F, D. reflexivity.
  - intros asset F E. rewrite R, F.
    assert (D : duplicated_loader discovered = None).
    { apply N. rewrite E. constructor. }
    rewrite D, E. reflexivity.
  - intros asset F D E. rewrite R, F, D.
    assert (T : negb (PyDict.truthy
                        (PyDict.of_seq loader_name (fun x => x)
                           (filter enabled discovered))) = false).
    { apply negb_false_iff.
      destruct (PyDict.truthy _) eqn:T; [reflexivity|].
      apply of_seq_truthy in T. contradiction. }
    rewrite T. unfold build_for_task. cbv zeta. fold task project.
    rewrite bind_assign.
    split; [|split].
    + intros G. rewrite G, bind_log. cbn. split; [reflexivity|].
      now rewrite <- app_assoc.
    + intros presets G C L. rewrite G, C, L. cbn [negb andb].
      rewrite bind_log. cbn. split; [reflexivity|].
      now rewrite <- app_assoc.
    + intros presets G C L A. rewrite G, C, L. cbn [negb andb].
      rewrite bind_log. cbv beta iota. rewrite bind_bind, bind_query, A.
      cbn. split; [reflexivity|]. now rewrite <- !app_assoc.
  - intros S P.
    assert (Y : duplicated_loader discovered = None ->
                exists result, snd run = Ret result).
    { intros D. rewrite R.
      destruct found as [asset|] eqn:F; [|cbn; eauto].
      rewrite D. destruct (negb (PyDict.truthy _)); [cbn; eauto|].
      destruct (build_for_task_ok Host Container env asset
                  (PyDict.of_seq loader_name (fun x => x)
                     (filter enabled discovered))
                  [] (add_events [lookup] w) S)
        as [w' [result [E _]]].
      - intros presets G. now apply (P asset).
      - rewrite E. cbn. eauto. }
    split; [exact Y|]. intros e H.
    destruct (duplicated_loader discovered) as [n|] eqn:D.
    + exists n. split; [reflexivity|].
      rewrite R in H. destruct found; [|discriminate].
      cbn [snd] in H. injection H as <-. reflexivity.
    + destruct (Y eq_refl) as [result E]. congruence.
Qed.

(** The last part of C7 at the build over products A and B: the store
    answers by parent ids, the presets are well formed and the build
    returns. *)
Lemma C7_witness :
  exists result,
    snd (build_workfile (Scenario.env_AB true) (Scenario.world_with None))
    = Ret result.
Proof.
  apply (proj2 (proj2 (proj2 (proj2 (proj2 (proj2
           (C7_duplicate_loader_is_the_only_raise
              Scenario.Host Scenario.Container (Scenario.env_AB true)
              (Scenario.world_with None)))))))).
  - split; [|split]; intros project ids x I;
      cbn [Scenario.env_AB Scenario.env_with get_subsets get_last_versions
           get_representations] in I.
    + apply filter_In in I as [_ I]. now apply mem_In.
    + apply in_map_iff in I as [[k v] [<- I]].
      apply filter_In in I as [I M]. apply mem_In in M. cbn [fst] in M.
      destruct I as [E|[E|[]]]; injection E as <- <-; exact M.
    + apply filter_In in I as [_ I]. now apply mem_In.
  - intros asset presets _ G. cbn in G. injection G as <-.
    intros p [<-|[<-|[]]]; split; eexists; reflexivity.
  - reflexivity.
Defined.

(** C8: with an empty folder list [_collect_last_version_repres] returns the
    empty mapping, raises nothing and queries nothing: the world is left as
    it was. *)
Theorem C8_collect_empty_folder_list :
  forall (Host Container : Type) (env : Env Host Container) (w : World Host),
    _collect_last_version_repres env [] w = (w, Ret PyDict.empty).
Proof. reflexivity. Qed.

(** C9: for a non-empty folder list [_collect_last_version_repres] asks the
    store exactly three times, whatever the answers and the outcome: once
    for the products of all folder ids, once for the last versions of all
    product ids, once for the representations of all last-version ids. *)
Theorem C9_collect_one_query_per_level :
  forall (Host Container : Type) (env : Env Host Container)
    (first : AssetDoc) (others : list AssetDoc) (w : World Host),
    let asset_docs := first :: others in
    let project := get_current_project_name env in
    let asset_ids :=
      PyDict.keys (PyDict.of_seq asset_id (fun d => d) asset_docs) in
    let subset_docs := get_subsets env project asset_ids in
    let subset_ids :=
      PyDict.keys (PyDict.of_seq subset_id (fun d => d) subset_docs) in
    let last_versions :=
      PyDict.values (get_last_versions env project subset_ids) in
    let version_ids :=
      PyDict.keys (PyDict.of_seq version_id (fun d => d) last_versions) in
    fst (_collect_last_version_repres env asset_docs w)
    = add_events
        [Query (QSubsets project asset_ids);
         Query (QLastVersions project subset_ids);
         Query (QRepresentations project version_ids)] w
    /\ (forall i, In i asset_ids <-> exists d, In d asset_docs /\ asset_id d = i)
    /\ (forall i, In i subset_ids <-> exists d, In d subset_docs /\ subset_id d = i)
    /\ (forall i, In i version_ids <->
                  exists d, In d last_versions /\ version_id d = i)
    /\ NoDup asset_ids /\ NoDup subset_ids /\ NoDup version_ids.
Proof.
  intros Host Container env first others w asset_docs project asset_ids
    subset_docs subset_ids last_versions version_ids.
  split; [|split; [|split; [|split; [|split; [|split]]]]].
  - subst version_ids last_versions subset_ids subset_docs asset_ids project
      asset_docs.
    unfold _collect_last_version_repres. cbv beta iota zeta.
    rewrite bind_query. cbv beta. rewrite bind_query. cbv beta.
    rewrite bind_query. cbv beta.
    rewrite silent_run
      by (apply silent_for; intros; apply silent_file_repre).
    simpl fst. rewrite !add_events_app. reflexivity.
  - intros i. apply PyDictFacts.keys_of_seq.
  - intros i. apply PyDictFacts.keys_of_seq.
  - intros i. apply PyDictFacts.keys_of_seq.
  - apply PyDictFacts.wf_of_seq.
  - apply PyDictFacts.wf_of_seq.
  - apply PyDictFacts.wf_of_seq.
Qed.

(** C10: whatever the preset-derived product order repeats, no
    representation list is enqueued twice and no product is enqueued
    twice; the guard compares lists by value, so a product ordered after
    another one whose list is equal is not enqueued and gets no load
    attempt and no container. *)
Theorem C10_representation_lists_enqueued_once :
  (forall (product_ids_ordered : list string)
     (repres_by_product_id : PyDict.t (list RepreDoc)),
      PyDict.wf repres_by_product_id ->
      let ordered :=
        order_representations product_ids_ordered repres_by_product_id in
      snd ordered = map snd (fst ordered)
      /\ NoDup (snd ordered)
      /\ NoDup (map fst (fst ordered))
      /\ (forall p r,
            In (p, r) (fst ordered) ->
            PyDict.get p repres_by_product_id = Some r
            /\ In p product_ids_ordered))
  /\ (forall (xs ys : list RepreDoc) (seen : list (list RepreDoc)),
        (repres_eqb xs ys = true <-> xs = ys)
        /\ (existsb (repres_eqb xs) seen = true <-> In xs seen))
  /\ (forall (earlier later : list string) (p1 p2 : string)
        (r : list RepreDoc) (repres_by_product_id : PyDict.t (list RepreDoc)),
        PyDict.wf repres_by_product_id ->
        In p1 earlier -> ~ In p2 earlier ->
        PyDict.get p1 repres_by_product_id = Some r ->
        PyDict.get p2 repres_by_product_id = Some r ->
        ~ In p2
            (map fst
               (fst (order_representations (earlier ++ p2 :: later)
                       repres_by_product_id))))
  /\ (let run :=
        _load_containers (Scenario.env_loading Scenario.load_always)
          [("p1", [Scenario.abc]); ("p2", [Scenario.abc])]
          [("p1", Scenario.charA_model); ("p2", Scenario.charB_model)]
          [("p1", Scenario.model_profile None);
           ("p2", Scenario.model_profile None)]
          Scenario.registry
          (Scenario.world_with (Some Scenario.repeated_presets)) in
      ordered_ids (presets_sequence Scenario.repeated_presets)
        [("p1", Scenario.charA_model); ("p2", Scenario.charB_model)]
      = ["p1"; "p2"; "p1"; "p2"]
      /\ snd run = Ret [("LoaderX", "r_abc")]
      /\ load_calls (events (fst run))
         = [LoadCall "LoaderX" "r_abc" "charA_model"]).
Proof.
  split; [|split; [|split]].
  - intros ids d W ordered.
    destruct (order_representations_inv d ids) as [H1 [H2 H3]].
    split; [exact H1|]. split; [exact H2|]. split.
    + now apply order_representations_ids_nodup.
    + intros p r I. apply H3 in I as [I J]. split; [|exact J].
      now apply PyDictFacts.In_get.
  - intros xs ys seen. split; [apply repres_eqb_eq | apply repres_in].
  - intros earlier later p1 p2 r d W I1 N2 G1 G2.
    now apply order_skips_equal_later with (p1 := p1) (r := r).
  - repeat split; reflexivity.
Qed.

(** C10 at two products that share one representation list. *)
Lemma C10_witness :
  ~ In "p2"
      (map fst
         (fst (order_representations (["p1"] ++ "p2" :: ["p1"; "p2"])
                 [("p1", [Scenario.abc]); ("p2", [Scenario.abc])]))).
Proof.
  apply (proj1 (proj2 (proj2 C10_representation_lists_enqueued_once)))
    with (p1 := "p1") (r := [Scenario.abc]).
  - repeat constructor; simpl; intuition discriminate.
  - simpl. tauto.
  - simpl. intuition discriminate.
  - reflexivity.
  - reflexivity.
Defined.

(** * Further properties

    Properties of the single functions that the claims above do not
    state. *)

(** ** [map_products_by_type] (lines 50-62) *)

Lemma keys_append_to_eq (V : Type) (k : string) (x : V)
  (d : PyDict.t (list V)) :
  PyDict.keys (append_to k x d)
  = if Str.mem k (PyDict.keys d) then PyDict.keys d
    else PyDict.keys d ++ [k].
Proof.
  unfold append_to. rewrite <- contains_mem.
  destruct (PyDict.get k d) eqn:E; rewrite PyDictFacts.keys_set; reflexivity.
Qed.

Lemma group_keys_loop (docs : list SubsetDoc) :
  forall d : PyDict.t (list SubsetDoc),
    PyDict.keys
      (loop docs
         (fun subset_doc products_by_type =>
            match product_type_of subset_doc with
            | None => Next products_by_type
            | Some product_type =>
                Next (append_to product_type subset_doc products_by_type)
            end) d)
    = fold_left
        (fun seen x => if Str.mem x seen then seen else seen ++ [x])
        (types_of docs) (PyDict.keys d).
Proof.
  induction docs as [|doc r IH]; intros d; [reflexivity|].
  cbn [loop]. unfold types_of. cbn [flat_map]. fold (types_of r).
  rewrite fold_left_app.
  destruct (product_type_of doc) as [t|]; cbn [option_list fold_left].
  - rewrite IH, keys_append_to_eq. reflexivity.
  - apply IH.
Qed.

Lemma group_of_Some (t : string) (l docs : list SubsetDoc) :
  group_of t docs = Some l <-> l = filter (has_type t) docs /\ l <> [].
Proof.
  unfold group_of. destruct (filter (has_type t) docs) as [|x r].
  - split; [discriminate|]. intros [-> N]. now contradiction N.
  - split.
    + intros E. injection E as <-. split; [reflexivity|discriminate].
    + intros [-> _]. reflexivity.
Qed.

Lemma group_types (docs : list SubsetDoc) (t : string) (l : list SubsetDoc) :
  In (t, l) (map_products_by_type docs) ->
  exists doc, In doc docs /\ product_type_of doc = Some t.
Proof.
  intros I. destruct (map_products_by_type_spec docs) as [W G].
  apply PyDictFacts.In_get in I; [|assumption].
  rewrite G in I. apply group_of_Some in I. destruct I as [E N].
  destruct l as [|doc r]; [now contradiction N|].
  assert (D : In doc (filter (has_type t) docs)) by (rewrite <- E; now left).
  apply filter_In in D. destruct D as [D T].
  exists doc. split; [assumption|]. now apply has_type_iff.
Qed.

(** X1: [map_products_by_type] partitions the products that have a type:
    the keys are the product types in order of first occurrence, without
    repetition; the group of a type holds exactly the products of this type,
    in input order, and is never empty; a product without "family" and
    without a first entry in "families" is in no group. *)
Theorem map_products_by_type_groups (docs : list SubsetDoc) :
  let groups := map_products_by_type docs in
  PyDict.keys groups = first_occurrences (types_of docs)
  /\ NoDup (PyDict.keys groups)
  /\ (forall t l,
        In (t, l) groups <-> l = filter (has_type t) docs /\ l <> [])
  /\ (forall doc t,
        In doc docs -> product_type_of doc = Some t ->
        exists l, PyDict.get t groups = Some l /\ In doc l)
  /\ (forall doc,
        product_type_of doc = None ->
        forall t l, In (t, l) groups -> ~ In doc l).
Proof.
  cbv zeta. destruct (map_products_by_type_spec docs) as [W G].
  assert (A : forall t l,
             In (t, l) (map_products_by_type docs)
             <-> l = filter (has_type t) docs /\ l <> []).
  { intros t l. rewrite <- group_of_Some, <- G. split.
    - now apply PyDictFacts.In_get.
    - apply PyDictFacts.get_Some_In. }
  split; [|split; [exact W|split; [exact A|split]]].
  - unfold map_products_by_type, first_occurrences.
    now rewrite group_keys_loop.
  - intros doc t I T.
    assert (F : In doc (filter (has_type t) docs)).
    { apply filter_In. split; [assumption|]. now apply has_type_iff. }
    exists (filter (has_type t) docs). split; [|assumption].
    rewrite G. apply group_of_Some. split; [reflexivity|].
    intros E. rewrite E in F. exact F.
  - intros doc T t l I D. apply A in I. destruct I as [-> _].
    apply filter_In in D. destruct D as [_ D].
    apply has_type_iff in D. congruence.
Qed.

(** ** Loader discovery (lines 125-134) *)

Lemma set_fresh (V : Type) (k : string) (v : V) (d : PyDict.t V) :
  ~ In k (PyDict.keys d) -> PyDict.set k v d = d ++ [(k, v)].
Proof.
  induction d as [|[k' v'] r IH]; intros N; [reflexivity|].
  cbn [PyDict.set app]. destruct (String.eqb_spec k k') as [->|D].
  - contradiction N. now left.
  - rewrite IH; [reflexivity|]. intros I. apply N. now right.
Qed.

Lemma of_seq_fold_distinct (V X : Type) (key : X -> string) (val : X -> V)
  (xs : list X) :
  forall d : PyDict.t V,
    NoDup (PyDict.keys d ++ map key xs) ->
    fold_left (fun d x => PyDict.set (key x) (val x) d) xs d
    = d ++ map (fun x => (key x, val x)) xs.
Proof.
  induction xs as [|x r IH]; intros d N; cbn [fold_left map].
  - now rewrite app_nil_r.
  - cbn [map] in N.
    assert (F : ~ In (key x) (PyDict.keys d)).
    { intros I. apply NoDup_remove_2 in N. apply N, in_or_app. now left. }
    rewrite set_fresh by assumption. rewrite IH.
    + now rewrite <- app_assoc.
    + unfold PyDict.keys in *. rewrite map_app, <- app_assoc. exact N.
Qed.

Lemma of_seq_distinct (V X : Type) (key : X -> string) (val : X -> V)
  (xs : list X) :
  NoDup (map key xs) ->
  PyDict.of_seq key val xs = map (fun x => (key x, val x)) xs.
Proof.
  intros N. unfold PyDict.of_seq.
  now rewrite of_seq_fold_distinct.
Qed.

(** X2: when the enabled loaders have distinct names, discovery raises
    nothing and the registry lists exactly the enabled loaders, each under
    its own name and in discovery order; a lookup by the name of a
    discovered loader returns this loader exactly when it is enabled, so a
    disabled loader is never registered, whatever its name. *)
Theorem collect_loaders_registry (Host : Type)
  (discovered : list LoaderPlugin) (w : World Host) :
  NoDup (map loader_name (filter enabled discovered)) ->
  collect_loaders discovered w
  = (w, Ret (registry_of (filter enabled discovered)))
  /\ forall loader,
       In loader discovered ->
       (PyDict.get (loader_name loader)
          (registry_of (filter enabled discovered)) = Some loader
        <-> enabled loader = true).
Proof.
  intros N. split.
  - rewrite collect_loaders_spec. unfold duplicated_loader.
    assert (E : first_duplicate []
                  (map loader_name (filter enabled discovered)) = None).
    { apply first_duplicate_none. split; [assumption|]. intros n _ []. }
    rewrite E, of_seq_distinct by assumption. reflexivity.
  - intros loader I.
    assert (W : PyDict.wf (registry_of (filter enabled discovered))).
    { unfold PyDict.wf, PyDict.keys, registry_of. rewrite map_map.
      exact N. }
    split.
    + intros G. apply PyDictFacts.get_Some_In in G.
      unfold registry_of in G. apply in_map_iff in G.
      destruct G as [x [E F]]. injection E as _ ->.
      apply filter_In in F. tauto.
    + intros E. apply PyDictFacts.In_get; [assumption|].
      unfold registry_of. apply in_map_iff. exists loader.
      split; [reflexivity|]. apply filter_In. tauto.
Qed.

Lemma collect_loaders_registry_witness :
  collect_loaders
    [Scenario.LoaderX; Scenario.LoaderX_disabled; Scenario.LoaderY]
    (Scenario.world_with None)
  = (Scenario.world_with None,
     Ret (registry_of
            (filter enabled
               [Scenario.LoaderX; Scenario.LoaderX_disabled;
                Scenario.LoaderY])))
  /\ forall loader,
       In loader
         [Scenario.LoaderX; Scenario.LoaderX_disabled; Scenario.LoaderY] ->
       (PyDict.get (loader_name loader)
          (registry_of
             (filter enabled
                [Scenario.LoaderX; Scenario.LoaderX_disabled;
                 Scenario.LoaderY])) = Some loader
        <-> enabled loader = true).
Proof.
  apply collect_loaders_registry.
  repeat constructor; simpl; intuition discriminate.
Defined.

(** ** [_filter_build_profiles] (lines 277-350) *)

Lemma excluded_mono (lbn lbn' : PyDict.t LoaderPlugin) (p : Profile) :
  (forall n, PyDict.contains n lbn = true -> PyDict.contains n lbn' = true) ->
  excluded lbn p = false -> excluded lbn' (with_lowered p) = false.
Proof.
  intros H. unfold excluded.
  cbn [with_lowered loaders product_types repre_names].
  intros E. apply orb_false_iff in E. destruct E as [E E4].
  apply orb_false_iff in E. destruct E as [E E3].
  apply orb_false_iff in E. destruct E as [E1 E2].
  rewrite E1, E3, E4. cbn [orb]. rewrite !orb_false_r.
  apply negb_false_iff in E2. apply negb_false_iff.
  apply existsb_exists in E2. destruct E2 as [n [I C]].
  apply existsb_exists. exists n. auto.
Qed.

Lemma kept_stay (lbn' : PyDict.t LoaderPlugin) (l : list Profile) :
  (forall p, In p l -> excluded lbn' (with_lowered p) = false) ->
  filter (excluded lbn') (map with_lowered l) = []
  /\ map with_lowered
       (filter (fun p => negb (excluded lbn' p)) (map with_lowered l))
     = map with_lowered l.
Proof.
  induction l as [|p r IH]; intros H; [split; reflexivity|].
  cbn [map filter]. rewrite (H p (or_introl eq_refl)). cbn [negb map].
  destruct IH as [A B]; [intros q I; apply H; now right|].
  rewrite A, B. split; reflexivity.
Qed.

(** X3: validation is stable: the profiles that [_filter_build_profiles]
    returns pass a second validation unchanged and without any warning,
    against the same loaders or against any registry that has at least
    their names.  The build validates the linked-folder pool once per
    folder. *)
Theorem filter_build_profiles_stable (Host : Type)
  (build_profiles : list Profile) (lbn lbn' : PyDict.t LoaderPlugin)
  (w : World Host) :
  (forall n, PyDict.contains n lbn = true -> PyDict.contains n lbn' = true) ->
  exists w' valid_profiles,
    _filter_build_profiles build_profiles lbn w = (w', Ret valid_profiles)
    /\ _filter_build_profiles valid_profiles lbn' w'
       = (w', Ret valid_profiles).
Proof.
  intros H. rewrite filter_build_profiles_spec.
  eexists. eexists. split; [reflexivity|].
  rewrite filter_build_profiles_spec.
  destruct (kept_stay lbn'
              (filter (fun p => negb (excluded lbn p)) build_profiles))
    as [A B].
  { intros p I. apply filter_In in I. destruct I as [_ I].
    apply negb_true_iff in I. now apply excluded_mono with (lbn := lbn). }
  rewrite A, B. cbn [map]. now rewrite add_events_nil.
Qed.

Lemma filter_build_profiles_stable_witness :
  exists w' valid_profiles,
    _filter_build_profiles
      [Scenario.rig_profile; Scenario.rig_no_loaders;
       Scenario.plain_model_profile]
      [("LoaderX", Scenario.LoaderX)] (Scenario.world_with None)
    = (w', Ret valid_profiles)
    /\ _filter_build_profiles valid_profiles Scenario.registry w'
       = (w', Ret valid_profiles).
Proof.
  apply filter_build_profiles_stable.
  intros n. unfold PyDict.contains. cbn [PyDict.get Scenario.registry].
  destruct (String.eqb n "LoaderX"); [reflexivity|discriminate].
Defined.

(** ** [_prepare_profile_for_products] (lines 352-406) *)

Lemma for_ext (Host X S : Type) (xs : list X)
  (f g : X -> S -> M Host (Ctl S)) :
  (forall x s w, In x xs -> f x s w = g x s w) ->
  forall s w, for_ xs f s w = for_ xs g s w.
Proof.
  induction xs as [|x r IH]; intros H s w; [reflexivity|].
  cbn [for_]. unfold bind. rewrite (H x s w (or_introl eq_refl)).
  destruct (g x s w) as [w' [[s'|s']|e]]; try reflexivity.
  apply IH. intros y s0 w0 I. apply H. now right.
Qed.

Lemma try_profile_declared (Host : Type) (t : string) (l : list SubsetDoc)
  (p : Profile) (d : PyDict.t Profile) (w : World Host) :
  declares t p = true ->
  match try_profile (Str.lower t) l p d w with
  | (_, Ret (Next _)) => False
  | _ => True
  end.
Proof.
  unfold declares, try_profile. intros D.
  destruct (product_types_lowered p) as [lowered|]; [|discriminate].
  cbn [field list_of] in *. rewrite bind_ret, D. cbn [negb]. unfold bind.
  destruct (truthy_list (product_name_filters p)).
  - destruct (compile_filters _ w) as [w' [rs|e]]; exact I.
  - exact I.
Qed.

Lemma scan_stops (Host : Type) (t : string) (l : list SubsetDoc)
  (before : list Profile) (p : Profile) (rest1 rest2 : list Profile) :
  declares t p = true ->
  forall (d : PyDict.t Profile) (w : World Host),
    for_ (before ++ p :: rest1) (try_profile (Str.lower t) l) d w
    = for_ (before ++ p :: rest2) (try_profile (Str.lower t) l) d w.
Proof.
  intros D. induction before as [|q r IH]; intros d w; cbn [app for_];
    unfold bind.
  - pose proof (try_profile_declared Host t l p d w D) as N.
    destruct (try_profile (Str.lower t) l p d w) as [w' [[s|s]|e]];
      [contradiction|reflexivity|reflexivity].
  - destruct (try_profile (Str.lower t) l q d w) as [w' [[s|s]|e]];
      [apply IH|reflexivity|reflexivity].
Qed.

(** X4: the scan of the profiles stops at the first profile that declares
    the product type.  When one profile declares every product type that
    occurs, nothing that follows this profile in the list is read: the
    result is the same whatever follows, be it profiles without the
    lower-cased keys or with name filters that do not compile. *)
Theorem prepare_ignores_later_profiles (Host : Type)
  (subset_docs : list SubsetDoc) (before : list Profile) (p : Profile)
  (rest1 rest2 : list Profile) (w : World Host) :
  (forall doc t,
      In doc subset_docs -> product_type_of doc = Some t ->
      declares t p = true) ->
  _prepare_profile_for_products subset_docs (before ++ p :: rest1) w
  = _prepare_profile_for_products subset_docs (before ++ p :: rest2) w.
Proof.
  intros H. unfold _prepare_profile_for_products, PyDict.items.
  apply for_ext. intros [t l] d w' I.
  destruct (group_types subset_docs t l I) as [doc [J T]].
  unfold resolve_type, bind.
  rewrite (scan_stops Host t l before p rest1 rest2 (H doc t J T)).
  reflexivity.
Qed.

Lemma prepare_ignores_later_profiles_witness :
  _prepare_profile_for_products
    [Scenario.charA_model; Scenario.charB_model]
    ([] ++ Scenario.model_profile None
        :: [Scenario.model_profile (Some ["*"])])
    (Scenario.world_with None)
  = _prepare_profile_for_products
      [Scenario.charA_model; Scenario.charB_model]
      ([] ++ Scenario.model_profile None :: [Scenario.rig_profile])
      (Scenario.world_with None).
Proof.
  apply prepare_ignores_later_profiles.
  intros doc t [<-|[<-|[]]] E; injection E as <-; reflexivity.
Defined.

Lemma groups_nonempty (docs : list SubsetDoc) :
  map_products_by_type docs = []
  <-> existsb (fun doc => is_some (product_type_of doc)) docs = false.
Proof.
  destruct (map_products_by_type_spec docs) as [W G]. split.
  - intros E. apply not_true_is_false. intros X.
    apply existsb_exists in X. destruct X as [doc [I T]].
    destruct (product_type_of doc) as [t|] eqn:P; [|discriminate].
    specialize (G t). rewrite E in G. cbn in G. symmetry in G.
    unfold group_of in G.
    assert (F : In doc (filter (has_type t) docs)).
    { apply filter_In. split; [assumption|]. now apply has_type_iff. }
    destruct (filter (has_type t) docs); [exact F|discriminate].
  - intros E. destruct (map_products_by_type docs) as [|[t l] r] eqn:M;
      [reflexivity|].
    destruct (group_types docs t l) as [doc [I T]];
      [rewrite M; now left|].
    assert (X : existsb (fun doc => is_some (product_type_of doc)) docs
                = true).
    { apply existsb_exists. exists doc. rewrite T. auto. }
    congruence.
Qed.

(** X5: a profile that did not go through validation has no
    "product_types_lowered" key.  With such a profile first in the list,
    profile resolution raises [KeyError] for this key as soon as one
    product has a type, and leaves the world as it was; when no product
    has a type the profiles are not read at all and the result is the
    empty dictionary. *)
Theorem prepare_unvalidated_profile (Host : Type)
  (subset_docs : list SubsetDoc) (p : Profile) (rest : list Profile)
  (w : World Host) :
  product_types_lowered p = None ->
  _prepare_profile_for_products subset_docs (p :: rest) w
  = (w,
     if existsb (fun doc => is_some (product_type_of doc)) subset_docs
     then Raise (exc KeyError "product_types_lowered")
     else Ret PyDict.empty).
Proof.
  intros L. unfold _prepare_profile_for_products, PyDict.items.
  pose proof (groups_nonempty subset_docs) as G.
  destruct (map_products_by_type subset_docs) as [|[t l] r].
  - rewrite (proj1 G eq_refl). reflexivity.
  - destruct (existsb _ subset_docs).
    + cbn [for_]. unfold bind at 1. unfold resolve_type, bind at 1.
      cbn [for_]. unfold bind at 1. unfold try_profile. rewrite L.
      reflexivity.
    + destruct G as [_ G]. discriminate (G eq_refl).
Qed.

Lemma prepare_unvalidated_profile_witness :
  _prepare_profile_for_products [Scenario.charA_model]
    (Scenario.plain_model_profile :: []) (Scenario.world_with None)
  = (Scenario.world_with None,
     if existsb (fun doc => is_some (product_type_of doc))
          [Scenario.charA_model]
     then Raise (exc KeyError "product_types_lowered")
     else Ret PyDict.empty).
Proof.
  apply prepare_unvalidated_profile. reflexivity.
Defined.

Lemma compile_filters_invalid (Host : Type) (good : list string)
  (bad : string) (more : list string) (rs : list Re.regex) :
  compile_all good = Some rs ->
  Re.compile bad = Re.Invalid ->
  forall (acc : list Re.regex) (w : World Host),
    for_ (good ++ bad :: more)
      (fun regex _profile_regexes =>
         match Re.compile regex with
         | Re.Compiled r => ret (Next (_profile_regexes ++ [r]))
         | Re.Invalid => raise (exc ReError regex)
         | Re.Unsupported => raise (exc UnmodelledPattern regex)
         end)
      acc w
    = (w, Raise (exc ReError bad)).
Proof.
  intros C B. revert rs C.
  induction good as [|g r IH]; intros rs C acc w; cbn [app for_];
    unfold bind.
  - rewrite B. reflexivity.
  - cbn [compile_all] in C. destruct (Re.compile g) as [x| |];
      try discriminate.
    destruct (compile_all r) as [xs|]; [|discriminate].
    unfold ret at 1. now apply IH with (rs := xs).
Qed.

(** X6: a name filter that [re.compile] rejects makes profile resolution
    raise [re.error] for this pattern, the first one of the list that does
    not compile, whenever the profile is reached: here it declares every
    product type that occurs and at least one product has a type.  No
    product name needs to be tested for that, and the world is left as it
    was. *)
Theorem prepare_invalid_name_filter (Host : Type)
  (subset_docs : list SubsetDoc) (p : Profile) (rest : list Profile)
  (good : list string) (bad : string) (more : list string)
  (rs : list Re.regex) (w : World Host) :
  (forall doc t,
      In doc subset_docs -> product_type_of doc = Some t ->
      declares t p = true) ->
  existsb (fun doc => is_some (product_type_of doc)) subset_docs = true ->
  product_name_filters p = Some (good ++ bad :: more) ->
  compile_all good = Some rs ->
  Re.compile bad = Re.Invalid ->
  _prepare_profile_for_products subset_docs (p :: rest) w
  = (w, Raise (exc ReError bad)).
Proof.
  intros H T F C B. unfold _prepare_profile_for_products, PyDict.items.
  pose proof (groups_nonempty subset_docs) as G.
  pose proof (group_types subset_docs) as GT.
  destruct (map_products_by_type subset_docs) as [|[t l] r].
  - rewrite (proj1 G eq_refl) in T. discriminate.
  - destruct (GT t l (or_introl eq_refl)) as [doc [I P]].
    pose proof (H doc t I P) as D. unfold declares in D.
    cbn [for_]. unfold bind at 1. unfold resolve_type, bind at 1.
    cbn [for_]. unfold bind at 1. unfold try_profile.
    destruct (product_types_lowered p) as [lowered|]; [|discriminate].
    cbn [field list_of] in *. rewrite bind_ret, D. cbn [negb].
    unfold bind at 1. rewrite F.
    replace (truthy_list (Some (good ++ bad :: more))) with true
      by (destruct good; reflexivity).
    cbn [list_of]. unfold compile_filters.
    rewrite compile_filters_invalid with (rs := rs) by assumption.
    reflexivity.
Qed.

Lemma prepare_invalid_name_filter_witness :
  _prepare_profile_for_products [Scenario.charA_model]
    (Scenario.model_profile (Some ["char.*"; "*"; "("]) :: [])
    (Scenario.world_with None)
  = (Scenario.world_with None, Raise (exc ReError "*")).
Proof.
  eapply (prepare_invalid_name_filter Scenario.Host [Scenario.charA_model]
            (Scenario.model_profile (Some ["char.*"; "*"; "("])) []
            ["char.*"] "*" ["("]).
  - intros doc t [<-|[]] E. injection E as <-. reflexivity.
  - reflexivity.
  - reflexivity.
  - reflexivity.
  - reflexivity.
Defined.

(** ** Valid representations (lines 469-479) *)

Lemma get_app_fresh (V : Type) (k : string) (v : V) (d : PyDict.t V) :
  ~ In k (PyDict.keys d) -> PyDict.get k (d ++ [(k, v)]) = Some v.
Proof.
  induction d as [|[k' v'] r IH]; intros N; cbn [app PyDict.get].
  - now rewrite String.eqb_refl.
  - destruct (String.eqb_spec k k') as [->|D].
    + contradiction N. now left.
    + apply IH. intros I. apply N. now right.
Qed.

Lemma set_app_fresh (V : Type) (k : string) (v v' : V) (d : PyDict.t V) :
  ~ In k (PyDict.keys d) ->
  PyDict.set k v' (d ++ [(k, v)]) = d ++ [(k, v')].
Proof.
  induction d as [|[k0 v0] r IH]; intros N; cbn [app PyDict.set].
  - now rewrite String.eqb_refl.
  - destruct (String.eqb_spec k k0) as [->|D].
    + contradiction N. now left.
    + rewrite IH; [reflexivity|]. intros I. apply N. now right.
Qed.

Lemma append_to_open (V : Type) (k : string) (x : V) (l : list V)
  (d : PyDict.t (list V)) :
  ~ In k (PyDict.keys d) ->
  append_to k x (d ++ [(k, l)]) = d ++ [(k, l ++ [x])].
Proof.
  intros N. unfold append_to. rewrite get_app_fresh by assumption.
  now apply set_app_fresh.
Qed.

Lemma append_to_fresh (V : Type) (k : string) (x : V)
  (d : PyDict.t (list V)) :
  ~ In k (PyDict.keys d) -> append_to k x d = d ++ [(k, [x])].
Proof.
  intros N. unfold append_to.
  replace (PyDict.get k d) with (@None (list V))
    by (symmetry; now apply PyDictFacts.get_None_keys).
  now apply set_fresh.
Qed.

Lemma wanted_loop_open (pid : string) (names : list string)
  (repres : list RepreDoc) :
  forall (acc : PyDict.t (list RepreDoc)) (l : list RepreDoc),
    ~ In pid (PyDict.keys acc) ->
    loop repres
      (fun repre valid_repres_by_product_id =>
         let repre_name_low := Str.lower (repre_name repre) in
         if Str.mem repre_name_low names
         then Next (append_to pid repre valid_repres_by_product_id)
         else Next valid_repres_by_product_id)
      (acc ++ [(pid, l)])
    = acc ++ [(pid,
               l ++ filter
                      (fun repre =>
                         Str.mem (Str.lower (repre_name repre)) names)
                      repres)].
Proof.
  induction repres as [|x r IH]; intros acc l N; cbn [loop filter].
  - now rewrite app_nil_r.
  - cbv zeta. destruct (Str.mem (Str.lower (repre_name x)) names).
    + rewrite append_to_open by assumption. rewrite IH by assumption.
      now rewrite <- app_assoc.
    + now apply IH.
Qed.

Lemma wanted_loop (pid : string) (names : list string)
  (repres : list RepreDoc) :
  forall acc : PyDict.t (list RepreDoc),
    ~ In pid (PyDict.keys acc) ->
    loop repres
      (fun repre valid_repres_by_product_id =>
         let repre_name_low := Str.lower (repre_name repre) in
         if Str.mem repre_name_low names
         then Next (append_to pid repre valid_repres_by_product_id)
         else Next valid_repres_by_product_id)
      acc
    = acc ++ match filter
                     (fun repre =>
                        Str.mem (Str.lower (repre_name repre)) names)
                     repres with
             | [] => []
             | l => [(pid, l)]
             end.
Proof.
  induction repres as [|x r IH]; intros acc N; cbn [loop filter].
  - now rewrite app_nil_r.
  - cbv zeta. destruct (Str.mem (Str.lower (repre_name x)) names).
    + rewrite append_to_fresh by assumption.
      rewrite wanted_loop_open by assumption. reflexivity.
    + now apply IH.
Qed.

Lemma valid_repres_keys (d : PyDict.t Profile) (vbp : PyDict.t VersionDoc)
  (rbv : PyDict.t (list RepreDoc)) (k : string) :
  In k (PyDict.keys (valid_repres d vbp rbv)) -> In k (PyDict.keys d).
Proof.
  unfold valid_repres, PyDict.keys. intros I.
  apply in_map_iff in I. destruct I as [[k' l] [<- I]].
  apply in_flat_map in I. destruct I as [[pid p] [I J]]. cbn [fst snd] in J.
  destruct (wanted_repres p (repres_of_product vbp rbv pid)); [destruct J|].
  destruct J as [J|[]]. injection J as <- _.
  apply in_map_iff. exists (pid, p). auto.
Qed.

Lemma collect_valid_repres_loop (Host : Type) (vbp : PyDict.t VersionDoc)
  (rbv : PyDict.t (list RepreDoc)) (w : World Host)
  (items : list (string * Profile)) :
  NoDup (map fst items) ->
  (forall pid profile,
      In (pid, profile) items ->
      (exists ns, repre_names_lowered profile = Some ns)
      /\ exists v, PyDict.get pid vbp = Some v
                   /\ exists r, PyDict.get (version_id v) rbv = Some r) ->
  forall acc : PyDict.t (list RepreDoc),
    (forall k, In k (PyDict.keys acc) -> ~ In k (map fst items)) ->
    for_ items
      (fun '(product_id, profile) valid_repres_by_product_id =>
         bind (field (repre_names_lowered profile) "repre_names_lowered")
           (fun profile_repre_names =>
         bind (subscript vbp product_id) (fun version_doc =>
         let version_id := version_id version_doc in
         bind (subscript rbv version_id) (fun repres =>
         ret (Next
           (loop repres
              (fun repre valid_repres_by_product_id =>
                 let repre_name_low := Str.lower (repre_name repre) in
                 if Str.mem repre_name_low profile_repre_names
                 then Next (append_to product_id repre
                              valid_repres_by_product_id)
                 else Next valid_repres_by_product_id)
              valid_repres_by_product_id))))))
      acc w
    = (w, Ret (acc ++ valid_repres items vbp rbv)).
Proof.
  induction items as [|[pid p] r IH]; intros N H acc F.
  - cbn. now rewrite app_nil_r.
  - cbn [for_]. unfold bind at 1.
    destruct (H pid p (or_introl eq_refl)) as [[ns E] [v [V [rs R]]]].
    rewrite E. cbn [field]. rewrite bind_ret.
    unfold subscript at 1. rewrite V, bind_ret. cbv zeta.
    unfold subscript at 1. rewrite R, bind_ret. unfold ret at 1.
    cbn [map fst] in N. apply NoDup_cons_iff in N. destruct N as [N1 N2].
    rewrite wanted_loop.
    + rewrite IH.
      * unfold valid_repres. cbn [flat_map fst snd].
        unfold repres_of_product at 2. rewrite V, R.
        unfold wanted_repres at 2. rewrite E. cbn [list_of].
        now rewrite <- app_assoc.
      * assumption.
      * intros pid' p' I. apply H. now right.
      * intros k I J. unfold PyDict.keys in I. rewrite map_app in I.
        apply in_app_or in I. destruct I as [I|I].
        -- apply (F k I). now right.
        -- destruct (filter _ rs); [destruct I|].
           destruct I as [<-|[]]. contradiction.
    + intros I. apply (F pid I). now left.
Qed.

(** X7: the valid representations of a folder.  When the resolved profiles
    are validated ones and every resolved product has its last version and
    representation list, the loop of lines 469-479 returns, leaves the
    world as it was, and yields, in the order of the resolved profiles,
    each product together with those of its representations whose
    lower-cased name is among the lower-cased names of its profile, in
    store order; a product none of whose representations is wanted has no
    entry at all. *)
Theorem collect_valid_repres_spec (Host : Type)
  (profiles_by_product_id : PyDict.t Profile)
  (version_by_product_id : PyDict.t VersionDoc)
  (repres_by_version_id : PyDict.t (list RepreDoc)) (w : World Host) :
  PyDict.wf profiles_by_product_id ->
  (forall product_id profile,
      In (product_id, profile) profiles_by_product_id ->
      (exists names, repre_names_lowered profile = Some names)
      /\ exists version_doc,
           PyDict.get product_id version_by_product_id = Some version_doc
           /\ exists repres,
                PyDict.get (version_id version_doc) repres_by_version_id
                = Some repres) ->
  collect_valid_repres profiles_by_product_id version_by_product_id
    repres_by_version_id w
  = (w, Ret (valid_repres profiles_by_product_id version_by_product_id
               repres_by_version_id)).
Proof.
  intros W H. unfold collect_valid_repres, PyDict.items.
  rewrite collect_valid_repres_loop; [reflexivity|exact W|exact H|].
  intros k [].
Qed.

Lemma collect_valid_repres_spec_witness :
  collect_valid_repres
    [("p1", Scenario.model_profile None); ("p2", Scenario.model_profile None)]
    [("p1", {| version_id := "v1"; version_parent := "p1" |});
     ("p2", {| version_id := "v2"; version_parent := "p2" |})]
    [("v1", [Scenario.ma; Scenario.usd; Scenario.abc]);
     ("v2", [Scenario.ma])]
    (Scenario.world_with None)
  = (Scenario.world_with None,
     Ret (valid_repres
            [("p1", Scenario.model_profile None);
             ("p2", Scenario.model_profile None)]
            [("p1", {| version_id := "v1"; version_parent := "p1" |});
             ("p2", {| version_id := "v2"; version_parent := "p2" |})]
            [("v1", [Scenario.ma; Scenario.usd; Scenario.abc]);
             ("v2", [Scenario.ma])])).
Proof.
  apply collect_valid_repres_spec.
  - repeat constructor; simpl; intuition discriminate.
  - intros pid p [E|[E|[]]]; injection E as <- <-;
      (split; [eexists; reflexivity
              |eexists; split; [reflexivity|eexists; reflexivity]]).
Defined.

(** ** Product order and the stored presets (lines 536-548) *)

Lemma order_product_ids_cases (Host : Type) (pbi : PyDict.t SubsetDoc)
  (presets : list Profile) :
  forall (acc : list string) (w : World Host),
    for_ presets
      (fun preset product_ids_ordered =>
         bind (field (product_types preset) "product_types")
           (fun preset_types =>
              ret (Next
                (loop preset_types
                   (fun product_type product_ids_ordered =>
                      Next (loop (PyDict.items pbi)
                        (fun '(product_id, subset_doc) product_ids_ordered =>
                           let families :=
                             list_of (subset_families subset_doc) in
                           if negb (Str.mem product_type families)
                           then Next product_ids_ordered
                           else Next (product_ids_ordered ++ [product_id]))
                        product_ids_ordered))
                   product_ids_ordered))))
      acc w
    = (w, if all_typed presets
          then Ret (acc ++ ordered_ids presets pbi)
          else Raise (exc KeyError "product_types")).
Proof.
  induction presets as [|p r IH]; intros acc w.
  - cbn. now rewrite app_nil_r.
  - cbn [for_ all_typed forallb]. unfold bind at 1.
    destruct (product_types p) as [pts|] eqn:E; cbn [field is_some andb].
    + rewrite bind_ret. unfold ret at 1. rewrite product_types_loop, IH.
      fold (all_typed r). destruct (all_typed r); [|reflexivity].
      unfold ordered_ids. cbn [flat_map]. rewrite E. cbn [list_of].
      now rewrite <- app_assoc.
    + reflexivity.
Qed.

Lemma all_typed_iff (presets : list Profile) :
  all_typed presets = true
  <-> forall p, In p presets -> exists pts, product_types p = Some pts.
Proof.
  unfold all_typed. rewrite forallb_forall. split; intros H p I.
  - specialize (H p I). destruct (product_types p) as [pts|];
      [now exists pts|discriminate].
  - destruct (H p I) as [pts ->]. reflexivity.
Qed.

(** X8: [_load_containers] reads "product_types" of every profile of both
    pools of [self.build_presets], validated or not.  When one of these
    profiles has no such key the call raises [KeyError] for it, whatever
    its arguments are: nothing is printed and no loader is called, while
    the list stored under "current_context" has already been extended by
    [+=]. *)
Theorem load_containers_needs_product_types (Host Container : Type)
  (env : Env Host Container)
  (repres_by_product_id : PyDict.t (list RepreDoc))
  (products_by_id : PyDict.t SubsetDoc)
  (profiles_by_product_id : PyDict.t Profile)
  (loaders_by_name : PyDict.t LoaderPlugin)
  (presets : BuildPresets) (preset : Profile) (w : World Host) :
  self_build_presets w = Some presets ->
  In preset (presets_sequence presets) ->
  product_types preset = None ->
  _load_containers env repres_by_product_id products_by_id
    profiles_by_product_id loaders_by_name w
  = (with_presets (Some (after_ordering presets)) w,
     Raise (exc KeyError "product_types")).
Proof.
  intros E I N. unfold _load_containers. unfold bind at 1.
  rewrite ordering_presets_spec with (presets := presets) by assumption.
  unfold bind at 1. unfold order_product_ids.
  rewrite order_product_ids_cases.
  destruct (all_typed (presets_sequence presets)) eqn:A; [|reflexivity].
  apply all_typed_iff with (p := preset) in A; [|assumption].
  destruct A as [pts A]. congruence.
Qed.

Lemma load_containers_needs_product_types_witness :
  _load_containers (Scenario.env_loading Scenario.load_always)
    [("p1", [Scenario.abc])] [("p1", Scenario.charA_model)]
    [("p1", Scenario.model_profile None)] Scenario.registry
    (Scenario.world_with (Some Scenario.untyped_linked_presets))
  = (with_presets (Some (after_ordering Scenario.untyped_linked_presets))
       (Scenario.world_with (Some Scenario.untyped_linked_presets)),
     Raise (exc KeyError "product_types")).
Proof.
  apply (load_containers_needs_product_types Scenario.Host Scenario.Container
           (Scenario.env_loading Scenario.load_always)
           [("p1", [Scenario.abc])] [("p1", Scenario.charA_model)]
           [("p1", Scenario.model_profile None)] Scenario.registry
           Scenario.untyped_linked_presets Scenario.untyped_profile).
  - reflexivity.
  - simpl. tauto.
  - reflexivity.
Defined.

(** ** Repeated product ids (lines 552-561) *)

Lemma enqueue_saturated (oid : string)
  (st : list (string * list RepreDoc) * list (list RepreDoc))
  (items : list (string * list RepreDoc)) :
  (forall r, In (oid, r) items -> In r (snd st)) ->
  loop items (enqueue_step oid) st = st.
Proof.
  induction items as [|[pid r] rest IH]; intros H; [reflexivity|].
  destruct st as [ro rs]. cbn [loop snd] in *.
  change (enqueue_step oid (pid, r) (ro, rs))
    with (if existsb (repres_eqb r) rs then Next (ro, rs)
          else if String.eqb oid pid
               then Next (ro ++ [(pid, r)], rs ++ [r])
               else Next (ro, rs)).
  destruct (existsb (repres_eqb r) rs) eqn:X.
  - apply IH. intros r' I. apply H. now right.
  - destruct (String.eqb_spec oid pid) as [->|D].
    + assert (I : In r rs) by (apply H; now left).
      apply repres_in in I. congruence.
    + apply IH. intros r' I. apply H. now right.
Qed.

Lemma order_saturates (d : PyDict.t (list RepreDoc)) (ids : list string)
  (oid : string) (r : list RepreDoc) :
  In oid ids -> In (oid, r) d ->
  In r (snd (order_representations ids d)).
Proof.
  intros I J. apply in_split in I. destruct I as [pre [post ->]].
  unfold order_representations.
  rewrite loop_app with
    (body := fun ordered_product_id st =>
               loop (PyDict.items d) (enqueue_step ordered_product_id) st).
  cbn [loop].
  apply loop_inv with (P := fun st => In r (snd st)).
  - intros x st _ P.
    apply loop_inv with (P := fun st => In r (snd st)); [|exact P].
    intros item st' _ P'. exact (enqueue_step_grows x item st' r P').
  - now apply enqueue_for_reaches.
Qed.

Lemma order_repeat (d : PyDict.t (list RepreDoc)) (ids : list string) :
  forall extra : list string,
    (forall x, In x extra -> In x ids) ->
    order_representations (ids ++ extra) d = order_representations ids d.
Proof.
  intros extra H. unfold order_representations.
  rewrite loop_app with
    (body := fun ordered_product_id st =>
               loop (PyDict.items d) (enqueue_step ordered_product_id) st).
  fold (order_representations ids d).
  induction extra as [|x r IH]; [reflexivity|].
  cbn [loop].
  rewrite (enqueue_saturated x (order_representations ids d)
             (PyDict.items d)).
  - apply IH. intros y I. apply H. now right.
  - intros r' I. apply order_saturates with (oid := x); [|exact I].
    apply H. now left.
Qed.

(** X9: a product id that occurs again later in the product order changes
    nothing: the representation lists of a product are all enqueued at its
    first occurrence, so the load order derived from a list of ids and from
    the same list followed by ids it already contains are the same. *)
Theorem order_representations_repeated_ids
  (product_ids_ordered repeated : list string)
  (repres_by_product_id : PyDict.t (list RepreDoc)) :
  (forall product_id, In product_id repeated ->
                      In product_id product_ids_ordered) ->
  order_representations (product_ids_ordered ++ repeated)
    repres_by_product_id
  = order_representations product_ids_ordered repres_by_product_id.
Proof.
  intros H. now apply order_repeat.
Qed.

Lemma order_representations_repeated_ids_witness :
  order_representations (["p2"; "p1"] ++ ["p1"; "p2"; "p1"])
    [("p1", [Scenario.abc]); ("p2", [Scenario.usd])]
  = order_representations ["p2"; "p1"]
      [("p1", [Scenario.abc]); ("p2", [Scenario.usd])].
Proof.
  apply order_representations_repeated_ids.
  simpl. tauto.
Defined.

Lemma ordered_ids_app (l1 l2 : list Profile) (pbi : PyDict.t SubsetDoc) :
  ordered_ids (l1 ++ l2) pbi = ordered_ids l1 pbi ++ ordered_ids l2 pbi.
Proof.
  unfold ordered_ids. apply flat_map_app.
Qed.

Lemma ordered_ids_incl (l1 l2 : list Profile) (pbi : PyDict.t SubsetDoc)
  (x : string) :
  (forall p, In p l1 -> In p l2) ->
  In x (ordered_ids l1 pbi) -> In x (ordered_ids l2 pbi).
Proof.
  unfold ordered_ids. intros H I.
  apply in_flat_map in I. destruct I as [p [I J]].
  apply in_flat_map. exists p. auto.
Qed.

Lemma ordered_ids_after (presets : BuildPresets) (pbi : PyDict.t SubsetDoc)
  (d : PyDict.t (list RepreDoc)) :
  order_representations
    (ordered_ids (presets_sequence (after_ordering presets)) pbi) d
  = order_representations (ordered_ids (presets_sequence presets) pbi) d.
Proof.
  unfold after_ordering, presets_sequence.
  destruct (current_context presets) as [cur|] eqn:C;
    [|rewrite C; reflexivity].
  cbn [current_context linked_assets list_of].
  rewrite <- app_assoc, app_assoc, ordered_ids_app.
  apply order_repeat. intros x I.
  apply ordered_ids_incl with (l1 := list_of (linked_assets presets));
    [|assumption].
  intros p J. apply in_or_app. now right.
Qed.

Lemma sequence_after (presets : BuildPresets) (p : Profile) :
  In p (presets_sequence (after_ordering presets)) ->
  In p (presets_sequence presets).
Proof.
  unfold after_ordering, presets_sequence.
  destruct (current_context presets) as [cur|] eqn:C;
    [|rewrite C; auto].
  cbn [current_context linked_assets list_of]. rewrite !in_app_iff. tauto.
Qed.

(** X10: what [+=] does to [self.build_presets] is harmless for the load
    itself.  Every call of [_load_containers] appends the linked-folder
    profiles to the list stored under "current_context"; a call that finds
    the list already extended by an earlier call returns the same
    containers, logs the same events and leaves the same host state as a
    call that finds the original presets, and extends the stored list once
    more. *)
Theorem load_containers_unaffected_by_extension (Host Container : Type)
  (env : Env Host Container)
  (repres_by_product_id : PyDict.t (list RepreDoc))
  (products_by_id : PyDict.t SubsetDoc)
  (profiles_by_product_id : PyDict.t Profile)
  (loaders_by_name : PyDict.t LoaderPlugin)
  (presets : BuildPresets) (w : World Host) :
  self_build_presets w = Some presets ->
  (forall p, In p (presets_sequence presets) ->
             exists pts, product_types p = Some pts) ->
  (forall product_id,
      In product_id (PyDict.keys repres_by_product_id) ->
      loadable products_by_id profiles_by_product_id product_id) ->
  let first :=
    _load_containers env repres_by_product_id products_by_id
      profiles_by_product_id loaders_by_name w in
  let later :=
    _load_containers env repres_by_product_id products_by_id
      profiles_by_product_id loaders_by_name
      (with_presets (Some (after_ordering presets)) w) in
  snd later = snd first
  /\ events (fst later) = events (fst first)
  /\ host (fst later) = host (fst first)
  /\ self_build_presets (fst first) = Some (after_ordering presets)
  /\ self_build_presets (fst later)
     = Some (after_ordering (after_ordering presets)).
Proof.
  intros E Hp Hl. cbv zeta.
  rewrite load_containers_spec with (presets := presets) (w := w)
    by assumption.
  rewrite load_containers_spec with (presets := after_ordering presets);
    [|reflexivity|intros p I; apply Hp; now apply sequence_after
     |assumption].
  cbv zeta. rewrite ordered_ids_after.
  cbn [host with_presets].
  destruct (load_all env products_by_id profiles_by_product_id
              loaders_by_name
              (fst (order_representations
                      (ordered_ids (presets_sequence presets) products_by_id)
                      repres_by_product_id)) (host w)) as [[h' evs] outs].
  cbn. auto.
Qed.

Lemma load_containers_unaffected_by_extension_witness :
  let first :=
    _load_containers (Scenario.env_loading Scenario.load_x_raises)
      [("p1", [Scenario.abc]); ("p2", [Scenario.usd])]
      [("p1", Scenario.charA_model); ("p2", Scenario.charB_model)]
      [("p1", Scenario.model_profile None);
       ("p2", Scenario.model_profile None)]
      Scenario.registry
      (Scenario.world_with (Some Scenario.repeated_presets)) in
  let later :=
    _load_containers (Scenario.env_loading Scenario.load_x_raises)
      [("p1", [Scenario.abc]); ("p2", [Scenario.usd])]
      [("p1", Scenario.charA_model); ("p2", Scenario.charB_model)]
      [("p1", Scenario.model_profile None);
       ("p2", Scenario.model_profile None)]
      Scenario.registry
      (with_presets (Some (after_ordering Scenario.repeated_presets))
         (Scenario.world_with (Some Scenario.repeated_presets))) in
  snd later = snd first
  /\ events (fst later) = events (fst first)
  /\ host (fst later) = host (fst first)
  /\ self_build_presets (fst first)
     = Some (after_ordering Scenario.repeated_presets)
  /\ self_build_presets (fst later)
     = Some (after_ordering (after_ordering Scenario.repeated_presets)).
Proof.
  apply (load_containers_unaffected_by_extension Scenario.Host
           Scenario.Container (Scenario.env_loading Scenario.load_x_raises)).
  - reflexivity.
  - intros p I. simpl in I. destruct I as [<-|[<-|[]]]; eexists; reflexivity.
  - intros pid I. simpl in I.
    destruct I as [<-|[<-|[]]]; do 4 eexists;
      (split; [reflexivity|split; [reflexivity|split; reflexivity]]).
Defined.

(** ** Collected entities (lines 696-723) *)

Lemma set_set (V : Type) (k : string) (v v' : V) (d : PyDict.t V) :
  PyDict.set k v (PyDict.set k v' d) = PyDict.set k v d.
Proof.
  induction d as [|[k0 v0] r IH]; cbn [PyDict.set].
  - now rewrite String.eqb_refl.
  - destruct (String.eqb k k0) eqn:E; cbn [PyDict.set].
    + now rewrite String.eqb_refl.
    + now rewrite E, IH.
Qed.

Lemma set_nonempty (V : Type) (k : string) (v : V) (d : PyDict.t V) :
  PyDict.set k v d <> [].
Proof.
  destruct d as [|[k' v'] r]; cbn [PyDict.set]; [discriminate|].
  destruct (String.eqb k k'); discriminate.
Qed.

Section FileRepre.
Variable Host : Type.
Variable ad : PyDict.t AssetDoc.
Variable sd : PyDict.t SubsetDoc.
Variable lvd : PyDict.t VersionDoc.

Lemma file_repre_step (r : RepreDoc) (v : VersionDoc) (s : SubsetDoc)
  (a : AssetDoc) (output : PyDict.t AssetData) (w : World Host) :
  PyDict.get (repre_parent r) lvd = Some v ->
  PyDict.get (version_parent v) sd = Some s ->
  PyDict.get (subset_parent s) ad = Some a ->
  file_repre ad sd lvd r output w = (w, Ret (Next (file_into a s v r output))).
Proof.
  intros Gv Gs Ga. unfold file_repre, file_into, subscript.
  rewrite Gv, bind_ret, Gs, bind_ret, Ga, bind_ret. cbv zeta.
  unfold PyDict.contains.
  destruct (PyDict.get (subset_parent s) output) as [data|] eqn:Go;
    cbn [negb].
  - rewrite Go, bind_ret.
    destruct (PyDict.get (version_parent v) (subsets_of data)) as [e|] eqn:Ge;
      cbn [negb].
    + rewrite Ge, bind_ret. reflexivity.
    + rewrite PyDictFacts.get_set_same, bind_ret. cbn [ret].
      unfold ret. now rewrite set_set.
  - rewrite PyDictFacts.get_set_same, bind_ret.
    cbn [subsets_of PyDict.get PyDict.empty negb].
    rewrite PyDictFacts.get_set_same, bind_ret.
    unfold ret. now rewrite !set_set.
Qed.

Lemma file_repre_missing (r : RepreDoc) (k : string)
  (output : PyDict.t AssetData) (w : World Host) :
  missing_key ad sd lvd r = Some k ->
  file_repre ad sd lvd r output w = (w, Raise (exc KeyError k)).
Proof.
  unfold missing_key, file_repre, subscript. intros E.
  destruct (PyDict.get (repre_parent r) lvd) as [v|].
  - rewrite bind_ret.
    destruct (PyDict.get (version_parent v) sd) as [s|].
    + rewrite bind_ret.
      destruct (PyDict.get (subset_parent s) ad) as [a|]; [discriminate|].
      injection E as <-. reflexivity.
    + injection E as <-. reflexivity.
  - injection E as <-. reflexivity.
Qed.

Lemma missing_key_none (r : RepreDoc) :
  missing_key ad sd lvd r = None ->
  exists v s a,
    PyDict.get (repre_parent r) lvd = Some v
    /\ PyDict.get (version_parent v) sd = Some s
    /\ PyDict.get (subset_parent s) ad = Some a.
Proof.
  unfold missing_key. intros E.
  destruct (PyDict.get (repre_parent r) lvd) as [v|] eqn:Gv;
    [|discriminate].
  destruct (PyDict.get (version_parent v) sd) as [s|] eqn:Gs;
    [|discriminate].
  destruct (PyDict.get (subset_parent s) ad) as [a|] eqn:Ga;
    [|discriminate].
  exists v, s, a. auto.
Qed.

Lemma filed_repres_set (fid : string) (data : AssetData)
  (output : PyDict.t AssetData) (f p : string) :
  filed_repres (PyDict.set fid data output) f p
  = if String.eqb fid f
    then match PyDict.get p (subsets_of data) with
         | Some e => repres_of e
         | None => []
         end
    else filed_repres output f p.
Proof.
  unfold filed_repres. rewrite PyDictFacts.get_set.
  destruct (String.eqb fid f); reflexivity.
Qed.

Lemma file_into_collected (pre : list RepreDoc) (r : RepreDoc)
  (v : VersionDoc) (s : SubsetDoc) (a : AssetDoc)
  (output : PyDict.t AssetData) :
  PyDict.get (repre_parent r) lvd = Some v ->
  PyDict.get (version_parent v) sd = Some s ->
  PyDict.get (subset_parent s) ad = Some a ->
  collected ad sd lvd pre output ->
  collected ad sd lvd (pre ++ [r]) (file_into a s v r output).
Proof.
  intros Gv Gs Ga [W [D F]].
  set (fid := subset_parent s). set (pid := version_parent v).
  assert (Hd : exists data,
             (match PyDict.get fid output with
              | Some data => data
              | None => {| asset_doc_of := a; subsets_of := PyDict.empty |}
              end) = data
             /\ PyDict.get fid ad = Some (asset_doc_of data)
             /\ PyDict.wf (subsets_of data)
             /\ (forall p e,
                   In (p, e) (subsets_of data) ->
                   PyDict.get p sd = Some (subset_doc_of e)
                   /\ subset_parent (subset_doc_of e) = fid
                   /\ version_parent (version_doc_of e) = p
                   /\ (exists vid, PyDict.get vid lvd = Some (version_doc_of e))
                   /\ repres_of e <> [])
             /\ forall p,
                  match PyDict.get p (subsets_of data) with
                  | Some e => repres_of e
                  | None => []
                  end = filed_repres output fid p).
  { unfold filed_repres.
    destruct (PyDict.get fid output) as [data|] eqn:Go.
    - exists data. apply PyDictFacts.get_Some_In in Go.
      destruct (D fid data Go) as [A [B [_ C]]].
      split; [reflexivity|]. split; [exact A|]. split; [exact B|].
      split; [exact C|reflexivity].
    - eexists. split; [reflexivity|]. cbn [asset_doc_of subsets_of].
      split; [exact Ga|]. split; [apply PyDictFacts.wf_empty|].
      split; [intros p e []|reflexivity]. }
  destruct Hd as [data [Ed [Da [Dw [De Df]]]]].
  assert (He : exists e,
             (match PyDict.get pid (subsets_of data) with
              | Some e => e
              | None => {| subset_doc_of := s; version_doc_of := v;
                           repres_of := [] |}
              end) = e
             /\ PyDict.get pid sd = Some (subset_doc_of e)
             /\ subset_parent (subset_doc_of e) = fid
             /\ version_parent (version_doc_of e) = pid
             /\ (exists vid, PyDict.get vid lvd = Some (version_doc_of e))
             /\ repres_of e = filed_repres output fid pid).
  { specialize (Df pid).
    destruct (PyDict.get pid (subsets_of data)) as [e|] eqn:Ge.
    - exists e. apply PyDictFacts.get_Some_In in Ge.
      destruct (De pid e Ge) as [A [B [C [E _]]]].
      split; [reflexivity|]. split; [exact A|]. split; [exact B|].
      split; [exact C|]. split; [exact E|exact Df].
    - eexists. split; [reflexivity|].
      cbn [subset_doc_of version_doc_of repres_of].
      split; [exact Gs|]. split; [reflexivity|]. split; [reflexivity|].
      split; [eexists; exact Gv|exact Df]. }
  destruct He as [e [Ee [Es [Ep [Ev [Evid Er]]]]]].
  unfold file_into. fold fid. fold pid. cbv zeta. rewrite Ed, Ee.
  split; [now apply PyDictFacts.wf_set|]. split.
  - intros f data' I. apply In_set_inv in I. destruct I as [[-> ->]|I].
    + cbn [asset_doc_of subsets_of]. split; [exact Da|].
      split; [now apply PyDictFacts.wf_set|].
      split; [apply set_nonempty|].
      intros p e' J. apply In_set_inv in J. destruct J as [[-> ->]|J].
      * cbn [subset_doc_of version_doc_of repres_of].
        split; [exact Es|]. split; [exact Ep|]. split; [exact Ev|].
        split; [exact Evid|]. intros X. now apply app_eq_nil in X.
      * now apply De.
    + now apply D.
  - intros f p. rewrite filed_repres_set. cbn [subsets_of].
    rewrite filter_app. cbn [filter]. unfold belongs_to at 2, place_of.
    rewrite Gv, Gs. fold fid. fold pid. rewrite <- F.
    destruct (String.eqb_spec fid f) as [<-|Nf]; cbn [andb].
    + rewrite PyDictFacts.get_set.
      destruct (String.eqb_spec pid p) as [<-|Np].
      * cbn [repres_of]. now rewrite Er.
      * rewrite app_nil_r. apply Df.
    + now rewrite app_nil_r.
Qed.

Lemma collected_empty : collected ad sd lvd [] PyDict.empty.
Proof.
  split; [apply PyDictFacts.wf_empty|]. split; [intros f data []|].
  intros f p. reflexivity.
Qed.

Lemma file_loop (repre_docs : list RepreDoc) :
  forall (pre : list RepreDoc) (output : PyDict.t AssetData) (w : World Host),
    collected ad sd lvd pre output ->
    match first_missing_key ad sd lvd repre_docs with
    | Some k =>
        for_ repre_docs (file_repre ad sd lvd) output w
        = (w, Raise (exc KeyError k))
    | None =>
        exists output',
          for_ repre_docs (file_repre ad sd lvd) output w = (w, Ret output')
          /\ collected ad sd lvd (pre ++ repre_docs) output'
    end.
Proof.
  induction repre_docs as [|r rest IH]; intros pre output w C.
  - cbn. exists output. rewrite app_nil_r. auto.
  - cbn [first_missing_key for_]. unfold bind.
    destruct (missing_key ad sd lvd r) as [k|] eqn:K.
    + now rewrite file_repre_missing with (k := k).
    + destruct (missing_key_none r K) as [v [s [a [Gv [Gs Ga]]]]].
      rewrite file_repre_step with (v := v) (s := s) (a := a)
        by assumption.
      specialize (IH (pre ++ [r]) (file_into a s v r output) w
                    (file_into_collected pre r v s a output Gv Gs Ga C)).
      rewrite <- app_assoc in IH. exact IH.
Qed.

End FileRepre.

Lemma first_missing_key_none (ad : PyDict.t AssetDoc)
  (sd : PyDict.t SubsetDoc) (lvd : PyDict.t VersionDoc)
  (repre_docs : list RepreDoc) :
  first_missing_key ad sd lvd repre_docs = None
  <-> forall r, In r repre_docs -> missing_key ad sd lvd r = None.
Proof.
  induction repre_docs as [|x rest IH]; cbn [first_missing_key].
  - split; [intros _ r []|reflexivity].
  - destruct (missing_key ad sd lvd x) as [k|] eqn:K.
    + split; [discriminate|]. intros H.
      rewrite (H x (or_introl eq_refl)) in K. discriminate.
    + rewrite IH. split.
      * intros H r [<-|I]; auto.
      * intros H r I. apply H. now right.
Qed.

Lemma first_missing_key_some (ad : PyDict.t AssetDoc)
  (sd : PyDict.t SubsetDoc) (lvd : PyDict.t VersionDoc)
  (repre_docs : list RepreDoc) (k : string) :
  first_missing_key ad sd lvd repre_docs = Some k
  <-> exists pre r post,
        repre_docs = pre ++ r :: post
        /\ (forall x, In x pre -> missing_key ad sd lvd x = None)
        /\ missing_key ad sd lvd r = Some k.
Proof.
  induction repre_docs as [|x rest IH]; cbn [first_missing_key].
  - split; [discriminate|]. intros [pre [r [post [E _]]]].
    destruct pre; discriminate.
  - destruct (missing_key ad sd lvd x) as [k'|] eqn:K.
    + split.
      * intros E. injection E as ->. exists [], x, rest.
        split; [reflexivity|]. split; [intros y []|exact K].
      * intros [pre [r [post [E [A B]]]]]. destruct pre as [|y pre'].
        -- cbn [app] in E. injection E as E1 E2. congruence.
        -- cbn [app] in E. injection E as E1 E2.
           specialize (A y (or_introl eq_refl)). congruence.
    + rewrite IH. split.
      * intros [pre [r [post [-> [A B]]]]]. exists (x :: pre), r, post.
        split; [reflexivity|]. split; [|exact B].
        intros y [<-|I]; auto.
      * intros [pre [r [post [E [A B]]]]]. destruct pre as [|y pre'].
        -- cbn [app] in E. injection E as E1 E2. congruence.
        -- cbn [app] in E. injection E as E1 E2. exists pre', r, post.
           split; [exact E2|]. split; [|exact B].
           intros z I. apply A. now right.
Qed.

Section CollectSpec.
Variables Host Container : Type.
Variable env : Env Host Container.

Lemma collect_cases (first : AssetDoc) (others : list AssetDoc)
  (w : World Host) :
  let asset_docs := first :: others in
  let project := get_current_project_name env in
  let ad := PyDict.of_seq asset_id (fun d => d) asset_docs in
  let subset_docs := get_subsets env project (PyDict.keys ad) in
  let sd := PyDict.of_seq subset_id (fun d => d) subset_docs in
  let last_versions :=
    PyDict.values (get_last_versions env project (PyDict.keys sd)) in
  let lvd := PyDict.of_seq version_id (fun d => d) last_versions in
  let repre_docs := get_representations env project (PyDict.keys lvd) in
  let w3 :=
    add_events
      [Query (QSubsets project (PyDict.keys ad));
       Query (QLastVersions project (PyDict.keys sd));
       Query (QRepresentations project (PyDict.keys lvd))] w in
  match first_missing_key ad sd lvd repre_docs with
  | Some k =>
      _collect_last_version_repres env asset_docs w
      = (w3, Raise (exc KeyError k))
  | None =>
      exists output,
        _collect_last_version_repres env asset_docs w = (w3, Ret output)
        /\ collected ad sd lvd repre_docs output
  end.
Proof.
  cbv zeta. unfold _collect_last_version_repres.
  rewrite bind_query, bind_query, bind_query, !add_events_app.
  cbn [app].
  match goal with
  | |- context [for_ ?l (file_repre ?a ?s ?v) _ ?W] =>
      pose proof (file_loop Host a s v l [] PyDict.empty W
                    (collected_empty a s v)) as L
  end.
  cbn [app] in L. exact L.
Qed.

End CollectSpec.

(** X11: what [_collect_last_version_repres] returns for a store that
    answers consistently.  The output has one entry per folder that has a
    representation, keyed by the id of the folder document it holds; each
    folder entry has one entry per product with a representation, keyed by
    the id of the product document it holds, whose parent is the folder and
    whose version document has the product as parent; no folder entry and
    no representation list is empty; and every representation that the
    store returned is filed exactly under the product of its version and
    the folder of this product, in the order of the answer. *)
Theorem collect_files_every_representation (Host Container : Type)
  (env : Env Host Container) (first : AssetDoc) (others : list AssetDoc)
  (w : World Host) :
  store_ok env ->
  let asset_docs := first :: others in
  let project := get_current_project_name env in
  let asset_docs_by_ids := PyDict.of_seq asset_id (fun d => d) asset_docs in
  let subset_docs :=
    get_subsets env project (PyDict.keys asset_docs_by_ids) in
  let subset_docs_by_id := PyDict.of_seq subset_id (fun d => d) subset_docs in
  let last_versions :=
    PyDict.values
      (get_last_versions env project (PyDict.keys subset_docs_by_id)) in
  let last_version_docs_by_id :=
    PyDict.of_seq version_id (fun d => d) last_versions in
  let repre_docs :=
    get_representations env project (PyDict.keys last_version_docs_by_id) in
  exists output,
    snd (_collect_last_version_repres env asset_docs w) = Ret output
    /\ NoDup (PyDict.keys output)
    /\ (forall folder_id data,
          In (folder_id, data) output ->
          In (asset_doc_of data) asset_docs
          /\ asset_id (asset_doc_of data) = folder_id
          /\ NoDup (PyDict.keys (subsets_of data))
          /\ subsets_of data <> [])
    /\ (forall folder_id data product_id entry,
          In (folder_id, data) output ->
          In (product_id, entry) (subsets_of data) ->
          In (subset_doc_of entry) subset_docs
          /\ subset_id (subset_doc_of entry) = product_id
          /\ subset_parent (subset_doc_of entry) = folder_id
          /\ In (version_doc_of entry) last_versions
          /\ version_parent (version_doc_of entry) = product_id
          /\ repres_of entry <> [])
    /\ (forall folder_id product_id,
          filed_repres output folder_id product_id
          = filter
              (belongs_to subset_docs_by_id last_version_docs_by_id
                 folder_id product_id)
              repre_docs)
    /\ (forall repre_doc,
          In repre_doc repre_docs ->
          exists folder_id product_id,
            place_of subset_docs_by_id last_version_docs_by_id repre_doc
            = Some (folder_id, product_id)
            /\ In repre_doc (filed_repres output folder_id product_id)).
Proof.
  intros [S1 [S2 S3]]. cbv zeta.
  pose proof (collect_cases Host Container env first others w) as C.
  cbv zeta in C.
  set (ad := PyDict.of_seq asset_id (fun d => d) (first :: others)) in *.
  set (subset_docs :=
         get_subsets env (get_current_project_name env) (PyDict.keys ad))
    in *.
  set (sd := PyDict.of_seq subset_id (fun d => d) subset_docs) in *.
  set (last_versions :=
         PyDict.values
           (get_last_versions env (get_current_project_name env)
              (PyDict.keys sd))) in *.
  set (lvd := PyDict.of_seq version_id (fun d => d) last_versions) in *.
  set (repre_docs :=
         get_representations env (get_current_project_name env)
           (PyDict.keys lvd)) in *.
  assert (M : forall r, In r repre_docs -> missing_key ad sd lvd r = None).
  { intros r I. unfold missing_key.
    destruct (PyDictFacts.keys_get (repre_parent r) lvd) as [v Gv].
    { now apply S3 in I. }
    rewrite Gv.
    destruct (PyDictFacts.keys_get (version_parent v) sd) as [s Gs].
    { apply PyDictFacts.get_of_seq in Gv as [x [Ix [_ <-]]].
      now apply S2 in Ix. }
    rewrite Gs.
    destruct (PyDictFacts.keys_get (subset_parent s) ad) as [a Ga].
    { apply PyDictFacts.get_of_seq in Gs as [x [Ix [_ <-]]].
      now apply S1 in Ix. }
    rewrite Ga. reflexivity. }
  rewrite (proj2 (first_missing_key_none ad sd lvd repre_docs) M) in C.
  destruct C as [output [E [W [D F]]]].
  exists output. rewrite E. split; [reflexivity|]. split; [exact W|].
  split; [|split; [|split; [exact F|]]].
  - intros fid data I. destruct (D fid data I) as [A [B [N _]]].
    apply PyDictFacts.get_of_seq in A as [x [Ix [Ek Ev]]].
    rewrite <- Ev. auto.
  - intros fid data pid e I J.
    destruct (D fid data I) as [_ [_ [_ De]]].
    destruct (De pid e J) as [A [B [C [[vid V] N]]]].
    apply PyDictFacts.get_of_seq in A as [x [Ix [Ek Ev]]].
    apply PyDictFacts.get_of_seq in V as [y [Iy [_ Ey]]].
    rewrite <- Ev, <- Ey in *. auto 10.
  - intros r I. pose proof (M r I) as K.
    destruct (missing_key_none ad sd lvd r K) as [v [s [a [Gv [Gs Ga]]]]].
    exists (subset_parent s), (version_parent v).
    assert (P : place_of sd lvd r
                = Some (subset_parent s, version_parent v)).
    { unfold place_of. now rewrite Gv, Gs. }
    split; [exact P|]. rewrite F. apply filter_In. split; [exact I|].
    unfold belongs_to. rewrite P, !String.eqb_refl. reflexivity.
Qed.

Lemma collect_files_every_representation_witness :
  exists output,
    snd (_collect_last_version_repres (Scenario.env_AB true)
           (Scenario.current_folder :: []) (Scenario.world_with None))
    = Ret output
    /\ NoDup (PyDict.keys output).
Proof.
  destruct (collect_files_every_representation Scenario.Host
              Scenario.Container (Scenario.env_AB true)
              Scenario.current_folder [] (Scenario.world_with None))
    as [output [E [N _]]].
  - split; [|split].
    + intros project ids d I.
      cbn [Scenario.env_AB Scenario.env_with get_subsets] in I.
      apply filter_In in I. now apply mem_In.
    + intros project ids v I.
      cbn [Scenario.env_AB Scenario.env_with get_last_versions] in I.
      unfold PyDict.values in I. apply in_map_iff in I.
      destruct I as [[k v'] [<- I]]. apply filter_In in I.
      destruct I as [I J]. cbn [fst snd] in *. apply mem_In in J.
      simpl in I. destruct I as [I|[I|[]]]; injection I as <- <-; exact J.
    + intros project ids r I.
      cbn [Scenario.env_AB Scenario.env_with get_representations] in I.
      apply filter_In in I. now apply mem_In.
  - exists output. split; assumption.
Defined.

(** X12: [_collect_last_version_repres] raises exactly when the store
    answers inconsistently, and then it raises [KeyError]: for the first
    returned representation whose version is not among the last versions,
    or whose version has a product that is not among the products, or
    whose product has a folder that is not among the folders asked for,
    the missing id is the key of the error; the three queries have been
    made by then.  When no such representation exists the call returns. *)
Theorem collect_raises_on_missing_parent (Host Container : Type)
  (env : Env Host Container) (first : AssetDoc) (others : list AssetDoc)
  (w : World Host) :
  let asset_docs := first :: others in
  let project := get_current_project_name env in
  let asset_docs_by_ids := PyDict.of_seq asset_id (fun d => d) asset_docs in
  let subset_docs :=
    get_subsets env project (PyDict.keys asset_docs_by_ids) in
  let subset_docs_by_id := PyDict.of_seq subset_id (fun d => d) subset_docs in
  let last_versions :=
    PyDict.values
      (get_last_versions env project (PyDict.keys subset_docs_by_id)) in
  let last_version_docs_by_id :=
    PyDict.of_seq version_id (fun d => d) last_versions in
  let repre_docs :=
    get_representations env project (PyDict.keys last_version_docs_by_id) in
  let missing :=
    missing_key asset_docs_by_ids subset_docs_by_id last_version_docs_by_id in
  let queried :=
    add_events
      [Query (QSubsets project (PyDict.keys asset_docs_by_ids));
       Query (QLastVersions project (PyDict.keys subset_docs_by_id));
       Query (QRepresentations project
                (PyDict.keys last_version_docs_by_id))] w in
  let run := _collect_last_version_repres env asset_docs w in
  (forall k,
      run = (queried, Raise (exc KeyError k))
      <-> exists pre r post,
            repre_docs = pre ++ r :: post
            /\ (forall x, In x pre -> missing x = None)
            /\ missing r = Some k)
  /\ ((exists output, run = (queried, Ret output))
      <-> forall r, In r repre_docs -> missing r = None)
  /\ (forall e, snd run = Raise e -> exists k, e = exc KeyError k).
Proof.
  cbv zeta.
  pose proof (collect_cases Host Container env first others w) as C.
  cbv zeta in C.
  set (ad := PyDict.of_seq asset_id (fun d => d) (first :: others)) in *.
  set (subset_docs :=
         get_subsets env (get_current_project_name env) (PyDict.keys ad))
    in *.
  set (sd := PyDict.of_seq subset_id (fun d => d) subset_docs) in *.
  set (last_versions :=
         PyDict.values
           (get_last_versions env (get_current_project_name env)
              (PyDict.keys sd))) in *.
  set (lvd := PyDict.of_seq version_id (fun d => d) last_versions) in *.
  set (repre_docs :=
         get_representations env (get_current_project_name env)
           (PyDict.keys lvd)) in *.
  rewrite <- first_missing_key_none.
  destruct (first_missing_key ad sd lvd repre_docs) as [k0|] eqn:K.
  - rewrite C. split; [|split].
    + intros k. rewrite <- first_missing_key_some, K.
      split; intros E; injection E as <-; reflexivity.
    + split; [|discriminate]. intros [output E]. discriminate.
    + intros e E. cbn [snd] in E. injection E as <-. now exists k0.
  - destruct C as [output [E _]]. rewrite E. split; [|split].
    + intros k. rewrite <- first_missing_key_some, K.
      split; discriminate.
    + split; [reflexivity|]. intros _. now exists output.
    + intros e X. discriminate.
Qed.

(** ** Events and results of computations that may raise *)

Section Confined.
Variable Host : Type.
Variable P : Event -> Prop.

Lemma confined_ret (A : Type) (Q : A -> Prop) (a : A) :
  Q a -> confined P Q (ret (Host := Host) a).
Proof.
  intros H w. cbn. split; [|exact H]. exists []. now rewrite app_nil_r.
Qed.

Lemma confined_raise (A : Type) (Q : A -> Prop) (e : ExcInstance) :
  confined P Q (raise (Host := Host) (A := A) e).
Proof.
  intros w. cbn. split; [|exact I]. exists []. now rewrite app_nil_r.
Qed.

Lemma confined_bind (A B : Type) (Q1 : A -> Prop) (Q : B -> Prop)
  (m : M Host A) (k : A -> M Host B) :
  confined P Q1 m ->
  (forall a, Q1 a -> confined P Q (k a)) ->
  confined P Q (bind m k).
Proof.
  intros Hm Hk w. unfold bind. destruct (Hm w) as [[evs [E F]] R].
  destruct (m w) as [w1 [a|e]]; cbn [fst snd] in *.
  - destruct (Hk a R w1) as [[evs2 [E2 F2]] R2]. split; [|exact R2].
    exists (evs ++ evs2). rewrite E2, E, app_assoc. split; [reflexivity|].
    apply Forall_app. auto.
  - split; [|exact I]. exists evs. auto.
Qed.

Lemma confined_weaken (A : Type) (Q1 Q2 : A -> Prop) (m : M Host A) :
  confined P Q1 m -> (forall a, Q1 a -> Q2 a) -> confined P Q2 m.
Proof.
  intros H I w. destruct (H w) as [E R]. split; [exact E|].
  destruct (snd (m w)); auto.
Qed.

Lemma confined_emit (Q : unit -> Prop) (e : Event) :
  P e -> Q tt -> confined P Q (emit (Host := Host) e).
Proof.
  intros H HQ w. cbn. split; [|exact HQ]. exists [e]. auto.
Qed.

Lemma confined_query (A : Type) (Q : A -> Prop) (q : StoreQuery) (a : A) :
  P (Query q) -> Q a -> confined P Q (query (Host := Host) q a).
Proof.
  intros H HQ. unfold query.
  apply confined_bind with (Q1 := fun _ => True).
  - now apply confined_emit.
  - intros _ _. now apply confined_ret.
Qed.

Lemma confined_subscript (V : Type) (Q : V -> Prop) (d : PyDict.t V)
  (k : string) :
  (forall v, PyDict.get k d = Some v -> Q v) ->
  confined P Q (subscript (Host := Host) d k).
Proof.
  intros H. unfold subscript. destruct (PyDict.get k d) as [v|].
  - apply confined_ret. now apply H.
  - apply confined_raise.
Qed.

Lemma confined_field (V : Type) (Q : V -> Prop) (o : option V)
  (k : string) :
  (forall v, o = Some v -> Q v) ->
  confined P Q (field (Host := Host) o k).
Proof.
  intros H. unfold field. destruct o as [v|].
  - apply confined_ret. now apply H.
  - apply confined_raise.
Qed.

Lemma confined_for (X S : Type) (Inv : S -> Prop)
  (body : X -> S -> M Host (Ctl S)) (xs : list X) :
  (forall x s,
      In x xs -> Inv s ->
      confined P (fun c => match c with Next s' | Break s' => Inv s' end)
        (body x s)) ->
  forall s, Inv s -> confined P Inv (for_ xs body s).
Proof.
  induction xs as [|x r IH]; intros H s Hs; cbn [for_].
  - now apply confined_ret.
  - eapply confined_bind.
    + apply H; [now left|exact Hs].
    + intros [s'|s'] Hs'.
      * apply IH; [|exact Hs']. intros y s0 I. apply H. now right.
      * now apply confined_ret.
Qed.

Lemma confined_for_indexed (X S : Type) (Inv : list X -> S -> Prop)
  (body : X -> S -> M Host (Ctl S)) (xs : list X) :
  (forall pre x post s,
      xs = pre ++ x :: post -> Inv pre s ->
      confined P
        (fun c => match c with
                  | Next s' => Inv (pre ++ [x]) s'
                  | Break _ => False
                  end)
        (body x s)) ->
  forall s, Inv [] s -> confined P (Inv xs) (for_ xs body s).
Proof.
  intros H.
  assert (G : forall rest pre s,
             xs = pre ++ rest -> Inv pre s ->
             confined P (Inv xs) (for_ rest body s)).
  { induction rest as [|x r IH]; intros pre s E Hs; cbn [for_].
    - rewrite app_nil_r in E. subst pre. now apply confined_ret.
    - eapply confined_bind.
      + apply (H pre x r s E Hs).
      + intros [s'|s'] Hs'; [|destruct Hs'].
        apply IH with (pre := pre ++ [x]); [|exact Hs'].
        now rewrite <- app_assoc. }
  intros s Hs. now apply G with (pre := []).
Qed.

Lemma confined_same_events (A : Type) (Q : A -> Prop) (m : M Host A) :
  (forall w, events (fst (m w)) = events w) ->
  (forall w a, snd (m w) = Ret a -> Q a) ->
  confined P Q m.
Proof.
  intros E R w. split.
  - exists []. now rewrite app_nil_r.
  - destruct (snd (m w)) eqn:S; [|exact I]. now apply R with (w := w).
Qed.

End Confined.

(** ** Load calls of [_load_containers] *)

Lemma enumerate_from_In (A : Type) (xs : list A) :
  forall (k i : nat) (x : A), In (i, x) (enumerate_from k xs) -> In x xs.
Proof.
  induction xs as [|y r IH]; intros k i x I; cbn [enumerate_from] in I.
  - destruct I.
  - destruct I as [E|I]; [injection E as _ ->; now left|].
    right. now apply IH with (k := S k) (i := i).
Qed.

Lemma confined_events (Host A : Type) (P P' : Event -> Prop)
  (Q : A -> Prop) (m : M Host A) :
  (forall e, P e -> P' e) -> confined P Q m -> confined P' Q m.
Proof.
  intros H C w. destruct (C w) as [[evs [E F]] R]. split; [|exact R].
  exists evs. split; [exact E|]. eapply Forall_impl; [|exact F]. exact H.
Qed.

Section ConfinedLoad.
Variables Host Container : Type.
Variable env : Env Host Container.
Variable P : Event -> Prop.
Variable ok : LoaderPlugin -> RepreDoc -> SubsetDoc -> Prop.
Variable lbn : PyDict.t LoaderPlugin.
Hypothesis P_log : forall lvl m, P (Log lvl m).
Hypothesis P_print : forall m, P (Print m).
Hypothesis P_call :
  forall l r s,
    ok l r s -> P (LoadCall (loader_name l) (repre_id r) (subset_name s)).

Lemma call_confined (loader : LoaderPlugin) (repre : RepreDoc)
  (product : SubsetDoc) :
  ok loader repre product ->
  confined P (fun _ => True)
    (call_load_container env loader (repre_id repre) (subset_name product)).
Proof.
  intros L w. unfold call_load_container.
  destruct (load_container env (host w) loader (repre_id repre)
              (subset_name product)) as [h out].
  cbn. split; [|exact I]. eexists. split; [reflexivity|].
  constructor; [|constructor]. now apply P_call.
Qed.

Lemma try_loader_confined (product : SubsetDoc) (repre : RepreDoc)
  (ll : Z) (ridx : nat) (lr : Z) (item : nat * string)
  (st : list Container * bool) :
  (forall loader,
      PyDict.get (snd item) lbn = Some loader -> ok loader repre product) ->
  confined P (fun _ => True)
    (try_loader env lbn (subset_name product) repre ll ridx lr item st).
Proof.
  intros L. destruct item as [i n], st as [acc b]. unfold try_loader.
  cbn [snd] in L.
  destruct b; [apply confined_ret; exact I|].
  destruct (PyDict.get n lbn) as [loader|] eqn:G;
    [|apply confined_ret; exact I].
  apply confined_bind with (Q1 := fun _ => True).
  - apply call_confined; eauto.
  - intros [c|e] _; [apply confined_ret; exact I|].
    apply confined_bind with (Q1 := fun _ => True).
    + destruct (py_eq _ _); apply confined_emit; solve [apply P_log|exact I].
    + intros _ _. apply confined_bind with (Q1 := fun _ => True).
      * apply confined_emit; [apply P_log|exact I].
      * intros _ _. apply confined_ret; exact I.
Qed.

Lemma try_repre_name_confined (product : SubsetDoc) (profile : Profile)
  (by_name : PyDict.t RepreDoc) (ll lr : Z) (item : nat * string)
  (st : list Container * bool) :
  (forall repre ls key loader,
      PyDict.get (snd item) by_name = Some repre ->
      loaders profile = Some ls -> In key ls ->
      PyDict.get key lbn = Some loader ->
      ok loader repre product) ->
  confined P (fun _ => True)
    (try_repre_name env lbn (subset_name product) profile by_name ll lr
       item st).
Proof.
  intros L. destruct item as [i n]. unfold try_repre_name. cbn [snd] in L.
  destruct (snd st); [apply confined_ret; exact I|].
  destruct (PyDict.get n by_name) as [repre|] eqn:G;
    [|apply confined_ret; exact I].
  apply confined_bind with (Q1 := fun ls => loaders profile = Some ls).
  - apply confined_field. auto.
  - intros ls E. apply confined_bind with (Q1 := fun _ => True).
    + apply confined_for with (Inv := fun _ => True); [|exact I].
      intros [j key] s J _. eapply confined_weaken.
      * apply try_loader_confined. cbn [snd]. intros loader Gl.
        apply (L repre ls key loader eq_refl E); [|exact Gl].
        now apply enumerate_from_In in J.
      * intros [?|?] _; exact I.
    + intros; apply confined_ret; exact I.
Qed.

Lemma load_product_confined (pbi : PyDict.t SubsetDoc)
  (profs : PyDict.t Profile) (item : string * list RepreDoc)
  (acc : list Container) :
  (forall product profile ns repre ls key loader,
      PyDict.get (fst item) pbi = Some product ->
      PyDict.get (fst item) profs = Some profile ->
      repre_names_lowered profile = Some ns ->
      In (Str.lower (repre_name repre)) ns ->
      In repre (snd item) ->
      loaders profile = Some ls -> In key ls ->
      PyDict.get key lbn = Some loader ->
      ok loader repre product) ->
  confined P (fun _ => True)
    (load_product env pbi profs lbn item acc).
Proof.
  intros L. destruct item as [pid repres]. unfold load_product.
  cbn [fst snd] in L.
  apply confined_bind
    with (Q1 := fun product => PyDict.get pid pbi = Some product).
  { apply confined_subscript. auto. }
  intros product Gp. cbv zeta.
  apply confined_bind
    with (Q1 := fun profile => PyDict.get pid profs = Some profile).
  { apply confined_subscript. auto. }
  intros profile Gf.
  apply confined_bind with (Q1 := fun _ => True);
    [apply confined_field; intros; exact I|].
  intros ls0 _.
  apply confined_bind
    with (Q1 := fun ns => repre_names_lowered profile = Some ns).
  { apply confined_field. auto. }
  intros ns En.
  apply confined_bind with (Q1 := fun _ => True).
  - apply confined_for with (Inv := fun _ => True); [|exact I].
    intros [j name] s J _. eapply confined_weaken.
    + apply try_repre_name_confined. cbn [snd].
      intros repre ls key loader G El Ik Gl.
      apply PyDictFacts.get_of_seq in G as [x0 [Ix [Ek <-]]].
      apply (L product profile ns x0 ls key loader); try assumption.
      rewrite Ek. now apply enumerate_from_In in J.
    + intros [?|?] _; exact I.
  - intros; apply confined_ret; exact I.
Qed.

Lemma ordering_presets_events (w : World Host) :
  events (fst (ordering_presets w)) = events w.
Proof.
  unfold ordering_presets. destruct (self_build_presets w) as [ps|];
    [destruct (current_context ps)|]; reflexivity.
Qed.

Lemma load_containers_confined (rbp : PyDict.t (list RepreDoc))
  (pbi : PyDict.t SubsetDoc) (profs : PyDict.t Profile) :
  (forall l r s, planned rbp pbi profs lbn l r s -> ok l r s) ->
  confined P (fun _ => True)
    (_load_containers env rbp pbi profs lbn).
Proof.
  intros L. unfold _load_containers.
  apply confined_bind with (Q1 := fun _ => True).
  { apply confined_same_events; [|intros; exact I].
    apply ordering_presets_events. }
  intros presets _. apply confined_bind with (Q1 := fun _ => True).
  { unfold order_product_ids.
    apply confined_for with (Inv := fun _ => True); [|exact I].
    intros x s _ _. apply confined_bind with (Q1 := fun _ => True);
      [apply confined_field; intros; exact I|].
    intros; apply confined_ret; exact I. }
  intros ids _. apply confined_bind with (Q1 := fun _ => True);
    [apply confined_emit; [apply P_print|exact I]|].
  intros _ _.
  pose proof (order_representations_inv rbp ids) as [_ [_ Io]].
  destruct (order_representations ids rbp) as [ro rs]. cbn [fst] in Io.
  apply confined_bind with (Q1 := fun _ => True);
    [apply confined_emit; [apply P_print|exact I]|].
  intros _ _.
  apply confined_for with (Inv := fun _ => True); [|exact I].
  intros [pid l] acc I0 _. eapply confined_weaken.
  - apply load_product_confined. cbn [fst snd].
    intros product profile ns repre ls key loader Gp Gf En In_ Ir El Ik Gl.
    apply L. exists pid, l, profile, key.
    destruct (Io pid l I0) as [Id _]. rewrite En, El. cbn [list_of].
    auto 10.
  - intros [?|?] _; exact I.
Qed.

End ConfinedLoad.

Lemma confined_calls (Host A : Type)
  (ok : LoaderPlugin -> RepreDoc -> SubsetDoc -> Prop) (Q : A -> Prop)
  (m : M Host A) (w : World Host) :
  confined (call_ok ok) Q m ->
  exists evs,
    events (fst (m w)) = events w ++ evs
    /\ forall loader repre name,
         In (LoadCall loader repre name) evs ->
         exists l r s,
           ok l r s
           /\ loader_name l = loader /\ repre_id r = repre
           /\ subset_name s = name.
Proof.
  intros C. destruct (C w) as [[evs [E F]] _]. exists evs.
  split; [exact E|]. intros loader repre name I.
  rewrite Forall_forall in F. exact (F _ I).
Qed.

(** X13: what [_load_containers] calls [load_container] with.  Whatever
    its arguments and [self.build_presets] are, and whether it returns or
    raises, it only adds events, and every call of [load_container] among
    them is for a product that has an entry in [repres_by_product_id]: the
    representation is one of this entry and its lower-cased name is listed
    in "repre_names_lowered" of the profile of the product, the loader is
    registered under a name that "loaders" of this profile lists, and the
    name passed is the name of the product. *)
Theorem load_containers_calls_are_planned (Host Container : Type)
  (env : Env Host Container)
  (repres_by_product_id : PyDict.t (list RepreDoc))
  (products_by_id : PyDict.t SubsetDoc)
  (profiles_by_product_id : PyDict.t Profile)
  (loaders_by_name : PyDict.t LoaderPlugin) (w : World Host) :
  exists evs,
    events
      (fst (_load_containers env repres_by_product_id products_by_id
              profiles_by_product_id loaders_by_name w))
    = events w ++ evs
    /\ forall loader repre name,
         In (LoadCall loader repre name) evs ->
         exists l r s,
           planned repres_by_product_id products_by_id
             profiles_by_product_id loaders_by_name l r s
           /\ loader_name l = loader /\ repre_id r = repre
           /\ subset_name s = name.
Proof.
  apply confined_calls with (Q := fun _ => True).
  apply load_containers_confined
    with (ok := planned repres_by_product_id products_by_id
                  profiles_by_product_id loaders_by_name);
    try (intros; exact I); [|auto].
  intros l r s H. cbn. eauto 10.
Qed.

(** ** Load calls of [load_containers_by_asset_data] *)

Lemma append_to_In (V : Type) (pid k : string) (x : V) (l : list V)
  (d : PyDict.t (list V)) :
  In (k, l) (append_to pid x d) ->
  In (k, l) d
  \/ exists l0, l = l0 ++ [x] /\ (l0 = [] \/ In (pid, l0) d).
Proof.
  unfold append_to. destruct (PyDict.get pid d) as [l0|] eqn:G; intros I;
    apply In_set_inv in I; destruct I as [[-> ->]|I]; auto.
  - right. exists l0. split; [reflexivity|]. right.
    now apply PyDictFacts.get_Some_In.
  - right. exists []. auto.
Qed.

Lemma assign_profile_In (profile : Profile) (rs : list Re.regex)
  (docs : list SubsetDoc) (d : PyDict.t Profile) (k : string) (q : Profile) :
  In (k, q) (assign_profile profile rs docs d) ->
  q = profile \/ In (k, q) d.
Proof.
  unfold assign_profile.
  apply loop_inv
    with (P := fun d' => In (k, q) d' -> q = profile \/ In (k, q) d);
    [|auto].
  intros doc d' _ H.
  destruct (negb (name_passes rs (subset_name doc))); [exact H|].
  intros I. apply In_set_inv in I. destruct I as [[_ ->]|I]; auto.
Qed.

Section ConfinedData.
Variables Host Container : Type.
Variable env : Env Host Container.
Variable P : Event -> Prop.
Hypothesis P_log : forall lvl m, P (Log lvl m).

Lemma filter_confined (profiles : list Profile)
  (lbn : PyDict.t LoaderPlugin) :
  confined P
    (fun valid =>
       forall q, In q valid ->
                 exists p, In p profiles /\ q = with_lowered p)
    (_filter_build_profiles (Host := Host) profiles lbn).
Proof.
  intros w. rewrite filter_build_profiles_spec. cbn [fst snd]. split.
  - eexists. split; [reflexivity|]. apply Forall_forall. intros e I.
    apply in_map_iff in I. destruct I as [p [<- _]]. apply P_log.
  - intros q I. apply in_map_iff in I. destruct I as [p [<- I]].
    apply filter_In in I. exists p. tauto.
Qed.

Lemma compile_filters_confined (patterns : list string) :
  confined P (fun _ => True) (compile_filters (Host := Host) patterns).
Proof.
  unfold compile_filters.
  apply confined_for with (Inv := fun _ => True); [|exact I].
  intros x s _ _. destruct (Re.compile x).
  - apply confined_ret; exact I.
  - apply confined_raise.
  - apply confined_raise.
Qed.

Lemma prepare_confined (docs : list SubsetDoc) (profiles : list Profile) :
  confined P
    (fun profs => forall k q, In (k, q) profs -> In q profiles)
    (_prepare_profile_for_products (Host := Host) docs profiles).
Proof.
  unfold _prepare_profile_for_products.
  apply confined_for
    with (Inv := fun d : PyDict.t Profile =>
                   forall k q, In (k, q) d -> In q profiles);
    [|intros k q []].
  intros [t l] d _ Hd. unfold resolve_type.
  apply confined_bind
    with (Q1 := fun d' : PyDict.t Profile =>
                  forall k q, In (k, q) d' -> In q profiles).
  - apply confined_for
      with (Inv := fun d' : PyDict.t Profile =>
                     forall k q, In (k, q) d' -> In q profiles);
      [|exact Hd].
    intros p d' Ip Hd'. unfold try_profile.
    apply confined_bind with (Q1 := fun _ => True);
      [apply confined_field; intros; exact I|].
    intros lowered _.
    destruct (negb (Str.mem (Str.lower t) lowered));
      [apply confined_ret; exact Hd'|].
    apply confined_bind with (Q1 := fun _ => True).
    + destruct (truthy_list (product_name_filters p));
        [apply compile_filters_confined|apply confined_ret; exact I].
    + intros rs _. apply confined_ret. intros k q J.
      apply assign_profile_In in J. destruct J as [->|J]; auto.
      now apply Hd' with (k := k).
  - intros d' Hd'. apply confined_ret. exact Hd'.
Qed.

Lemma index_subsets_from (data : AssetData) :
  let '(pbi, vbp, rbv) := index_subsets data in
  (forall k s,
      In (k, s) pbi ->
      exists pid e, In (pid, e) (subsets_of data) /\ subset_doc_of e = s)
  /\ (forall k l,
        In (k, l) rbv ->
        exists pid e, In (pid, e) (subsets_of data) /\ repres_of e = l).
Proof.
  unfold index_subsets.
  apply loop_inv
    with (P := fun st : PyDict.t SubsetDoc * PyDict.t VersionDoc
                        * PyDict.t (list RepreDoc) =>
                 let '(pbi, vbp, rbv) := st in
                 (forall k s,
                     In (k, s) pbi ->
                     exists pid e,
                       In (pid, e) (subsets_of data) /\ subset_doc_of e = s)
                 /\ (forall k l,
                       In (k, l) rbv ->
                       exists pid e,
                         In (pid, e) (subsets_of data) /\ repres_of e = l)).
  - intros [pid e] [[pbi vbp] rbv] I [A B]. split.
    + intros k s J. apply In_set_inv in J. destruct J as [[_ ->]|J]; eauto.
    + intros k l J. apply In_set_inv in J. destruct J as [[_ ->]|J]; eauto.
  - split; intros k x [].
Qed.

Lemma collect_valid_repres_confined (profs : PyDict.t Profile)
  (vbp : PyDict.t VersionDoc) (rbv : PyDict.t (list RepreDoc)) :
  confined P
    (fun valid =>
       forall k l r,
         In (k, l) valid -> In r l -> exists k' l', In (k', l') rbv /\ In r l')
    (collect_valid_repres (Host := Host) profs vbp rbv).
Proof.
  unfold collect_valid_repres.
  apply confined_for
    with (Inv := fun valid : PyDict.t (list RepreDoc) =>
                   forall k l r,
                     In (k, l) valid -> In r l ->
                     exists k' l', In (k', l') rbv /\ In r l');
    [|intros k l r []].
  intros [pid profile] valid _ Hv.
  apply confined_bind with (Q1 := fun _ => True);
    [apply confined_field; intros; exact I|].
  intros names _.
  apply confined_bind with (Q1 := fun _ => True);
    [apply confined_subscript; intros; exact I|].
  intros version_doc _. cbv zeta.
  apply confined_bind
    with (Q1 := fun repres =>
                  PyDict.get (version_id version_doc) rbv = Some repres).
  { apply confined_subscript. auto. }
  intros repres G. apply PyDictFacts.get_Some_In in G.
  apply confined_ret.
  assert (S : forall pre,
             (forall r, In r pre -> In r repres) ->
             forall k l r,
               In (k, l)
                 (loop pre
                    (fun repre acc =>
                       if Str.mem (Str.lower (repre_name repre)) names
                       then Next (append_to pid repre acc)
                       else Next acc)
                    valid) ->
               In r l -> exists k' l', In (k', l') rbv /\ In r l').
  { intros pre Hp.
    apply loop_inv
      with (P := fun acc : PyDict.t (list RepreDoc) =>
                   forall k l r,
                     In (k, l) acc -> In r l ->
                     exists k' l', In (k', l') rbv /\ In r l');
      [|exact Hv].
    intros x acc Ix Ha.
    destruct (Str.mem (Str.lower (repre_name x)) names); [|exact Ha].
    intros k l r J Ir. apply append_to_In in J.
    destruct J as [J|[l0 [-> [->|J]]]].
    - now apply Ha with (k := k) (l := l).
    - destruct Ir as [<-|[]]. exists (version_id version_doc), repres.
      split; [exact G|]. now apply Hp.
    - apply in_app_or in Ir. destruct Ir as [Ir|[<-|[]]].
      + now apply Ha with (k := pid) (l := l0).
      + exists (version_id version_doc), repres.
        split; [exact G|]. now apply Hp. }
  apply S. auto.
Qed.

Lemma debug_valid_repres_confined (asset : AssetDoc)
  (pbi : PyDict.t SubsetDoc) (valid : PyDict.t (list RepreDoc)) :
  confined P (fun _ => True)
    (debug_valid_repres (Host := Host) asset pbi valid).
Proof.
  unfold debug_valid_repres.
  apply confined_bind with (Q1 := fun _ => True).
  - apply confined_for with (Inv := fun _ => True); [|exact I].
    intros [pid repres] msg _ _.
    apply confined_bind with (Q1 := fun _ => True);
      [apply confined_subscript; intros; exact I|].
    intros; apply confined_ret; exact I.
  - intros msg _. apply confined_emit; [apply P_log|exact I].
Qed.

End ConfinedData.

Lemma load_asset_data_confined (Host Container : Type)
  (env : Env Host Container) (P : Event -> Prop) (data : AssetData)
  (build_profiles : option (list Profile)) (lbn : PyDict.t LoaderPlugin) :
  (forall lvl m, P (Log lvl m)) ->
  (forall m, P (Print m)) ->
  (forall l r s,
      asked_for data (list_of build_profiles) lbn l r s ->
      P (LoadCall (loader_name l) (repre_id r) (subset_name s))) ->
  confined P
    (fun r =>
       forall ld, r = Some ld -> loaded_asset_doc ld = asset_doc_of data)
    (load_containers_by_asset_data env data build_profiles lbn).
Proof.
  intros P_log P_print P_call. unfold load_containers_by_asset_data.
  destruct (negb (truthy_list build_profiles) || negb (PyDict.truthy lbn)).
  { apply confined_ret. discriminate. }
  cbv zeta.
  eapply confined_bind; [apply filter_confined; exact P_log|].
  intros valid Hv. destruct valid as [|q0 valid'].
  { apply confined_bind with (Q1 := fun _ => True);
      [apply confined_emit; [apply P_log|exact I]|].
    intros _ _. apply confined_ret. discriminate. }
  apply confined_bind with (Q1 := fun _ => True);
    [apply confined_emit; [apply P_log|exact I]|].
  intros _ _.
  pose proof (index_subsets_from data) as X.
  destruct (index_subsets data) as [[pbi vbp] rbv]. destruct X as [Xp Xr].
  destruct (negb (PyDict.truthy pbi)).
  { apply confined_bind with (Q1 := fun _ => True);
      [apply confined_emit; [apply P_log|exact I]|].
    intros _ _. apply confined_ret. discriminate. }
  eapply confined_bind; [apply prepare_confined|].
  intros profs Hp. destruct (negb (PyDict.truthy profs)).
  { apply confined_bind with (Q1 := fun _ => True);
      [apply confined_emit; [apply P_log|exact I]|].
    intros _ _. apply confined_ret. discriminate. }
  eapply confined_bind; [apply collect_valid_repres_confined|].
  intros rbp Hr.
  apply confined_bind with (Q1 := fun _ => True);
    [apply debug_valid_repres_confined; exact P_log|].
  intros _ _.
  apply confined_bind with (Q1 := fun _ => True).
  - apply load_containers_confined with (ok := planned rbp pbi profs lbn);
      [exact P_log|exact P_print| |auto].
    intros l r s [pid [repres [profile [key [A [B [C [D [E [F G]]]]]]]]]].
    apply P_call. split; [|split].
    + apply PyDictFacts.get_Some_In in C. exact (Xp pid s C).
    + destruct (Hr pid repres r A B) as [k' [l' [J K]]].
      destruct (Xr k' l' J) as [pid' [e [Je <-]]]. now exists pid', e.
    + apply PyDictFacts.get_Some_In in D. apply Hp in D.
      apply Hv in D. destruct D as [p [Ip ->]]. exists p, key.
      cbn [with_lowered repre_names_lowered loaders list_of] in *. auto.
  - intros cs _. apply confined_ret. intros ld E. injection E as <-.
    reflexivity.
Qed.

(** X14: what [load_containers_by_asset_data] calls [load_container]
    with.  Whatever its arguments are, and whether it returns or raises,
    it only adds events, and every call of [load_container] among them
    names a product and a representation of the folder data it was given
    and a loader of the registry it was given; one of the build profiles
    it was given lists the name under which this loader is registered and,
    up to case, the name of the representation.  The dictionary it
    returns, if any, holds the folder document of the data. *)
Theorem load_asset_data_calls_are_asked_for (Host Container : Type)
  (env : Env Host Container) (asset_doc_data : AssetData)
  (build_profiles : option (list Profile))
  (loaders_by_name : PyDict.t LoaderPlugin) (w : World Host) :
  let run :=
    load_containers_by_asset_data env asset_doc_data build_profiles
      loaders_by_name w in
  (exists evs,
      events (fst run) = events w ++ evs
      /\ forall loader repre name,
           In (LoadCall loader repre name) evs ->
           exists l r s,
             asked_for asset_doc_data (list_of build_profiles)
               loaders_by_name l r s
             /\ loader_name l = loader /\ repre_id r = repre
             /\ subset_name s = name)
  /\ forall loaded_data,
       snd run = Ret (Some loaded_data) ->
       loaded_asset_doc loaded_data = asset_doc_of asset_doc_data.
Proof.
  cbv zeta.
  assert (C : confined
                (call_ok (asked_for asset_doc_data (list_of build_profiles)
                            loaders_by_name))
                (fun r =>
                   forall ld,
                     r = Some ld ->
                     loaded_asset_doc ld = asset_doc_of asset_doc_data)
                (load_containers_by_asset_data env asset_doc_data
                   build_profiles loaders_by_name)).
  { apply load_asset_data_confined; try (intros; exact I).
    intros l r s H. cbn. eauto 10. }
  split.
  - eapply confined_calls. exact C.
  - intros ld E. destruct (C w) as [_ R]. rewrite E in R. now apply R.
Qed.

(** ** Load calls and result of a whole build *)

Lemma keys_remove (V : Type) (k k' : string) (d : PyDict.t V) :
  In k' (PyDict.keys (PyDict.remove k d)) -> In k' (PyDict.keys d).
Proof.
  unfold PyDict.keys. intros I. apply in_map_iff in I.
  destruct I as [[k0 v] [<- I]]. apply PyDictFacts.In_remove in I.
  apply in_map_iff. now exists (k0, v).
Qed.

Lemma wf_remove (V : Type) (k : string) (d : PyDict.t V) :
  PyDict.wf d ->
  PyDict.wf (PyDict.remove k d) /\ ~ In k (PyDict.keys (PyDict.remove k d)).
Proof.
  unfold PyDict.wf. induction d as [|[k' v] r IH]; intros W.
  - split; [constructor|intros []].
  - cbn [PyDict.keys map fst] in W. apply NoDup_cons_iff in W.
    destruct W as [N W]. cbn [PyDict.remove].
    destruct (String.eqb_spec k k') as [->|D].
    + split; assumption.
    + destruct (IH W) as [A B]. split.
      * cbn [PyDict.keys map fst]. constructor; [|exact A].
        intros I. apply N. now apply keys_remove in I.
      * cbn [PyDict.keys map fst]. intros [E|I]; [congruence|].
        now apply B.
Qed.

Lemma values_ids (V : Type) (f : V -> string) (d : PyDict.t V) :
  (forall k v, In (k, v) d -> f v = k) ->
  map f (PyDict.values d) = PyDict.keys d.
Proof.
  induction d as [|[k v] r IH]; intros H; [reflexivity|].
  cbn [PyDict.values PyDict.keys map fst snd].
  rewrite (H k v (or_introl eq_refl)). f_equal.
  apply IH. intros k' v' I. apply H. now right.
Qed.

Section ConfinedBuild.
Variables Host Container : Type.
Variable env : Env Host Container.
Variable P : Event -> Prop.
Hypothesis P_log : forall lvl m, P (Log lvl m).
Hypothesis P_print : forall m, P (Print m).
Hypothesis P_call :
  forall l r s,
    sanctioned env l r s ->
    P (LoadCall (loader_name l) (repre_id r) (subset_name s)).

Lemma collect_confined (asset_docs : list AssetDoc) :
  (forall q, P (Query q)) ->
  confined P (collected_from env asset_docs)
    (_collect_last_version_repres env asset_docs).
Proof.
  intros P_query w. unfold collected_from.
  destruct asset_docs as [|first others].
  - cbn. split; [exists []; now rewrite app_nil_r|].
    split; [apply PyDictFacts.wf_empty|intros fid data []].
  - pose proof (collect_cases Host Container env first others w) as C.
    cbv zeta in C.
    destruct (first_missing_key _ _ _ _) as [k|].
    + rewrite C. cbn [fst snd events add_events]. split; [|exact I].
      eexists. split; [reflexivity|]. repeat constructor; apply P_query.
    + destruct C as [output [E [W [D F]]]]. rewrite E.
      cbn [fst snd events add_events]. split.
      { eexists. split; [reflexivity|].
        repeat constructor; apply P_query. }
      split; [exact W|]. intros fid data J.
      destruct (D fid data J) as [A [B [N De]]].
      apply PyDictFacts.get_of_seq in A as [x [Ix [Ek Ev]]].
      split; [rewrite <- Ev; exact Ix|]. split; [rewrite <- Ev; exact Ek|].
      intros pid e Je. destruct (De pid e Je) as [A1 _]. split.
      * apply PyDictFacts.get_of_seq in A1 as [y [Iy [_ Ey]]].
        rewrite <- Ey. eexists. exact Iy.
      * intros r Ir.
        assert (R : filed_repres output fid pid = repres_of e).
        { unfold filed_repres.
          rewrite (@PyDictFacts.In_get _ _ _ _ W J).
          rewrite (@PyDictFacts.In_get _ _ _ _ B Je).
          reflexivity. }
        rewrite <- R, F in Ir. apply filter_In in Ir.
        eexists. exact (proj1 Ir).
Qed.

Variable lbn : PyDict.t LoaderPlugin.
Hypothesis lbn_ok :
  forall k l,
    PyDict.get k lbn = Some l ->
    In l (discover_loader_plugins env) /\ enabled l = true.

Lemma load_asset_data_sanctioned (data : AssetData)
  (build_profiles : option (list Profile)) :
  data_from (repre_from_store env) (product_from_store env) data ->
  confined P
    (fun r =>
       forall ld, r = Some ld -> loaded_asset_doc ld = asset_doc_of data)
    (load_containers_by_asset_data env data build_profiles lbn).
Proof.
  intros D. apply load_asset_data_confined; try assumption.
  intros l r s [[pid [e [Ie Es]]] [[pid' [e' [Ie' Ir]]] K]].
  apply P_call.
  destruct K as [profile [key [_ [_ [_ G]]]]].
  split; [now apply lbn_ok with (k := key)|]. split.
  - exact (proj2 (D pid' e' Ie') r Ir).
  - rewrite <- Es. exact (proj1 (D pid e Ie)).
Qed.

Lemma profiles_now_events (w : World Host) :
  events (fst (current_context_profiles_now w)) = events w.
Proof. reflexivity. Qed.

(** Lines 208-227, once the entities are collected. *)
Lemma load_collected_confined (link_profiles : option (list Profile))
  (folder_id : option string) (asset_docs : list AssetDoc)
  (output : PyDict.t AssetData) :
  collected_from env asset_docs output ->
  confined P
    (fun result =>
       NoDup (map (loaded_folder_id (Container := Container)) result)
       /\ forall ld, In ld result -> In (loaded_asset_doc ld) asset_docs)
    (bind
       match folder_id with
       | Some folder_id =>
           if Str.truthy folder_id then
             match PyDict.get folder_id output with
             | Some current_context_data =>
                 bind (@current_context_profiles_now Host) (fun profiles =>
                 bind
                   (load_containers_by_asset_data env current_context_data
                      profiles lbn)
                   (fun loaded_data =>
                      ret (PyDict.remove folder_id output,
                           append_loaded loaded_data [])))
             | None => ret (output, [])
             end
           else ret (output, [])
       | None => ret (output, [])
       end
       (fun x =>
          match x with
          | (prepared_entities, loaded_containers) =>
              for_ (PyDict.values prepared_entities)
                (fun linked_asset_data loaded_containers =>
                   bind
                     (load_containers_by_asset_data env linked_asset_data
                        link_profiles lbn)
                     (fun loaded_data =>
                        ret (Next (append_loaded loaded_data
                                     loaded_containers))))
                loaded_containers
          end)).
Proof.
  intros [W D].
  apply confined_bind
    with (Q1 := fun st : PyDict.t AssetData * list (LoadedData Container) =>
                  collected_from env asset_docs (fst st)
                  /\ NoDup (map (loaded_folder_id (Container := Container))
                              (snd st))
                  /\ forall ld,
                       In ld (snd st) ->
                       In (loaded_asset_doc ld) asset_docs
                       /\ ~ In (loaded_folder_id ld) (PyDict.keys (fst st))).
  - assert (T : confined P
                  (fun st : PyDict.t AssetData
                            * list (LoadedData Container) =>
                     collected_from env asset_docs (fst st)
                     /\ NoDup (map (loaded_folder_id
                                      (Container := Container)) (snd st))
                     /\ forall ld,
                          In ld (snd st) ->
                          In (loaded_asset_doc ld) asset_docs
                          /\ ~ In (loaded_folder_id ld)
                                 (PyDict.keys (fst st)))
                  (ret (Host := Host) (output, []))).
    { apply confined_ret. cbn [fst snd map]. split; [split; assumption|].
      split; [constructor|intros ld []]. }
    destruct folder_id as [fid|]; [|exact T].
    destruct (Str.truthy fid); [|exact T].
    destruct (PyDict.get fid output) as [current|] eqn:G; [|exact T].
    clear T. apply PyDictFacts.get_Some_In in G.
    destruct (D fid current G) as [Da [Di Df]].
    apply confined_bind with (Q1 := fun _ => True).
    { apply confined_same_events; [|intros; exact I].
      apply profiles_now_events. }
    intros profiles _.
    eapply confined_bind; [apply load_asset_data_sanctioned; exact Df|].
    intros r Hr. apply confined_ret. cbn [fst snd].
    destruct (wf_remove _ fid _ W) as [Wr Nr].
    split.
    { split; [exact Wr|]. intros k data J.
      apply PyDictFacts.In_remove in J. now apply D. }
    destruct r as [ld|]; cbn [append_loaded app map].
    + split.
      * constructor; [intros []|constructor].
      * intros ld' [<-|[]]. unfold loaded_folder_id.
        rewrite (Hr ld eq_refl), Di. auto.
    + split; [constructor|intros ld []].
  - intros [pe l1] [[Wp Dp] [N1 H1]]. cbn [fst snd] in *.
    assert (Nv : NoDup (map (fun d => asset_id (asset_doc_of d))
                          (PyDict.values pe))).
    { rewrite values_ids; [exact Wp|]. intros k v J.
      exact (proj1 (proj2 (Dp k v J))). }
    eapply confined_weaken.
    + apply confined_for_indexed
        with (Inv := fun (pre : list AssetData)
                         (s : list (LoadedData Container)) =>
                       NoDup (map (loaded_folder_id
                                     (Container := Container)) s)
                       /\ forall ld,
                            In ld s ->
                            In (loaded_asset_doc ld) asset_docs
                            /\ (~ In (loaded_folder_id ld) (PyDict.keys pe)
                                \/ In (loaded_folder_id ld)
                                     (map (fun d => asset_id (asset_doc_of d))
                                        pre))).
      * intros pre data post s E [Ns Hs].
        assert (Jd : exists k, In (k, data) pe).
        { assert (J : In data (PyDict.values pe))
            by (rewrite E; apply in_or_app; right; now left).
          unfold PyDict.values in J. apply in_map_iff in J.
          destruct J as [[k d] [<- J]]. now exists k. }
        destruct Jd as [k Jd]. destruct (Dp k data Jd) as [Da [Di Df]].
        eapply confined_bind; [apply load_asset_data_sanctioned; exact Df|].
        intros r Hr. apply confined_ret.
        assert (M : forall ld,
                   In ld s ->
                   In (loaded_asset_doc ld) asset_docs
                   /\ (~ In (loaded_folder_id ld) (PyDict.keys pe)
                       \/ In (loaded_folder_id ld)
                            (map (fun d => asset_id (asset_doc_of d))
                               (pre ++ [data])))).
        { intros ld J. destruct (Hs ld J) as [A [B|B]]; auto.
          split; [exact A|]. right. rewrite map_app. apply in_or_app.
          now left. }
        destruct r as [ld|]; cbn [append_loaded]; [|split; assumption].
        pose proof (Hr ld eq_refl) as El.
        assert (Fl : loaded_folder_id ld = k)
          by (unfold loaded_folder_id; now rewrite El).
        split.
        -- rewrite map_app. cbn [map]. apply NoDup_snoc; [exact Ns|].
           intros J. apply in_map_iff in J. destruct J as [ld' [Ef J]].
           destruct (Hs ld' J) as [_ [B|B]].
           ++ apply B. rewrite Ef, Fl. unfold PyDict.keys.
              apply in_map_iff. now exists (k, data).
           ++ rewrite E, map_app in Nv. cbn [map] in Nv.
              apply NoDup_remove_2 in Nv. apply Nv, in_or_app. left.
              rewrite Ef, Fl, <- Di in B. exact B.
        -- intros ld' J. apply in_app_or in J. destruct J as [J|[<-|[]]];
             [now apply M|].
           split; [rewrite El; exact Da|]. right. rewrite map_app.
           apply in_or_app. right. left. now rewrite Fl.
      * split; [exact N1|]. intros ld J. destruct (H1 ld J) as [A B]. auto.
    + intros result [N H]. split; [exact N|]. intros ld J.
      exact (proj1 (H ld J)).
Qed.

Lemma load_prepared_confined (link_profiles : option (list Profile))
  (folder_id : option string) (asset_docs : list AssetDoc) :
  (forall q, P (Query q)) ->
  confined P
    (fun result =>
       NoDup (map (loaded_folder_id (Container := Container)) result)
       /\ forall ld, In ld result -> In (loaded_asset_doc ld) asset_docs)
    (load_prepared env lbn link_profiles folder_id asset_docs []).
Proof.
  intros P_query. unfold load_prepared.
  eapply confined_bind; [now apply collect_confined|].
  intros output C. now apply load_collected_confined.
Qed.

Lemma build_for_task_confined (current : AssetDoc) :
  (forall q, P (Query q)) ->
  confined P
    (fun result =>
       NoDup (map (loaded_folder_id (Container := Container)) result)
       /\ forall ld,
            In ld result ->
            exists presets,
              get_build_presets env (get_current_task_name env) current
              = Some presets
              /\ In (loaded_asset_doc ld)
                   (candidate_folders presets current
                      (get_linked_assets env (get_current_project_name env)
                         current)))
    (build_for_task env current lbn []).
Proof.
  intros P_query. unfold build_for_task. cbv zeta.
  apply confined_bind with (Q1 := fun _ => True).
  { apply confined_same_events; [reflexivity|intros; exact I]. }
  intros _ _.
  destruct (get_build_presets env (get_current_task_name env) current)
    as [presets|] eqn:G.
  2:{ apply confined_bind with (Q1 := fun _ => True);
        [apply confined_emit; [apply P_log|exact I]|].
      intros _ _. apply confined_ret.
      split; [constructor|intros ld []]. }
  destruct (negb (truthy_list (current_context presets))
            && negb (truthy_list (linked_assets presets))).
  { apply confined_bind with (Q1 := fun _ => True);
      [apply confined_emit; [apply P_log|exact I]|].
    intros _ _. apply confined_ret. split; [constructor|intros ld []]. }
  apply confined_bind with (Q1 := fun _ => True).
  { destruct (negb (truthy_list (current_context presets)));
      [apply confined_emit; [apply P_log|exact I]|].
    destruct (negb (truthy_list (linked_assets presets)));
      [apply confined_emit; [apply P_log|exact I]
      |apply confined_ret; exact I]. }
  intros _ _.
  assert (T : forall (first : list AssetDoc) (fid : option string),
             first
             = (if truthy_list (current_context presets)
                then [current] else []) ->
             confined P
               (fun result =>
                  NoDup (map (loaded_folder_id (Container := Container))
                           result)
                  /\ forall ld,
                       In ld result ->
                       exists presets0,
                         Some presets = Some presets0
                         /\ In (loaded_asset_doc ld)
                              (candidate_folders presets0 current
                                 (get_linked_assets env
                                    (get_current_project_name env) current)))
               (bind
                  (if truthy_list (linked_assets presets)
                   then
                     bind
                       (query
                          (QLinkedAssets (get_current_project_name env)
                             (asset_id current))
                          (get_linked_assets env
                             (get_current_project_name env) current))
                       (fun link_assets => ret (first ++ link_assets))
                   else ret first)
                  (fun asset_docs =>
                     match asset_docs with
                     | [] =>
                         bind (log Warning NoLinkedAssets)
                           (fun _ => ret [])
                     | _ :: _ =>
                         load_prepared env lbn (linked_assets presets) fid
                           asset_docs []
                     end))).
  { intros first fid E.
    apply confined_bind
      with (Q1 := fun asset_docs =>
                    asset_docs
                    = candidate_folders presets current
                        (get_linked_assets env (get_current_project_name env)
                           current)).
    - unfold candidate_folders. rewrite <- E.
      destruct (truthy_list (linked_assets presets)).
      + apply confined_bind
          with (Q1 := fun l =>
                        l = get_linked_assets env
                              (get_current_project_name env) current).
        * apply confined_query; [apply P_query|reflexivity].
        * intros l ->. apply confined_ret. reflexivity.
      + apply confined_ret. now rewrite app_nil_r.
    - intros asset_docs Ea. destruct asset_docs as [|a0 rest].
      + apply confined_bind with (Q1 := fun _ => True);
          [apply confined_emit; [apply P_log|exact I]|].
        intros _ _. apply confined_ret. split; [constructor|intros ld []].
      + eapply confined_weaken;
          [apply load_prepared_confined; exact P_query|].
        intros result [N H]. split; [exact N|]. intros ld J.
        exists presets. split; [reflexivity|]. rewrite <- Ea. now apply H. }
  destruct (truthy_list (current_context presets)) eqn:C.
  - apply (T [current] (Some (asset_id current)) eq_refl).
  - apply (T [] None eq_refl).
Qed.

End ConfinedBuild.

Lemma collect_loaders_confined (Host : Type) (P : Event -> Prop)
  (discovered : list LoaderPlugin) :
  confined P
    (fun lbn =>
       forall k l,
         PyDict.get k lbn = Some l -> In l discovered /\ enabled l = true)
    (collect_loaders (Host := Host) discovered).
Proof.
  intros w. rewrite collect_loaders_spec.
  destruct (duplicated_loader discovered); cbn [fst snd].
  - split; [|exact I]. exists []. now rewrite app_nil_r.
  - split; [exists []; now rewrite app_nil_r|].
    intros k l G. apply PyDictFacts.get_of_seq in G as [x [Ix [_ <-]]].
    now apply filter_In in Ix.
Qed.

Lemma build_workfile_confined (Host Container : Type)
  (env : Env Host Container) :
  confined (call_ok (sanctioned env))
    (fun result =>
       NoDup (map (loaded_folder_id (Container := Container)) result)
       /\ forall ld,
            In ld result ->
            exists current presets,
              get_asset_by_name env (get_current_project_name env)
                (get_current_asset_name env) = Some current
              /\ get_build_presets env (get_current_task_name env) current
                 = Some presets
              /\ In (loaded_asset_doc ld)
                   (candidate_folders presets current
                      (get_linked_assets env (get_current_project_name env)
                         current)))
    (build_workfile env).
Proof.
  unfold build_workfile. cbv zeta.
  apply confined_bind
    with (Q1 := fun a =>
                  a = get_asset_by_name env (get_current_project_name env)
                        (get_current_asset_name env)).
  { apply confined_query; [exact I|reflexivity]. }
  intros found E. destruct found as [current|].
  2:{ apply confined_bind with (Q1 := fun _ => True);
        [apply confined_emit; exact I|].
      intros _ _. apply confined_ret. split; [constructor|intros ld []]. }
  eapply confined_bind; [apply collect_loaders_confined|].
  intros lbn Hl. destruct (negb (PyDict.truthy lbn)).
  { apply confined_bind with (Q1 := fun _ => True);
      [apply confined_emit; exact I|].
    intros _ _. apply confined_ret. split; [constructor|intros ld []]. }
  eapply confined_weaken.
  { apply build_for_task_confined; try (intros; exact I); [|exact Hl].
    intros l r s H. cbn. eauto 10. }
  intros result [N H]. split; [exact N|]. intros ld J.
  destruct (H ld J) as [presets [G K]]. exists current, presets. auto.
Qed.


Lemma build_returns (Host Container : Type) (env : Env Host Container)
  (w : World Host) :
  store_ok env ->
  (forall asset presets,
      get_asset_by_name env (get_current_project_name env)
        (get_current_asset_name env) = Some asset ->
      get_build_presets env (get_current_task_name env) asset = Some presets ->
      presets_ok presets) ->
  NoDup (map loader_name (filter enabled (discover_loader_plugins env))) ->
  exists result, snd (build_workfile env w) = Ret result.
Proof.
  intros S Pk N. unfold build_workfile. cbv zeta. rewrite bind_query.
  destruct (get_asset_by_name env (get_current_project_name env)
              (get_current_asset_name env)) as [asset|] eqn:F.
  - unfold bind at 1. rewrite collect_loaders_spec. unfold duplicated_loader.
    rewrite (proj2 (first_duplicate_none _ [])
               (conj N (fun n _ (f : In n []) => f))).
    destruct (negb (PyDict.truthy _)).
    + rewrite bind_log. cbn. eauto.
    + destruct (build_for_task_ok Host Container env asset
                  (PyDict.of_seq loader_name (fun x => x)
                     (filter enabled (discover_loader_plugins env)))
                  []
                  (add_events
                     [Query (QAssetByName (get_current_project_name env)
                               (get_current_asset_name env))] w) S)
        as [w' [result [E _]]].
      * intros presets G. now apply (Pk asset).
      * rewrite E. cbn. eauto.
  - rewrite bind_print. cbn. eauto.
Qed.

(** X16: what a build returns.  When the store answers consistently, the
    presets of the task are well formed and the enabled loaders have
    distinct names, [build_workfile] returns a list with at most one entry
    per folder id, and the folder of every entry is the current folder,
    which is possible only when the current-context pool of the presets
    is filled, or one of the folders linked to it, which is possible only
    when the linked-folder pool is filled. *)
Theorem build_result_one_entry_per_folder (Host Container : Type)
  (env : Env Host Container) (w : World Host) :
  store_ok env ->
  (forall asset presets,
      get_asset_by_name env (get_current_project_name env)
        (get_current_asset_name env) = Some asset ->
      get_build_presets env (get_current_task_name env) asset = Some presets ->
      presets_ok presets) ->
  NoDup (map loader_name (filter enabled (discover_loader_plugins env))) ->
  exists result,
    snd (build_workfile env w) = Ret result
    /\ NoDup (map (loaded_folder_id (Container := Container)) result)
    /\ forall loaded_data,
         In loaded_data result ->
         exists current presets,
           get_asset_by_name env (get_current_project_name env)
             (get_current_asset_name env) = Some current
           /\ get_build_presets env (get_current_task_name env) current
              = Some presets
           /\ In (loaded_asset_doc loaded_data)
                (candidate_folders presets current
                   (get_linked_assets env (get_current_project_name env)
                      current)).
Proof.
  intros S Pk N.
  destruct (build_returns Host Container env w S Pk N) as [result E].
  exists result. split; [exact E|].
  destruct (build_workfile_confined Host Container env w) as [_ R].
  rewrite E in R. exact R.
Qed.

Lemma build_result_one_entry_per_folder_witness :
  exists result,
    snd (build_workfile Scenario.env_linked (Scenario.world_with None))
    = Ret result
    /\ NoDup (map (loaded_folder_id (Container := Scenario.Container))
                result)
    /\ forall loaded_data,
         In loaded_data result ->
         exists current presets,
           get_asset_by_name Scenario.env_linked
             (get_current_project_name Scenario.env_linked)
             (get_current_asset_name Scenario.env_linked) = Some current
           /\ get_build_presets Scenario.env_linked
                (get_current_task_name Scenario.env_linked) current
              = Some presets
           /\ In (loaded_asset_doc loaded_data)
                (candidate_folders presets current
                   (get_linked_assets Scenario.env_linked
                      (get_current_project_name Scenario.env_linked)
                      current)).
Proof.
  apply build_result_one_entry_per_folder.
  - split; [|split]; intros project ids x I;
      cbn [Scenario.env_linked Scenario.env_with get_subsets
           get_last_versions get_representations] in I.
    + apply filter_In in I as [_ I]. now apply mem_In.
    + apply in_map_iff in I as [[k v] [<- I]].
      apply filter_In in I as [I M]. apply mem_In in M. cbn [fst] in M.
      destruct I as [E|[E|[]]]; injection E as <- <-; exact M.
    + apply filter_In in I as [_ I]. now apply mem_In.
  - intros asset presets _ G. cbn in G. injection G as <-.
    intros p [<-|[<-|[]]]; split; eexists; reflexivity.
  - repeat constructor; simpl; intuition discriminate.
Defined.

(** ** When a folder yields an entry (lines 408-503) *)








(** ** Store queries of a build *)

Section Asking.
Variable Host : Type.

Lemma asking_ret (A : Type) (Q : A -> Prop) (a : A) :
  Q a -> asking [] Q (ret (Host := Host) a).
Proof.
  intros H w. cbn. split; [|exact H]. exists []. now rewrite app_nil_r.
Qed.

Lemma asking_bind (A B : Type) (q1 q2 : list Event) (Q1 : A -> Prop)
  (Q : B -> Prop) (m : M Host A) (k : A -> M Host B) :
  asking q1 Q1 m ->
  (forall a, Q1 a -> asking q2 Q (k a)) ->
  (forall w e, snd (m w) = Raise e -> q2 = []) ->
  asking (q1 ++ q2) Q (bind m k).
Proof.
  intros Hm Hk Hr w. unfold bind. destruct (Hm w) as [[evs [E F]] R].
  specialize (Hr w).
  destruct (m w) as [w1 [a|e]]; cbn [fst snd] in *.
  - destruct (Hk a R w1) as [[evs2 [E2 F2]] R2]. split; [|exact R2].
    exists (evs ++ evs2). rewrite E2, E, app_assoc. split; [reflexivity|].
    unfold queries in *. now rewrite filter_app, F, F2.
  - split; [|exact I]. exists evs. split; [exact E|].
    rewrite (Hr e eq_refl), app_nil_r. exact F.
Qed.

Lemma asking_of_confined (A : Type) (Q : A -> Prop) (m : M Host A) :
  confined (fun e => is_query e = false) Q m -> asking [] Q m.
Proof.
  intros C w. destruct (C w) as [[evs [E F]] R]. split; [|exact R].
  exists evs. split; [exact E|]. clear E R. unfold queries.
  induction F as [|e r He _ IH]; [reflexivity|].
  cbn [filter]. now rewrite He.
Qed.

Lemma asking_query (A : Type) (Q : A -> Prop) (q : StoreQuery) (a : A) :
  Q a -> asking [Query q] Q (query (Host := Host) q a).
Proof.
  intros H w. cbn. split; [|exact H]. exists [Query q]. auto.
Qed.

Lemma asking_weaken (A : Type) (qs : list Event) (Q1 Q2 : A -> Prop)
  (m : M Host A) :
  asking qs Q1 m -> (forall a, Q1 a -> Q2 a) -> asking qs Q2 m.
Proof.
  intros H I w. destruct (H w) as [E R]. split; [exact E|].
  destruct (snd (m w)); auto.
Qed.

End Asking.

Section BuildQueries.
Variables Host Container : Type.
Variable env : Env Host Container.

Lemma collect_asking (asset_docs : list AssetDoc) :
  asking (collect_queries env asset_docs) (collected_from env asset_docs)
    (_collect_last_version_repres env asset_docs).
Proof.
  intros w. split.
  - destruct asset_docs as [|first others].
    + cbn. exists []. now rewrite app_nil_r.
    + pose proof (collect_cases Host Container env first others w) as C.
      cbv zeta in C. unfold collect_queries. cbv zeta.
      destruct (first_missing_key _ _ _ _) as [k|].
      * rewrite C. cbn [fst events add_events]. eexists.
        split; reflexivity.
      * destruct C as [output [E _]]. rewrite E.
        cbn [fst events add_events]. eexists. split; reflexivity.
  - destruct (collect_confined Host Container env (fun _ => True)
                asset_docs (fun _ => I) w) as [_ R].
    exact R.
Qed.

Variable lbn : PyDict.t LoaderPlugin.
Hypothesis lbn_ok :
  forall k l,
    PyDict.get k lbn = Some l ->
    In l (discover_loader_plugins env) /\ enabled l = true.

Lemma load_prepared_asking (link_profiles : option (list Profile))
  (folder_id : option string) (asset_docs : list AssetDoc) :
  asking (collect_queries env asset_docs) (fun _ => True)
    (load_prepared env lbn link_profiles folder_id asset_docs []).
Proof.
  unfold load_prepared.
  rewrite <- (app_nil_r (collect_queries env asset_docs)).
  eapply asking_bind; [apply collect_asking| |reflexivity].
  intros output C. apply asking_of_confined.
  eapply confined_weaken.
  - apply load_collected_confined
      with (P := fun e => is_query e = false) (asset_docs := asset_docs);
      try reflexivity; assumption.
  - intros; exact I.
Qed.

Lemma build_for_task_asking (current : AssetDoc) :
  asking (task_queries env current) (fun _ => True)
    (build_for_task env current lbn []).
Proof.
  unfold build_for_task, task_queries. cbv zeta.
  match goal with
  | |- asking ?qs _ _ => rewrite <- (app_nil_l qs)
  end.
  eapply asking_bind with (Q1 := fun _ => True).
  { apply asking_of_confined, confined_same_events;
      [reflexivity|intros; exact I]. }
  2:{ intros w e E. discriminate. }
  intros _ _.
  destruct (get_build_presets env (get_current_task_name env) current)
    as [presets|].
  2:{ apply asking_of_confined.
      apply confined_bind with (Q1 := fun _ => True);
        [apply confined_emit; [reflexivity|exact I]|].
      intros _ _. apply confined_ret; exact I. }
  destruct (negb (truthy_list (current_context presets))
            && negb (truthy_list (linked_assets presets))).
  { apply asking_of_confined.
    apply confined_bind with (Q1 := fun _ => True);
      [apply confined_emit; [reflexivity|exact I]|].
    intros _ _. apply confined_ret; exact I. }
  match goal with
  | |- asking ?qs _ _ => rewrite <- (app_nil_l qs)
  end.
  eapply asking_bind with (Q1 := fun _ => True).
  { apply asking_of_confined.
    destruct (negb (truthy_list (current_context presets)));
      [apply confined_emit; [reflexivity|exact I]|].
    destruct (negb (truthy_list (linked_assets presets)));
      [apply confined_emit; [reflexivity|exact I]
      |apply confined_ret; exact I]. }
  2:{ intros w e E.
      destruct (negb (truthy_list (current_context presets)));
        [discriminate|].
      destruct (negb (truthy_list (linked_assets presets))); discriminate. }
  intros _ _.
  assert (T : forall (first : list AssetDoc) (fid : option string),
             first
             = (if truthy_list (current_context presets)
                then [current] else []) ->
             asking
               ((if truthy_list (linked_assets presets)
                 then [Query (QLinkedAssets (get_current_project_name env)
                                (asset_id current))]
                 else [])
                ++ collect_queries env
                     (candidate_folders presets current
                        (get_linked_assets env
                           (get_current_project_name env) current)))
               (fun _ : list (LoadedData Container) => True)
               (bind
                  (if truthy_list (linked_assets presets)
                   then
                     bind
                       (query
                          (QLinkedAssets (get_current_project_name env)
                             (asset_id current))
                          (get_linked_assets env
                             (get_current_project_name env) current))
                       (fun link_assets => ret (first ++ link_assets))
                   else ret first)
                  (fun asset_docs =>
                     match asset_docs with
                     | [] =>
                         bind (log Warning NoLinkedAssets)
                           (fun _ => ret [])
                     | _ :: _ =>
                         load_prepared env lbn (linked_assets presets) fid
                           asset_docs []
                     end))).
  { intros first fid E.
    apply asking_bind
      with (Q1 := fun asset_docs =>
                    asset_docs
                    = candidate_folders presets current
                        (get_linked_assets env (get_current_project_name env)
                           current)).
    - unfold candidate_folders. rewrite <- E.
      destruct (truthy_list (linked_assets presets)).
      + rewrite <- (app_nil_r [Query _]).
        apply asking_bind
          with (Q1 := fun l =>
                        l = get_linked_assets env
                              (get_current_project_name env) current).
        * now apply asking_query.
        * intros l ->. now apply asking_ret.
        * reflexivity.
      + apply asking_ret. now rewrite app_nil_r.
    - intros asset_docs ->.
      destruct (candidate_folders presets current
                  (get_linked_assets env (get_current_project_name env)
                     current)) as [|a0 rest] eqn:Ec.
      + apply asking_of_confined.
        apply confined_bind with (Q1 := fun _ => True);
          [apply confined_emit; [reflexivity|exact I]|].
        intros _ _. apply confined_ret; exact I.
      + apply load_prepared_asking.
    - intros w e X.
      destruct (truthy_list (linked_assets presets)); discriminate. }
  destruct (truthy_list (current_context presets)) eqn:C.
  - apply (T [current] (Some (asset_id current)) eq_refl).
  - apply (T [] None eq_refl).
Qed.

End BuildQueries.

Lemma build_workfile_asking (Host Container : Type)
  (env : Env Host Container) :
  asking (build_queries env) (fun _ => True) (build_workfile env).
Proof.
  unfold build_workfile, build_queries. cbv zeta.
  change (?a :: ?l) with ([a] ++ l).
  apply asking_bind
    with (Q1 := fun a =>
                  a = get_asset_by_name env (get_current_project_name env)
                        (get_current_asset_name env)).
  { now apply asking_query. }
  2:{ intros w e X. discriminate. }
  intros found <-. destruct found as [current|].
  2:{ apply asking_of_confined.
      apply confined_bind with (Q1 := fun _ => True);
        [apply confined_emit; [reflexivity|exact I]|].
      intros _ _. apply confined_ret; exact I. }
  intros w.
  match goal with
  | |- (exists evs, events (fst ?r) = _ /\ _) /\ _ =>
      remember r as run eqn:R
  end.
  unfold bind in R at 1. rewrite collect_loaders_spec in R.
  destruct (duplicated_loader (discover_loader_plugins env)) as [n|].
  { subst run. cbn. split; [|exact I]. exists []. now rewrite app_nil_r. }
  cbv beta iota in R.
  destruct (negb (PyDict.truthy
                    (PyDict.of_seq loader_name (fun x => x)
                       (filter enabled (discover_loader_plugins env)))))
    eqn:T.
  - apply negb_true_iff, of_seq_truthy in T. rewrite T.
    rewrite bind_log in R. subst run. cbn. split; [|exact I]. eexists.
    split; reflexivity.
  - assert (N : filter enabled (discover_loader_plugins env) <> []).
    { intros E. rewrite E in T. discriminate. }
    subst run.
    destruct (filter enabled (discover_loader_plugins env)) as [|l0 ls] eqn:F;
      [contradiction|].
    rewrite <- F. apply build_for_task_asking.
    intros k l G. apply PyDictFacts.get_of_seq in G as [x [Ix [_ <-]]].
    now apply filter_In in Ix.
Qed.

Lemma collect_queries_length (Host Container : Type)
  (env : Env Host Container) (asset_docs : list AssetDoc) :
  length (collect_queries env asset_docs) <= 3.
Proof.
  destruct asset_docs; cbn; lia.
Qed.

Lemma build_queries_length (Host Container : Type)
  (env : Env Host Container) :
  length (build_queries env) <= 5.
Proof.
  unfold build_queries. cbv zeta. cbn [length].
  destruct (get_asset_by_name env _ _) as [current|]; [|cbn; lia].
  destruct (duplicated_loader _); [cbn; lia|].
  destruct (filter enabled _); [cbn; lia|].
  unfold task_queries. cbv zeta.
  destruct (get_build_presets env _ current) as [presets|]; [|cbn; lia].
  destruct (negb _ && negb _); [cbn; lia|].
  rewrite length_app.
  pose proof (collect_queries_length Host Container env
                (candidate_folders presets current
                   (get_linked_assets env (get_current_project_name env)
                      current))).
  destruct (truthy_list (linked_assets presets)); cbn [length]; lia.
Qed.

(** X18: the store traffic of a build.  Whether [build_workfile] returns
    or raises, it asks the store at most five times, however many folders,
    products and representations there are: first for the current folder;
    then, provided the folder exists, an enabled loader exists and no two
    enabled loaders share a name, the task has presets and one pool is
    filled, for the linked folders if the linked-folder pool is filled;
    and last, if there is a folder to process, once for the products of
    all these folders, once for their last versions and once for the
    representations of these versions.  Loading itself queries nothing. *)
Theorem build_store_queries (Host Container : Type)
  (env : Env Host Container) (w : World Host) :
  exists evs,
    events (fst (build_workfile env w)) = events w ++ evs
    /\ queries evs = build_queries env
    /\ length (queries evs) <= 5.
Proof.
  destruct (build_workfile_asking Host Container env w) as [[evs [E Q]] _].
  exists evs. split; [exact E|]. split; [exact Q|]. rewrite Q.
  apply build_queries_length.
Qed.
